(** * BotPYV5: signal classification and position lifecycle

    A shallow embedding of the two backend services of the trading bot,
    [RealtimeAnalyzerService.js] and [TradingEngineService.js], and the
    properties of the design document that concern them; then the
    strategy evaluators and the candle cache of the analyzer, and the
    performance statistics and the backtesting engine of [server.js].

    Conventions of the embedding.
    - A JavaScript number is a rational ([Q]).  Arithmetic is exact: the
      rounding of IEEE doubles, [NaN] and the infinities are not modelled.
      A division by zero, which yields [NaN] or an infinity in JavaScript,
      yields [0] here.  What is stated of a number is the expression the
      code computes it by, or an order between numbers that rounding
      keeps; no statement rests on a law of exact arithmetic that doubles
      break.  Where rounding decides, in [formatQuantity], the function is
      embedded again over binary64 floats ([Binary64]).
    - [undefined] and [null] are [None].
    - A [Map] with string keys is a [gmap string _]; an array is a [list];
      an object stored in an array is addressed by its index, so that a
      mutation through the reference is an update of the array slot.
    - A function that may throw returns a [Result]; a method that mutates
      the shared bot state, logs, persists, broadcasts or places orders is a
      state transformer over [World], which carries the bot state and the
      trace of the effects in the order they happen.
    - An [async] method is run to completion.  In paper mode (any mode
      but [REAL_LIVE], or no client) [openPosition] and [closePosition]
      do all their writes to the bot state before their first [await], so
      the calls of the service do run one after the other.  In live mode
      the debit and the push of [openPosition] come after
      [await createOrder], and a second signal may be evaluated in
      between: this interleaving is not modelled, and what is stated of
      the open positions over runs of calls is stated of paper mode.
    - [Date.now()] is an argument [now] (milliseconds) of each entry point. *)

From Stdlib Require Import QArith Qround Qabs Qminmax Lqa ZArith List.
From Stdlib Require Import Sorting.Sorted Sorting.Permutation.
From stdpp Require Import gmap strings list fin_maps sorting.
From Stdlib Require Floats.PrimFloat.

(** ** JavaScript numbers and values *)

Module JS.

(** [a < b] on numbers. *)
Definition ltb (a b : Q) : bool := negb (Qle_bool b a).

(** [a <= b] on numbers. *)
Definition leb (a b : Q) : bool := Qle_bool a b.

(** Truthiness of a number: [0] is falsy. *)
Definition truthy (a : Q) : bool := negb (Qeq_bool a 0).

(** Truthiness of a possibly undefined number. *)
Definition truthy_opt (a : option Q) : bool :=
  match a with
  | Some q => truthy q
  | None => false
  end.

(** [a < b] where either side may be [undefined]: the comparison with
    [undefined] is false. *)
Definition ltb_opt (a b : option Q) : bool :=
  match a, b with
  | Some x, Some y => ltb x y
  | _, _ => false
  end.

(** [Math.floor]. *)
Definition floor (a : Q) : Q := inject_Z (Qfloor a).

(** The number of elements of an array, as a number. *)
Definition len {A} (l : list A) : Z := Z.of_nat (length l).

(** [arr.slice(-n)]: the last [n] elements. *)
Definition slice_last {A} (n : nat) (l : list A) : list A :=
  drop (length l - n) l.

(** [arr.slice(-n, -m)] for [m <= n]. *)
Definition slice_neg {A} (n m : nat) (l : list A) : list A :=
  take (n - m) (drop (length l - n) l).

(** Errors a call may throw. *)
Inductive Error :=
| ReferenceError (name : string)
| TypeError (what : string)
| NetworkError (message : string).

(** The outcome of a call that may throw. *)
Inductive Result (A : Type) :=
| Ok (a : A)
| Throw (e : Error).
Arguments Ok {A} a.
Arguments Throw {A} e.

#[global] Instance Result_ret : MRet Result := fun A a => Ok a.
#[global] Instance Result_bind : MBind Result := fun A B f r =>
  match r with
  | Ok a => f a
  | Throw e => Throw e
  end.

Lemma bind_Ok {A B} (a : A) (f : A -> Result B) : Ok a ≫= f = f a.
Proof. reflexivity. Qed.

Lemma bind_Throw {A B} (e : Error) (f : A -> Result B) :
  Throw e ≫= f = Throw e.
Proof. reflexivity. Qed.

Lemma ltb_lt a b : ltb a b = true <-> (a < b)%Q.
Proof.
  unfold ltb. rewrite negb_true_iff.
  split.
  - intros H. apply Qnot_le_lt. intros Hle.
    apply Qle_bool_iff in Hle. congruence.
  - intros H. destruct (Qle_bool b a) eqn:E; [|reflexivity].
    apply Qle_bool_iff in E. exfalso. apply (Qlt_not_le _ _ H E).
Qed.

Lemma ltb_ge a b : ltb a b = false <-> (b <= a)%Q.
Proof.
  unfold ltb. rewrite negb_false_iff. apply Qle_bool_iff.
Qed.

Lemma leb_le a b : leb a b = true <-> (a <= b)%Q.
Proof. apply Qle_bool_iff. Qed.

Lemma leb_gt a b : leb a b = false <-> (b < a)%Q.
Proof.
  unfold leb. split.
  - intros H. apply Qnot_le_lt. intros Hle.
    apply Qle_bool_iff in Hle. congruence.
  - intros H. destruct (Qle_bool a b) eqn:E; [|reflexivity].
    apply Qle_bool_iff in E. exfalso. apply (Qlt_not_le _ _ H E).
Qed.

Lemma floor_le a : (floor a <= a)%Q.
Proof. apply Qfloor_le. Qed.

End JS.

(** ** RealtimeAnalyzerService.js *)

Module Analyzer.
Import JS.

(** A formatted candle: [{ open, high, low, close, volume }]. *)
Record Kline := {
  open : Q;
  high : Q;
  low : Q;
  close : Q;
  volume : Q
}.

(** One element of the array [BollingerBands.calculate] returns. *)
Record BBOutput := {
  upper : Q;
  middle : Q;
  lower : Q
}.

(** One element of the array [ADX.calculate] returns. *)
Record ADXOutput := {
  adx : Q;
  pdi : Q;
  mdi : Q
}.

(** The object [analyzeTimeframe] fills in; a key that was not set, or was
    set to [undefined], is [None]. *)
Record Analysis := {
  ema9_1m : option Q;
  volume_avg_1m : option Q;
  obv_1m_slope : option Q;
  cvd_5m_trending_up : option bool;
  momentum_confirmation_5m : option bool;
  bollinger_bands_15m : option (BBOutput * option Q);
  is_in_squeeze_15m : option bool;
  rsi_15m : option Q;
  adx_15m : option Q;
  atr_15m : option Q;
  atr_pct_15m : option Q;
  momentum_impulse_15m : option bool;
  rsi_1h : option Q;
  price_above_ema50_4h : option bool
}.

(** [const result = {}]. *)
Definition emptyAnalysis : Analysis :=
  {| ema9_1m := None; volume_avg_1m := None; obv_1m_slope := None;
     cvd_5m_trending_up := None; momentum_confirmation_5m := None;
     bollinger_bands_15m := None; is_in_squeeze_15m := None;
     rsi_15m := None; adx_15m := None; atr_15m := None;
     atr_pct_15m := None; momentum_impulse_15m := None;
     rsi_1h := None; price_above_ema50_4h := None |}.

(** [{ ...a, ...b }]: the keys of [b] win. *)
Definition spread (a b : Analysis) : Analysis :=
  let pick {T} (f : Analysis -> option T) :=
    match f b with
    | Some x => Some x
    | None => f a
    end in
  {| ema9_1m := pick ema9_1m; volume_avg_1m := pick volume_avg_1m;
     obv_1m_slope := pick obv_1m_slope;
     cvd_5m_trending_up := pick cvd_5m_trending_up;
     momentum_confirmation_5m := pick momentum_confirmation_5m;
     bollinger_bands_15m := pick bollinger_bands_15m;
     is_in_squeeze_15m := pick is_in_squeeze_15m;
     rsi_15m := pick rsi_15m; adx_15m := pick adx_15m;
     atr_15m := pick atr_15m; atr_pct_15m := pick atr_pct_15m;
     momentum_impulse_15m := pick momentum_impulse_15m;
     rsi_1h := pick rsi_1h;
     price_above_ema50_4h := pick price_above_ema50_4h |}.

(** A line of the service's log: level and which message. *)
Inductive LogEntry :=
| LogWarnHydrate (symbol : string) (e : Error)
| LogErrorFullAnalysis (symbol : string) (e : Error).

(** *** calculateCVD *)

Definition calculateCVD (klines : list Kline) : Q :=
  fold_left (fun cvd k =>
    let priceChange := (close k - open k)%Q in
    if ltb 0 priceChange then (cvd + volume k)%Q
    else if ltb priceChange 0 then (cvd - volume k)%Q
    else cvd) klines 0%Q.

(** *** The squeeze computation of the 15-minute case

    [bb.map(b => ((b.upper - b.lower) / b.middle) * 100)
       .filter(v => !isNaN(v))].
    With a middle band of zero JavaScript yields [NaN] (dropped by the
    filter, as here) when the bands coincide and an infinity otherwise; the
    statements below assume non-zero middle bands, which is what positive
    closing prices give. *)
Definition width_pct (b : BBOutput) : option Q :=
  if Qeq_bool (middle b) 0 then None
  else Some (((upper b - lower b) / middle b) * 100)%Q.

Definition bbWidths (bb : list BBOutput) : list Q :=
  omap width_pct bb.

(** [bbWidths[bbWidths.length-1]], read before the array is sorted. *)
Definition lastWidth (bb : list BBOutput) : option Q :=
  last (bbWidths bb).

(** [arr.sort((a, b) => a - b)]: ascending, stable. *)
Fixpoint insert_asc (x : Q) (l : list Q) : list Q :=
  match l with
  | [] => [x]
  | y :: l' => if ltb x y then x :: l else y :: insert_asc x l'
  end.

Fixpoint sort_asc (l : list Q) : list Q :=
  match l with
  | [] => []
  | x :: l' => insert_asc x (sort_asc l')
  end.

(** [bbWidths[Math.floor(bbWidths.length * 0.25)]] on the sorted array. *)
Definition squeezeThreshold (bb : list BBOutput) : option Q :=
  sort_asc (bbWidths bb) !! (length (bbWidths bb) / 4)%nat.

(** [lastWidth < squeezeThreshold]. *)
Definition squeeze_flag (bb : list BBOutput) : bool :=
  ltb_opt (lastWidth bb) (squeezeThreshold bb).

(** *** Concrete windows *)

(** A candle of a flat market. *)
Definition flat_candle : Kline :=
  {| open := 100; high := 100; low := 100; close := 100; volume := 1 |}.

(** Five falling candles followed by five rising ones, each of volume
    2. *)
Definition falling : Kline :=
  {| open := 100; high := 100; low := 99; close := 99; volume := 2 |}.
Definition rising : Kline :=
  {| open := 99; high := 100; low := 99; close := 100; volume := 2 |}.
Definition turn10 : list Kline := repeat falling 5 ++ repeat rising 5.

(** An indicator package that has nothing to report. *)
Definition silent1 (period : nat) (values : list Q) : list Q := [].
Definition silent_obv (closes volumes : list Q) : list Q := [].
Definition silent_bb (period : nat) (values : list Q) (stdDev : Q)
  : list BBOutput := [].
Definition silent_adx (h l c : list Q) (period : nat) : list ADXOutput := [].
Definition silent_atr (h l c : list Q) (period : nat) : list Q := [].

(** Bands of width 4%, 1% and 2% of a middle band of 100. *)
Definition band (halfWidth : Q) : BBOutput :=
  {| upper := 100 + halfWidth; middle := 100; lower := 100 - halfWidth |}.

(** The bands of a 50-candle window: 23 wide ones, 7 narrow ones, and a
    current band whose width is the eighth smallest. *)
Definition window31 : list BBOutput :=
  repeat (band 2) 23 ++ repeat (band (1 # 2)) 7 ++ [band 1].

Section Service.

(** The [technicalindicators] package. *)
Variable EMA_calculate : nat -> list Q -> list Q.
Variable SMA_calculate : nat -> list Q -> list Q.
Variable RSI_calculate : nat -> list Q -> list Q.
Variable OBV_calculate : list Q -> list Q -> list Q.
Variable BollingerBands_calculate : nat -> list Q -> Q -> list BBOutput.
Variable ADX_calculate : list Q -> list Q -> list Q -> nat -> list ADXOutput.
Variable ATR_calculate : list Q -> list Q -> list Q -> nat -> list Q.

(** The collaborators of [runFullAnalysis] and [hydrateSymbol]:
    [fetchKlines] (answered from the cache or the network) and
    [getBaseData] (the cached price and the 24-hour ticker).  What they
    deliver is left open; either may reject. *)
Record BaseData := {
  bd_price : Q;
  bd_volume : Q
}.
Variable fetchKlines : string -> string -> Result (list Kline).
Variable getBaseData : string -> Result BaseData.

(** The object [runFullAnalysis] hands to [evaluateStrategy]. *)
Record Combined := {
  symbol : string;
  price : Q;
  c_volume : Q;
  priceDirection : string;
  indicators : Analysis
}.

(** [evaluateStrategy] is the continuation of [runFullAnalysis]; what it
    returns is left open. *)
Variable ScoredPair : Type.
Variable evaluateStrategy :
  Combined -> Analysis -> Analysis -> list Kline -> Result ScoredPair.

(** *** getObvSlope, getCvdSlope *)

Definition getObvSlope (klines : list Kline) : Q :=
  if (length klines <? 2)%nat then 0%Q
  else
    let obv := OBV_calculate (map close klines) (map volume klines) in
    if (length obv <? 2)%nat then 0%Q
    else
      match obv !! (length obv - 1)%nat, obv !! (length obv - 2)%nat with
      | Some a, Some b => (a - b)%Q
      | _, _ => 0%Q
      end.

Definition getCvdSlope (klines : list Kline) : Q :=
  if (length klines <? 10)%nat then 0%Q
  else (calculateCVD (slice_last 5 klines)
        - calculateCVD (slice_neg 10 5 klines))%Q.

(** *** analyzeTimeframe

    The array-valued identifiers the 15-minute case can refer to.  The
    other names in scope are the parameters [klines] and [interval], the
    local [result], the block-scoped constants of the [switch] ([bb],
    [lastBB], [bbWidths], [lastWidth], [squeezeThreshold], [atr],
    [lastCandle5m], [avgVolume5m], [lastCandle15m], [avgVolume15m],
    [candleRange], [bodySize]) and the module-level [RSI], [ADX], [ATR],
    [BollingerBands], [EMA], [OBV], [SMA], [ScannerService], [scanner],
    [calculateCVD] and [RealtimeAnalyzerService]. *)
Definition scope (closes highs lows volumes : list Q)
  : list (string * list Q) :=
  [("closes", closes); ("highs", highs); ("lows", lows);
   ("volumes", volumes)].

(** Evaluating an identifier: a name that is not bound raises a
    [ReferenceError]. *)
Definition ident (sc : list (string * list Q)) (name : string)
  : Result (list Q) :=
  match List.find (fun b => String.eqb (fst b) name) sc with
  | Some b => Ok (snd b)
  | None => Throw (ReferenceError name)
  end.

Definition analyze_1m (klines : list Kline) (closes volumes : list Q)
  : Result Analysis :=
  Ok {| ema9_1m := last (EMA_calculate 9 closes);
        volume_avg_1m := last (SMA_calculate 20 volumes);
        obv_1m_slope := Some (getObvSlope klines);
        cvd_5m_trending_up := None; momentum_confirmation_5m := None;
        bollinger_bands_15m := None; is_in_squeeze_15m := None;
        rsi_15m := None; adx_15m := None; atr_15m := None;
        atr_pct_15m := None; momentum_impulse_15m := None;
        rsi_1h := None; price_above_ema50_4h := None |}.

Definition analyze_5m (klines : list Kline) (volumes : list Q)
  : Result Analysis :=
  match last klines with
  | None => Throw (TypeError "lastCandle5m")
  | Some lastCandle5m =>
    let avgVolume5m := last (SMA_calculate 20 volumes) in
    Ok {| ema9_1m := None; volume_avg_1m := None; obv_1m_slope := None;
          cvd_5m_trending_up := Some (ltb 0 (getCvdSlope klines));
          momentum_confirmation_5m :=
            Some (ltb (open lastCandle5m) (close lastCandle5m)
                  && ltb_opt avgVolume5m (Some (volume lastCandle5m)));
          bollinger_bands_15m := None; is_in_squeeze_15m := None;
          rsi_15m := None; adx_15m := None; atr_15m := None;
          atr_pct_15m := None; momentum_impulse_15m := None;
          rsi_1h := None; price_above_ema50_4h := None |}
  end.

Definition analyze_15m (klines : list Kline)
    (closes highs lows volumes : list Q) : Result Analysis :=
  let bb := BollingerBands_calculate 20 closes 2 in
  let lastBB :=
    default {| upper := 0; middle := 0; lower := 0 |} (last bb) in
  let r_bb := Some (lastBB, lastWidth bb) in
  let r_squeeze := Some (squeeze_flag bb) in
  let r_rsi := last (RSI_calculate 14 closes) in
  let sc := scope closes highs lows volumes in
  (* ADX.calculate({ high, low, close: closes, period: 14 }) *)
  h ← ident sc "high";
  l ← ident sc "low";
  let r_adx := adx <$> last (ADX_calculate h l closes 14) in
  (* ATR.calculate({ high, low, close: closes, period: 14 }) *)
  h' ← ident sc "high";
  l' ← ident sc "low";
  let atr := last (ATR_calculate h' l' closes 14) in
  match last closes, last klines with
  | Some lastClose, Some lastCandle15m =>
    let avgVolume15m := last (SMA_calculate 20 volumes) in
    let candleRange := (high lastCandle15m - low lastCandle15m)%Q in
    let bodySize := Qabs (close lastCandle15m - open lastCandle15m) in
    Ok {| ema9_1m := None; volume_avg_1m := None; obv_1m_slope := None;
          cvd_5m_trending_up := None; momentum_confirmation_5m := None;
          bollinger_bands_15m := r_bb;
          is_in_squeeze_15m := r_squeeze;
          rsi_15m := r_rsi;
          adx_15m := r_adx;
          atr_15m := atr;
          atr_pct_15m := (fun a => (a / lastClose) * 100)%Q <$> atr;
          momentum_impulse_15m :=
            Some (ltb 0 candleRange
                  && ltb (7 # 10) (bodySize / candleRange)
                  && ltb_opt ((fun v => v * 2)%Q <$> avgVolume15m)
                             (Some (volume lastCandle15m))
                  && ltb (open lastCandle15m) (close lastCandle15m));
          rsi_1h := None; price_above_ema50_4h := None |}
  | _, _ => Throw (TypeError "lastCandle15m")
  end.

Definition analyze_1h (closes : list Q) : Result Analysis :=
  Ok {| ema9_1m := None; volume_avg_1m := None; obv_1m_slope := None;
        cvd_5m_trending_up := None; momentum_confirmation_5m := None;
        bollinger_bands_15m := None; is_in_squeeze_15m := None;
        rsi_15m := None; adx_15m := None; atr_15m := None;
        atr_pct_15m := None; momentum_impulse_15m := None;
        rsi_1h := last (RSI_calculate 14 closes);
        price_above_ema50_4h := None |}.

Definition analyze_4h (closes : list Q) : Result Analysis :=
  Ok {| ema9_1m := None; volume_avg_1m := None; obv_1m_slope := None;
        cvd_5m_trending_up := None; momentum_confirmation_5m := None;
        bollinger_bands_15m := None; is_in_squeeze_15m := None;
        rsi_15m := None; adx_15m := None; atr_15m := None;
        atr_pct_15m := None; momentum_impulse_15m := None;
        rsi_1h := None;
        price_above_ema50_4h :=
          Some (ltb_opt (last (EMA_calculate 50 closes)) (last closes)) |}.

Definition analyzeTimeframe (klines : list Kline) (interval : string)
  : Result Analysis :=
  if (length klines <? 21)%nat then Ok emptyAnalysis
  else
    let closes := map close klines in
    let highs := map high klines in
    let lows := map low klines in
    let volumes := map volume klines in
    if String.eqb interval "1m" then analyze_1m klines closes volumes
    else if String.eqb interval "5m" then analyze_5m klines volumes
    else if String.eqb interval "15m"
      then analyze_15m klines closes highs lows volumes
    else if String.eqb interval "1h" then analyze_1h closes
    else if String.eqb interval "4h" then analyze_4h closes
    else Ok emptyAnalysis.

(** *** runFullAnalysis

    The body of the [try] block; [None] is the [null] of the early
    return. *)
Definition runFullAnalysis_try (sym : string)
  : Result (option ScoredPair) :=
  baseData ← getBaseData sym;
  klines1m ← fetchKlines sym "1m";
  klines5m ← fetchKlines sym "5m";
  klines15m ← fetchKlines sym "15m";
  klines1h ← fetchKlines sym "1h";
  klines4h ← fetchKlines sym "4h";
  if (length klines15m <? 50)%nat || (length klines1h <? 21)%nat
     || (length klines4h <? 51)%nat || (length klines1m <? 21)%nat
  then Ok None
  else
    analysis1m ← analyzeTimeframe klines1m "1m";
    analysis5m ← analyzeTimeframe klines5m "5m";
    analysis15m ← analyzeTimeframe klines15m "15m";
    analysis1h ← analyzeTimeframe klines1h "1h";
    analysis4h ← analyzeTimeframe klines4h "4h";
    let combined :=
      {| symbol := sym; price := bd_price baseData;
         c_volume := bd_volume baseData; priceDirection := "neutral";
         indicators := spread (spread analysis15m analysis1h) analysis4h |} in
    scored ← evaluateStrategy combined analysis1m analysis5m klines1m;
    Ok (Some scored).

(** The value returned, and the lines logged. *)
Definition runFullAnalysis (sym : string)
  : option ScoredPair * list LogEntry :=
  match runFullAnalysis_try sym with
  | Ok r => (r, [])
  | Throw e => (None, [LogErrorFullAnalysis sym e])
  end.

(** *** hydrateSymbol *)

Definition hydrateSymbol_try {Row : Type} (sym : string) (baseData : Row)
  : Result (option (Row * Analysis)) :=
  klines15m ← fetchKlines sym "15m";
  if (length klines15m <? 50)%nat then Ok None
  else
    analysis15m ← analyzeTimeframe klines15m "15m";
    Ok (Some (baseData, analysis15m)).

Definition hydrateSymbol {Row : Type} (sym : string) (baseData : Row)
  : option (Row * Analysis) * list LogEntry :=
  match hydrateSymbol_try sym baseData with
  | Ok r => (r, [])
  | Throw e => (None, [LogWarnHydrate sym e])
  end.

(** *** The 15-minute case never returns *)

Lemma ident_high_unbound closes highs lows volumes :
  ident (scope closes highs lows volumes) "high"
  = Throw (ReferenceError "high").
Proof. reflexivity. Qed.

Lemma analyze_15m_throws klines closes highs lows volumes :
  analyze_15m klines closes highs lows volumes
  = Throw (ReferenceError "high").
Proof. reflexivity. Qed.

Lemma analyzeTimeframe_short klines interval :
  (length klines < 21)%nat -> analyzeTimeframe klines interval = Ok emptyAnalysis.
Proof.
  intros H. unfold analyzeTimeframe.
  destruct (Nat.ltb_spec (length klines) 21) as [_|Hge]; [reflexivity|lia].
Qed.

Lemma analyzeTimeframe_15m_long klines :
  (21 <= length klines)%nat ->
  analyzeTimeframe klines "15m" = Throw (ReferenceError "high").
Proof.
  intros H. unfold analyzeTimeframe.
  destruct (Nat.ltb_spec (length klines) 21) as [Hlt|_]; [lia|].
  cbn [String.eqb Ascii.eqb Bool.eqb]. apply analyze_15m_throws.
Qed.

Lemma runFullAnalysis_try_no_signal sym :
  match runFullAnalysis_try sym with
  | Ok r => r = None
  | Throw _ => True
  end.
Proof.
  unfold runFullAnalysis_try.
  destruct (getBaseData sym) as [baseData|]; [rewrite bind_Ok|exact I].
  destruct (fetchKlines sym "1m") as [k1m|]; [rewrite bind_Ok|exact I].
  destruct (fetchKlines sym "5m") as [k5m|]; [rewrite bind_Ok|exact I].
  destruct (fetchKlines sym "15m") as [k15m|]; [rewrite bind_Ok|exact I].
  destruct (fetchKlines sym "1h") as [k1h|]; [rewrite bind_Ok|exact I].
  destruct (fetchKlines sym "4h") as [k4h|]; [rewrite bind_Ok|exact I].
  destruct (Nat.ltb_spec (length k15m) 50) as [|H15]; [reflexivity|].
  cbn [orb].
  destruct (_ || _ || _); [reflexivity|].
  destruct (analyzeTimeframe k1m "1m"); [rewrite bind_Ok|exact I].
  destruct (analyzeTimeframe k5m "5m"); [rewrite bind_Ok|exact I].
  rewrite analyzeTimeframe_15m_long by lia. exact I.
Qed.

(** C1. On every window of at least 21 candles the 15-minute case of
    [analyzeTimeframe] throws: its ADX call names [high], which is bound
    nowhere (the locals are [highs] and [lows]).  Hence [runFullAnalysis]
    and [hydrateSymbol], which analyse a 15-minute window of at least 50
    candles inside a [try], return [null] whatever the collaborators
    deliver: no classified pair ever leaves the analyzer. *)
Theorem analyzer_15m_always_fails :
  (forall klines, (21 <= length klines)%nat ->
     analyzeTimeframe klines "15m" = Throw (ReferenceError "high"))
  /\ (forall sym, fst (runFullAnalysis sym) = None)
  /\ (forall (Row : Type) sym (baseData : Row),
        fst (hydrateSymbol sym baseData) = None).
Proof.
  split; [exact analyzeTimeframe_15m_long|]. split.
  - intros sym. unfold runFullAnalysis.
    pose proof (runFullAnalysis_try_no_signal sym) as H.
    destruct (runFullAnalysis_try sym); cbn; [exact H|reflexivity].
  - intros Row sym baseData. unfold hydrateSymbol, hydrateSymbol_try.
    destruct (fetchKlines sym "15m") as [k15m|];
      [rewrite bind_Ok|reflexivity].
    destruct (Nat.ltb_spec (length k15m) 50) as [|H15]; [reflexivity|].
    rewrite analyzeTimeframe_15m_long by lia. reflexivity.
Qed.

(** *** Which windows can be analysed *)

(** X23. [analyzeTimeframe] throws exactly on a 15-minute window of at
    least 21 candles; on every other input it returns, and what it
    returns for an interval it does not know is the empty object. *)
Theorem analyzeTimeframe_throws_iff klines interval :
  ((exists e, analyzeTimeframe klines interval = Throw e)
   <-> interval = "15m" /\ (21 <= length klines)%nat)
  /\ (~ In interval ["1m"; "5m"; "15m"; "1h"; "4h"] ->
      analyzeTimeframe klines interval = Ok emptyAnalysis).
Proof.
  unfold analyzeTimeframe.
  destruct (Nat.ltb_spec (length klines) 21) as [Hshort|Hlong].
  { split; [|reflexivity].
    split; [intros [e He]; discriminate He|intros [_ H]; lia]. }
  destruct (String.eqb_spec interval "1m") as [->|H1].
  { split; [|intros H; exfalso; apply H; cbn; tauto].
    split; [intros [e He]; discriminate He|intros [H _]; discriminate H]. }
  destruct (String.eqb_spec interval "5m") as [->|H5].
  { split; [|intros H; exfalso; apply H; cbn; tauto].
    unfold analyze_5m.
    destruct (last klines) as [lastCandle5m|] eqn:Hlast.
    - split; [intros [e He]; discriminate He|intros [H _]; discriminate H].
    - apply last_None in Hlast. subst klines. cbn in Hlong. lia. }
  destruct (String.eqb_spec interval "15m") as [->|H15].
  { split; [|intros H; exfalso; apply H; cbn; tauto].
    rewrite analyze_15m_throws.
    split; [intros _; split; [reflexivity|exact Hlong]|].
    intros _. eexists. reflexivity. }
  destruct (String.eqb_spec interval "1h") as [->|H1h].
  { split; [|intros H; exfalso; apply H; cbn; tauto].
    split; [intros [e He]; discriminate He|intros [H _]; discriminate H]. }
  destruct (String.eqb_spec interval "4h") as [->|H4h].
  { split; [|intros H; exfalso; apply H; cbn; tauto].
    split; [intros [e He]; discriminate He|intros [H _]; discriminate H]. }
  split; [|reflexivity].
  split; [intros [e He]; discriminate He|intros [H _]; congruence].
Qed.

End Service.

(** *** The squeeze flag *)

Lemma insert_asc_perm x l : Permutation (insert_asc x l) (x :: l).
Proof.
  induction l as [|y l IH]; cbn.
  - reflexivity.
  - destruct (ltb x y); [reflexivity|].
    rewrite IH. apply perm_swap.
Qed.

Lemma sort_asc_perm l : Permutation (sort_asc l) l.
Proof.
  induction l as [|x l IH]; cbn.
  - reflexivity.
  - rewrite insert_asc_perm. now constructor.
Qed.

Lemma sort_asc_length l : length (sort_asc l) = length l.
Proof. apply Permutation_length, sort_asc_perm. Qed.

Lemma insert_asc_sorted x l :
  StronglySorted Qle l -> StronglySorted Qle (insert_asc x l).
Proof.
  induction 1 as [|y l Hs IH Hall]; cbn.
  - repeat constructor.
  - destruct (ltb x y) eqn:E.
    + apply ltb_lt in E. constructor.
      * now constructor.
      * constructor; [now apply Qlt_le_weak|].
        eapply Forall_impl; [exact Hall|].
        intros z Hz. cbn in Hz. apply Qlt_le_weak.
        eapply Qlt_le_trans; eassumption.
    + apply ltb_ge in E. constructor; [exact IH|].
      eapply Permutation_Forall;
        [symmetry; apply insert_asc_perm|now constructor].
Qed.

Lemma sort_asc_sorted l : StronglySorted Qle (sort_asc l).
Proof.
  induction l as [|x l IH]; cbn.
  - constructor.
  - now apply insert_asc_sorted.
Qed.

(** The element of index [k] of the sorted array splits the array in [k]
    elements that are at most it and the others that are at least it. *)
Lemma sort_asc_rank (l : list Q) (k : nat) (t : Q) :
  sort_asc l !! k = Some t ->
  exists below above,
    Permutation l (below ++ t :: above)
    /\ length below = k
    /\ Forall (fun x => (x <= t)%Q) below
    /\ Forall (fun x => (t <= x)%Q) above.
Proof.
  intros Hk.
  pose proof (take_drop_middle _ _ _ Hk) as Hsplit.
  pose proof (sort_asc_sorted l) as Hs. rewrite <- Hsplit in Hs.
  exists (take k (sort_asc l)), (drop (S k) (sort_asc l)).
  split; [|split; [|split]].
  - rewrite Hsplit. symmetry. apply sort_asc_perm.
  - rewrite length_take. apply lookup_lt_Some in Hk. lia.
  - apply Forall_forall. intros x Hx.
    eapply (StronglySorted_app_1_elem_of Qle _ _ x t Hs);
      [exact Hx|apply list_elem_of_here].
  - apply StronglySorted_app_1_r in Hs. inversion Hs; subst. assumption.
Qed.

Lemma bbWidths_length (bb : list BBOutput) :
  Forall (fun b => ~ (middle b == 0)%Q) bb ->
  length (bbWidths bb) = length bb.
Proof.
  induction 1 as [|b bb Hb _ IH]; [reflexivity|].
  unfold bbWidths in *. cbn. unfold width_pct at 1.
  destruct (Qeq_bool (middle b) 0) eqn:E.
  - apply Qeq_bool_iff in E. contradiction.
  - cbn. now rewrite IH.
Qed.

(** C8, as the code has it. On a window whose middle bands are not zero,
    the current width and the threshold both exist, the threshold is the
    width of rank [floor(n * 0.25)] in ascending order (so [floor(n/4)]
    widths are at most it and the rest at least it), and the flag is set
    exactly when the current width is strictly below the threshold: a
    current width equal to the threshold is not a squeeze. *)
Theorem squeeze_flag_strictly_below (bb : list BBOutput) :
  Forall (fun b => ~ (middle b == 0)%Q) bb ->
  bb <> [] ->
  exists w t below above,
    lastWidth bb = Some w
    /\ squeezeThreshold bb = Some t
    /\ Permutation (bbWidths bb) (below ++ t :: above)
    /\ length below = (length (bbWidths bb) / 4)%nat
    /\ Forall (fun x => (x <= t)%Q) below
    /\ Forall (fun x => (t <= x)%Q) above
    /\ (squeeze_flag bb = true <-> (w < t)%Q)
    /\ ((w == t)%Q -> squeeze_flag bb = false).
Proof.
  intros Hmid Hne.
  pose proof (bbWidths_length bb Hmid) as Hlen.
  assert (Hpos : (0 < length (bbWidths bb))%nat).
  { rewrite Hlen. destruct bb; [congruence|cbn; lia]. }
  destruct (last (bbWidths bb)) as [w|] eqn:Hw.
  2:{ apply last_None in Hw. rewrite Hw in Hpos. cbn in Hpos. lia. }
  destruct (sort_asc (bbWidths bb) !! (length (bbWidths bb) / 4)%nat)
    as [t|] eqn:Ht.
  2:{ apply lookup_ge_None in Ht. rewrite sort_asc_length in Ht.
      pose proof (Nat.Div0.div_le_upper_bound (length (bbWidths bb)) 4
                    (length (bbWidths bb))) as Hdiv.
      assert ((length (bbWidths bb) / 4 < length (bbWidths bb))%nat)
        by (apply Nat.div_lt; lia).
      lia. }
  destruct (sort_asc_rank _ _ _ Ht) as (below & above & Hp & Hl & Hb & Ha).
  exists w, t, below, above.
  unfold lastWidth, squeezeThreshold, squeeze_flag, lastWidth,
    squeezeThreshold.
  rewrite Hw, Ht. cbn [ltb_opt].
  repeat split; try assumption.
  - apply ltb_lt.
  - apply ltb_lt.
  - intros Heq. apply ltb_ge. rewrite Heq. apply Qle_refl.
Qed.

(** *** The slope of the cumulative volume delta *)

(** X25. The slope [getCvdSlope] reports depends on the last ten candles
    only: however long the window, it is the delta of the last five
    candles minus the delta of the five before them. *)
Theorem getCvdSlope_last_ten (older recent : list Kline) :
  length recent = 10%nat ->
  getCvdSlope (older ++ recent) = getCvdSlope recent
  /\ getCvdSlope recent
     = (calculateCVD (drop 5 recent) - calculateCVD (take 5 recent))%Q.
Proof.
  intros Hlen.
  assert (Hself : getCvdSlope recent
          = (calculateCVD (drop 5 recent) - calculateCVD (take 5 recent))%Q).
  { unfold getCvdSlope, slice_last, slice_neg. rewrite Hlen.
    cbn [Nat.ltb Nat.leb Nat.sub]. rewrite drop_0. reflexivity. }
  split; [|exact Hself].
  rewrite Hself. unfold getCvdSlope, slice_last, slice_neg.
  rewrite length_app, Hlen.
  destruct (Nat.ltb_spec (length older + 10) 10) as [Hlt|_]; [lia|].
  rewrite !drop_app_ge by lia.
  replace (length older + 10 - 5 - length older)%nat with 5%nat by lia.
  replace (length older + 10 - 10 - length older)%nat with 0%nat by lia.
  rewrite drop_0. reflexivity.
Qed.

(** X26. On bands whose middle is not zero, a window with fewer than
    four bands, or one whose widths are all equal, is never flagged as a
    squeeze. *)
Theorem squeeze_flag_needs_spread (bb : list BBOutput) :
  Forall (fun b => ~ (middle b == 0)%Q) bb ->
  (length bb < 4)%nat
  \/ (exists w, Forall (fun x => (x == w)%Q) (bbWidths bb)) ->
  squeeze_flag bb = false.
Proof.
  intros Hmid H.
  rewrite <- (bbWidths_length bb Hmid) in H.
  unfold squeeze_flag, lastWidth, squeezeThreshold.
  destruct (last (bbWidths bb)) as [w|] eqn:Hw; [|reflexivity].
  destruct (sort_asc (bbWidths bb) !! (length (bbWidths bb) / 4)%nat)
    as [t|] eqn:Ht; [|reflexivity].
  cbn [ltb_opt]. apply ltb_ge.
  apply last_Some in Hw. destruct Hw as [front Hw].
  destruct (sort_asc_rank _ _ _ Ht) as (below & above & Hp & Hl & _ & Ha).
  destruct H as [Hfew|[w0 Hall]].
  - assert (Hk : (length (bbWidths bb) / 4 = 0)%nat)
      by (apply Nat.div_small; exact Hfew).
    rewrite Hk in Hl. destruct below; [|discriminate Hl].
    cbn [app] in Hp.
    assert (Hge : Forall (fun x => (t <= x)%Q) (bbWidths bb)).
    { eapply Permutation_Forall; [symmetry; exact Hp|].
      constructor; [apply Qle_refl|exact Ha]. }
    rewrite Hw in Hge. apply Forall_app in Hge.
    destruct Hge as [_ Hge]. inversion Hge; subst. assumption.
  - assert (Ht0 : (t == w0)%Q).
    { pose proof (Permutation_Forall Hp Hall) as Hall'.
      apply Forall_app in Hall'. destruct Hall' as [_ Hall'].
      inversion Hall'; subst. assumption. }
    rewrite Hw in Hall. apply Forall_app in Hall.
    destruct Hall as [_ Hall]. inversion Hall; subst.
    rewrite Ht0. match goal with H : (w == w0)%Q |- _ => rewrite H end.
    apply Qle_refl.
Qed.

(** *** The theorems at work *)

Lemma analyzer_15m_always_fails_witness :
  (21 <= length (repeat flat_candle 21))%nat
  /\ analyzeTimeframe silent1 silent1 silent1 silent_obv silent_bb
       silent_adx silent_atr (repeat flat_candle 21) "15m"
     = Throw (ReferenceError "high").
Proof.
  split; [cbn; lia|].
  apply (proj1 (analyzer_15m_always_fails silent1 silent1 silent1
                  silent_obv silent_bb silent_adx silent_atr
                  (fun _ _ => Ok (repeat flat_candle 201))
                  (fun _ => Ok {| bd_price := 100; bd_volume := 1 |})
                  unit (fun _ _ _ _ => Ok tt))).
  cbn; lia.
Defined.

Lemma squeeze_flag_strictly_below_witness :
  Forall (fun b => ~ (middle b == 0)%Q) window31
  /\ window31 <> []
  /\ exists w t below above,
       lastWidth window31 = Some w
       /\ squeezeThreshold window31 = Some t
       /\ Permutation (bbWidths window31) (below ++ t :: above)
       /\ length below = (length (bbWidths window31) / 4)%nat
       /\ Forall (fun x => (x <= t)%Q) below
       /\ Forall (fun x => (t <= x)%Q) above
       /\ (squeeze_flag window31 = true <-> (w < t)%Q)
       /\ ((w == t)%Q -> squeeze_flag window31 = false).
Proof.
  assert (Hmid : Forall (fun b => ~ (middle b == 0)%Q) window31).
  { unfold window31. cbn [repeat app].
    repeat constructor; intros H; discriminate H. }
  assert (Hne : window31 <> []) by discriminate.
  split; [exact Hmid|]. split; [exact Hne|].
  exact (squeeze_flag_strictly_below window31 Hmid Hne).
Defined.

(** C8, as the design document has it, fails. The current band of
    [window31] is 2% wide, which is exactly the 25th-percentile width of
    the window, and the flag is not set. *)
Lemma squeeze_at_percentile_not_flagged :
  lastWidth window31 = Some (200 # 100)
  /\ squeezeThreshold window31 = Some (200 # 100)
  /\ (200 # 100 <= 200 # 100)%Q
  /\ squeeze_flag window31 = false.
Proof.
  split; [vm_compute; reflexivity|].
  split; [vm_compute; reflexivity|].
  split; [apply Qle_refl|vm_compute; reflexivity].
Qed.

Lemma getCvdSlope_last_ten_witness :
  getCvdSlope (repeat flat_candle 40 ++ turn10) = getCvdSlope turn10.
Proof.
  apply (getCvdSlope_last_ten (repeat flat_candle 40) turn10).
  reflexivity.
Defined.

Lemma squeeze_flag_needs_spread_witness :
  squeeze_flag (repeat (band 1) 31) = false.
Proof.
  apply (squeeze_flag_needs_spread (repeat (band 1) 31)).
  - cbn [repeat]. repeat constructor; intros H; discriminate H.
  - right. exists (200 # 100). vm_compute.
    repeat constructor.
Defined.

(** A turn from selling to buying reads as a positive slope of the whole
    volume of the ten candles. *)
Example turn10_slope : (getCvdSlope turn10 == 20)%Q.
Proof. vm_compute. reflexivity. Qed.

End Analyzer.

(** ** RealtimeAnalyzerService.js: the candle cache and the strategy
    evaluators *)

Module Classifier.
Import JS Analyzer.

(** The settings the evaluators read. *)
Record Settings := {
  USE_RSI_SAFETY_FILTER : bool;
  RSI_OVERBOUGHT_THRESHOLD : Q;
  USE_RSI_MTF_FILTER : bool;
  RSI_15M_OVERBOUGHT_THRESHOLD : Q;
  USE_IGNITION_STRATEGY : bool;
  IGNITION_PRICE_SPIKE_PCT : Q;
  IGNITION_VOLUME_MULTIPLE : Q;
  USE_VOLUME_CONFIRMATION : bool;
  USE_OBV_VALIDATION : bool;
  USE_CVD_FILTER : bool
}.

(** The checklist; an entry copied from a key that was never set is
    [undefined], that is [None]. *)
Record Conditions := {
  trend : option bool;
  squeeze : option bool;
  breakout : option bool;
  c_volume_ok : option bool;
  safety : option bool;
  obv : option bool;
  rsi_mtf : option bool;
  c_cvd_5m_trending_up : option bool;
  momentum_impulse : option bool;
  momentum_confirmation : option bool
}.

(** The literal [conditions] of [evaluateStrategy]. *)
Definition noConditions : Conditions :=
  {| trend := Some false; squeeze := Some false; breakout := Some false;
     c_volume_ok := Some false; safety := Some false; obv := Some false;
     rsi_mtf := Some false; c_cvd_5m_trending_up := Some false;
     momentum_impulse := Some false;
     momentum_confirmation := Some false |}.

(** Truthiness of an entry. *)
Definition holds (c : option bool) : bool := default false c.

(** [Object.values(conditions)], in the order of the keys. *)
Definition values (c : Conditions) : list (option bool) :=
  [trend c; squeeze c; breakout c; c_volume_ok c; safety c; obv c;
   rsi_mtf c; c_cvd_5m_trending_up c; momentum_impulse c;
   momentum_confirmation c].

(** [Object.values(conditions).filter(c => c === true).length]. *)
Definition metCount (c : Conditions) : nat :=
  length (List.filter (fun v => match v with
                                | Some true => true
                                | _ => false
                                end)
            (values c)).

(** What an evaluator returns. *)
Record Verdict := {
  score : string;
  score_value : Z;
  strategy_type : string;
  conditions : Conditions
}.

(** The pair as [evaluateStrategy] returns it: the combined object with
    the keys it adds. *)
Record Scored := {
  s_pair : Combined;
  s_conditions : Conditions;
  conditions_met_count : nat;
  s_score : string;
  s_score_value : Z;
  s_strategy_type : string;
  is_on_hotlist : bool
}.

(** [x || 0] on a possibly undefined number. *)
Definition orZero (x : option Q) : Q := default 0%Q x.

(** A closed 1-minute candle with the fields of the stream ([o], [h],
    [l], [c], [v] after [parseFloat]) is a [Kline]. *)

(** [klines.push(k); if (klines.length > 201) klines.shift()], the
    window update of [handleNewKline]. *)
Definition pushWindow (klines : list Kline) (k : Kline) : list Kline :=
  let pushed := klines ++ [k] in
  if (201 <? length pushed)%nat then drop 1 pushed else pushed.

(** The key of [klineData]. *)
Definition cacheKey (sym interval : string) : string :=
  (sym ++ "_" ++ interval)%string.

(** A flat 1-minute history, a spike on high volume, and the settings of
    the server with the Ignition strategy enabled. *)
Definition quiet1m : list Kline := repeat flat_candle 21.

(** A candle that gains 7% on 50 times the usual volume. *)
Definition spike_candle : Kline :=
  {| open := 100; high := 108; low := 100; close := 107; volume := 50 |}.

Definition spike1m : list Kline := repeat flat_candle 20 ++ [spike_candle].

Definition sample_settings : Settings :=
  {| USE_RSI_SAFETY_FILTER := true; RSI_OVERBOUGHT_THRESHOLD := 75;
     USE_RSI_MTF_FILTER := false; RSI_15M_OVERBOUGHT_THRESHOLD := 70;
     USE_IGNITION_STRATEGY := true; IGNITION_PRICE_SPIKE_PCT := 5;
     IGNITION_VOLUME_MULTIPLE := 10;
     USE_VOLUME_CONFIRMATION := true; USE_OBV_VALIDATION := true;
     USE_CVD_FILTER := false |}.

(** A simple moving average, for the scenarios: the means of the windows
    of [period] values. *)
Fixpoint windows_mean (fuel period : nat) (values : list Q) : list Q :=
  match fuel with
  | O => []
  | S fuel' =>
    if (length values <? period)%nat then []
    else (fold_right Qplus 0 (take period values)
          / inject_Z (Z.of_nat period))%Q
         :: windows_mean fuel' period (drop 1 values)
  end.

Definition sma (period : nat) (values : list Q) : list Q :=
  windows_mean (length values) period values.

(** A pair in an uptrend on the 4-hour chart, overbought on the 1-hour
    one. *)
Definition hot_pair : Combined :=
  {| symbol := "BTCUSDT"; price := 107; Analyzer.c_volume := 1000;
     priceDirection := "neutral";
     indicators :=
         {| ema9_1m := None; volume_avg_1m := None; obv_1m_slope := None;
            cvd_5m_trending_up := None; momentum_confirmation_5m := None;
            bollinger_bands_15m := None; is_in_squeeze_15m := Some false;
            rsi_15m := Some 60%Q; adx_15m := None; atr_15m := None;
            atr_pct_15m := None; momentum_impulse_15m := Some false;
            rsi_1h := Some 90%Q; price_above_ema50_4h := Some true |} |}.

(** A pair below its 4-hour average. *)
Definition cold_pair : Combined :=
  {| symbol := "ETHUSDT"; price := 50; Analyzer.c_volume := 1000;
     priceDirection := "neutral";
     indicators :=
         {| ema9_1m := None; volume_avg_1m := None; obv_1m_slope := None;
            cvd_5m_trending_up := None; momentum_confirmation_5m := None;
            bollinger_bands_15m := None; is_in_squeeze_15m := Some true;
            rsi_15m := Some 40%Q; adx_15m := None; atr_15m := None;
            atr_pct_15m := None; momentum_impulse_15m := Some true;
            rsi_1h := Some 40%Q; price_above_ema50_4h := Some false |} |}.

(** *** The candle cache

    [this.klineData] is a map from keys to arrays of candles.  The
    exchange is what [scanner.fetchKlinesFromBinance(symbol, interval, 0,
    limit)] answers at the time of a call, its rows already mapped to
    candles; it may reject. *)

(** An exchange that is down, and one that serves a flat history of the
    length asked for. *)
Definition exchange_down (sym interval : string) (limit : nat)
  : Result (list Kline) := Throw (NetworkError "timeout").

Definition exchange_flat (sym interval : string) (limit : nat)
  : Result (list Kline) := Ok (repeat flat_candle limit).

(** *** fetchKlines

    The candles returned and the cache afterwards. *)
Definition fetchKlines
    (fetchKlinesFromBinance : string -> string -> nat -> Result (list Kline))
    (klineData : gmap string (list Kline)) (sym interval : string)
    (limit : nat) : Result (list Kline * gmap string (list Kline)) :=
  let key := cacheKey sym interval in
  let fromBinance :=
    formattedKlines ← fetchKlinesFromBinance sym interval limit;
    Ok (formattedKlines, <[key := formattedKlines]> klineData) in
  match klineData !! key with
  | Some cachedKlines =>
    if (limit <=? length cachedKlines)%nat then Ok (cachedKlines, klineData)
    else fromBinance
  | None => fromBinance
  end.

(** *** The cache over runFullAnalysis

    [runFullAnalysis] asks [fetchKlines] for the five windows of the
    symbol; each fetch reads and writes its own key only, and one that
    rejects leaves its key as it was (the rejection is caught by the
    [try]). *)
Definition analysisIntervals : list string := ["1m"; "5m"; "15m"; "1h"; "4h"].

Definition runFullAnalysis_cache
    (fetchKlinesFromBinance : string -> string -> nat -> Result (list Kline))
    (klineData : gmap string (list Kline)) (sym : string)
  : gmap string (list Kline) :=
  fold_left (fun klineData interval =>
               match fetchKlines fetchKlinesFromBinance klineData sym
                       interval 201 with
               | Ok fetched => snd fetched
               | Throw _ => klineData
               end)
            analysisIntervals klineData.

(** *** The cache over handleNewKline

    The array in the cache is the one that is pushed to. *)
Definition handleNewKline_cache
    (fetchKlinesFromBinance : string -> string -> nat -> Result (list Kline))
    (klineData : gmap string (list Kline))
    (sym interval : string) (formattedKline : Kline)
  : Result (gmap string (list Kline)) :=
  let key := cacheKey sym interval in
  klineData1 ←
    match klineData !! key with
    | Some _ => Ok klineData
    | None =>
      fetched ← fetchKlines fetchKlinesFromBinance klineData sym interval 200;
      Ok (<[key := fst fetched]> (snd fetched))
    end;
  match klineData1 !! key with
  | Some klines =>
    Ok (runFullAnalysis_cache fetchKlinesFromBinance
          (<[key := pushWindow klines formattedKline]> klineData1) sym)
  | None => Throw (TypeError "klines")
  end.

(** A stream of closed candles of one symbol and interval, each with what
    the exchange answers while it is handled. *)
Fixpoint feed (klineData : gmap string (list Kline)) (sym interval : string)
    (stream : list ((string -> string -> nat -> Result (list Kline)) * Kline))
  : Result (gmap string (list Kline)) :=
  match stream with
  | [] => Ok klineData
  | (exchange, k) :: rest =>
    klineData' ← handleNewKline_cache exchange klineData sym interval k;
    feed klineData' sym interval rest
  end.

(** *** The cache keeps the latest candles *)

Lemma pushWindow_latest (klines : list Kline) (k : Kline) :
  (length klines <= 201)%nat ->
  pushWindow klines k = slice_last 201 (klines ++ [k])
  /\ (length (pushWindow klines k) <= 201)%nat
  /\ (length klines = 201%nat -> length (pushWindow klines k) = 201%nat).
Proof.
  intros Hlen. unfold pushWindow, slice_last. cbv zeta.
  rewrite length_app. cbn [length].
  destruct (Nat.ltb_spec 201 (length klines + 1)) as [Hfull|Hroom].
  - replace (length klines + 1 - 201)%nat with 1%nat by lia.
    split; [reflexivity|].
    rewrite length_drop, length_app. cbn [length]. lia.
  - replace (length klines + 1 - 201)%nat with 0%nat by lia.
    split; [reflexivity|].
    rewrite length_app. cbn [length]. lia.
Qed.

Lemma slice_last_app {A} (n : nat) (a b : list A) :
  slice_last n (slice_last n a ++ b) = slice_last n (a ++ b).
Proof.
  unfold slice_last.
  rewrite length_app, length_drop, length_app.
  destruct (Nat.le_gt_cases n (length a)) as [Hge|Hlt].
  - rewrite <- (drop_app_le a b (length a - n)) by lia.
    rewrite drop_drop. f_equal. lia.
  - replace (length a - n)%nat with 0%nat by lia.
    rewrite !drop_0. f_equal. lia.
Qed.

(** X21. What [fetchKlines] returns is what the cache then holds under
    the key, and no other key changes.  A cached window of at least
    [limit] candles is returned as it is, without a request; otherwise
    the exchange is asked, and if it rejects so does [fetchKlines].  An
    answer of at least [limit] candles serves the next call from the
    cache, whatever the exchange would answer then. *)
Theorem fetchKlines_cache
    (exchange later : string -> string -> nat -> Result (list Kline))
    (klineData : gmap string (list Kline)) (sym interval : string)
    (limit : nat) :
  let key := cacheKey sym interval in
  match fetchKlines exchange klineData sym interval limit with
  | Ok (klines, klineData') =>
    klineData' !! key = Some klines
    /\ (forall k, k <> key -> klineData' !! k = klineData !! k)
    /\ (forall cachedKlines,
          klineData !! key = Some cachedKlines ->
          (limit <= length cachedKlines)%nat ->
          klines = cachedKlines /\ klineData' = klineData)
    /\ ((limit <= length klines)%nat ->
        fetchKlines later klineData' sym interval limit
        = Ok (klines, klineData'))
  | Throw e =>
    exchange sym interval limit = Throw e
    /\ forall cachedKlines,
         klineData !! key = Some cachedKlines ->
         (length cachedKlines < limit)%nat
  end.
Proof.
  intros key.
  assert (Hhit : forall kd ks,
            kd !! key = Some ks -> (limit <= length ks)%nat ->
            fetchKlines later kd sym interval limit = Ok (ks, kd)).
  { intros kd ks Hks Hle. unfold fetchKlines. cbv zeta. fold key.
    rewrite Hks.
    destruct (Nat.leb_spec limit (length ks)); [reflexivity|lia]. }
  unfold fetchKlines. cbv zeta. fold key.
  assert (Hmiss :
    (forall cachedKlines, klineData !! key = Some cachedKlines ->
       (length cachedKlines < limit)%nat) ->
    match
      (formattedKlines ← exchange sym interval limit;
       Ok (formattedKlines, <[key := formattedKlines]> klineData))
    with
    | Ok (klines, klineData') =>
      klineData' !! key = Some klines
      /\ (forall k, k <> key -> klineData' !! k = klineData !! k)
      /\ (forall cachedKlines,
            klineData !! key = Some cachedKlines ->
            (limit <= length cachedKlines)%nat ->
            klines = cachedKlines /\ klineData' = klineData)
      /\ ((limit <= length klines)%nat ->
          fetchKlines later klineData' sym interval limit
          = Ok (klines, klineData'))
    | Throw e =>
      exchange sym interval limit = Throw e
      /\ forall cachedKlines,
           klineData !! key = Some cachedKlines ->
           (length cachedKlines < limit)%nat
    end).
  { intros Hshort.
    destruct (exchange sym interval limit) as [ks|e];
      [rewrite bind_Ok; cbv beta iota
      |rewrite bind_Throw; split; [reflexivity|exact Hshort]].
    split; [apply lookup_insert_eq|].
    split; [intros k Hk; apply lookup_insert_ne; congruence|].
    split.
    - intros cachedKlines Hc Hle. specialize (Hshort _ Hc). lia.
    - intros Hle. apply Hhit; [apply lookup_insert_eq|exact Hle]. }
  destruct (klineData !! key) as [cachedKlines|] eqn:Hget.
  - destruct (Nat.leb_spec limit (length cachedKlines)) as [Hle|Hlt].
    + split; [exact Hget|]. split; [reflexivity|]. split.
      * intros c Hc _. split; congruence.
      * intros _. apply Hhit; assumption.
    + apply Hmiss. intros c Hc. congruence.
  - apply Hmiss. intros c Hc. discriminate Hc.
Qed.

(** The fetches of an analysis leave a full window where it is. *)
Lemma runFullAnalysis_cache_full exchange klineData sym key klines :
  klineData !! key = Some klines -> (201 <= length klines)%nat ->
  runFullAnalysis_cache exchange klineData sym !! key = Some klines.
Proof.
  unfold runFullAnalysis_cache.
  generalize analysisIntervals as intervals. intros intervals.
  revert klineData.
  induction intervals as [|interval rest IH]; intros klineData Hget Hlen;
    cbn [fold_left]; [exact Hget|].
  apply IH; [|exact Hlen].
  pose proof (fetchKlines_cache exchange exchange klineData sym interval 201)
    as Hfetch.
  cbv zeta in Hfetch.
  destruct (fetchKlines exchange klineData sym interval 201)
    as [[ks kd']|e]; [|exact Hget].
  cbn [snd]. destruct Hfetch as (_ & Hother & Hsame & _).
  destruct (decide (key = cacheKey sym interval)) as [->|Hne].
  - destruct (Hsame _ Hget Hlen) as [_ ->]. exact Hget.
  - rewrite Hother by exact Hne. exact Hget.
Qed.

(** X20. Once the window of a symbol and interval is full (201 candles),
    handling a stream of closed candles leaves in the cache the last 201
    candles of the window followed by the stream, the oldest dropped
    first: no candle of the stream is lost and the window is never
    downloaded again, whatever the exchange answers meanwhile. *)
Theorem feed_keeps_latest (klineData : gmap string (list Kline))
    (sym interval : string) (klines : list Kline)
    (stream : list ((string -> string -> nat -> Result (list Kline))
                    * Kline)) :
  klineData !! cacheKey sym interval = Some klines ->
  length klines = 201%nat ->
  exists klineData',
    feed klineData sym interval stream = Ok klineData'
    /\ klineData' !! cacheKey sym interval
       = Some (slice_last 201 (klines ++ map snd stream)).
Proof.
  revert klineData klines.
  induction stream as [|[exchange k] rest IH];
    intros klineData klines Hget Hlen.
  - exists klineData. split; [reflexivity|].
    rewrite Hget. cbn [map]. rewrite app_nil_r. unfold slice_last.
    replace (length klines - 201)%nat with 0%nat by lia.
    now rewrite drop_0.
  - destruct (pushWindow_latest klines k) as (Hpush & _ & Hfull); [lia|].
    specialize (Hfull Hlen).
    cbn [feed]. unfold handleNewKline_cache. cbv zeta.
    rewrite Hget, bind_Ok, Hget, bind_Ok.
    destruct (IH (runFullAnalysis_cache exchange
                    (<[cacheKey sym interval := pushWindow klines k]>
                       klineData) sym)
                (pushWindow klines k))
      as (klineData' & Hfeed & Hwin).
    { apply runFullAnalysis_cache_full; [apply lookup_insert_eq|lia]. }
    { exact Hfull. }
    exists klineData'. split; [exact Hfeed|].
    rewrite Hwin, Hpush, slice_last_app, <- app_assoc. reflexivity.
Qed.


Section Evaluators.

(** [this.settings] and the [SMA] of the indicator package. *)
Variable settings : Settings.
Variable SMA_calculate : nat -> list Q -> list Q.

(** *** evaluateSharedConditions *)

Definition evaluateSharedConditions (pair : Combined) (c : Conditions)
  : Conditions :=
  let ind := indicators pair in
  {| trend := price_above_ema50_4h ind;
     squeeze := squeeze c; breakout := breakout c;
     c_volume_ok := c_volume_ok c;
     safety :=
       Some (if USE_RSI_SAFETY_FILTER settings
             then ltb (orZero (rsi_1h ind))
                    (RSI_OVERBOUGHT_THRESHOLD settings)
             else true);
     obv := obv c;
     rsi_mtf :=
       Some (if USE_RSI_MTF_FILTER settings
             then ltb (orZero (rsi_15m ind))
                    (RSI_15M_OVERBOUGHT_THRESHOLD settings)
             else true);
     c_cvd_5m_trending_up := c_cvd_5m_trending_up c;
     momentum_impulse := momentum_impulse c;
     momentum_confirmation := momentum_confirmation c |}.

(** *** evaluateIgnitionStrategy

    The verdict; the line it logs on a detection is left out. *)

Definition evaluateIgnitionStrategy (pair : Combined)
    (klines1m : list Kline) (c : Conditions) : Verdict :=
  let hold := {| score := "HOLD"; score_value := 0;
                 strategy_type := "IGNITION"; conditions := c |} in
  if USE_IGNITION_STRATEGY settings && holds (trend c) then
    match klines1m !! (length klines1m - 1)%nat,
          (if (length klines1m <? 2)%nat then None
           else klines1m !! (length klines1m - 2)%nat),
          last (SMA_calculate 20 (map volume klines1m)) with
    | Some lastCandle1m, Some prevCandle1m, Some avgVolume1m =>
      if ltb 0 avgVolume1m then
        let priceSpikePct :=
          ((close lastCandle1m - close prevCandle1m)
           / close prevCandle1m * 100)%Q in
        let volumeMultiple := (volume lastCandle1m / avgVolume1m)%Q in
        if leb (IGNITION_PRICE_SPIKE_PCT settings) priceSpikePct
           && leb (IGNITION_VOLUME_MULTIPLE settings) volumeMultiple
        then {| score := "IGNITION_DETECTED"; score_value := 100;
                strategy_type := "IGNITION"; conditions := c |}
        else hold
      else hold
    | _, _, _ => hold
    end
  else hold.

(** *** evaluateMomentumStrategy *)

Definition evaluateMomentumStrategy (pair : Combined)
    (analysis5m : Analysis) (c : Conditions) : Verdict :=
  let c' :=
    {| trend := trend c; squeeze := squeeze c; breakout := breakout c;
       c_volume_ok := c_volume_ok c; safety := safety c; obv := obv c;
       rsi_mtf := rsi_mtf c;
       c_cvd_5m_trending_up := c_cvd_5m_trending_up c;
       momentum_impulse := momentum_impulse_15m (indicators pair);
       momentum_confirmation := momentum_confirmation_5m analysis5m |} in
  if holds (trend c) && holds (momentum_impulse c')
     && holds (momentum_confirmation c') && holds (safety c)
     && holds (rsi_mtf c)
  then {| score := "MOMENTUM_BUY"; score_value := 90;
          strategy_type := "MOMENTUM"; conditions := c' |}
  else {| score := "HOLD"; score_value := 0;
          strategy_type := "MOMENTUM"; conditions := c' |}.

(** *** evaluatePrecisionStrategy

    The verdict, and the value it assigns to [pair.is_on_hotlist]. *)
Definition evaluatePrecisionStrategy (pair : Combined)
    (analysis1m analysis5m : Analysis) (klines1m : list Kline)
    (c : Conditions) : Verdict * bool :=
  let sq := is_in_squeeze_15m (indicators pair) in
  let with_squeeze :=
    {| trend := trend c; squeeze := sq; breakout := breakout c;
       c_volume_ok := c_volume_ok c; safety := safety c; obv := obv c;
       rsi_mtf := rsi_mtf c;
       c_cvd_5m_trending_up := c_cvd_5m_trending_up c;
       momentum_impulse := momentum_impulse c;
       momentum_confirmation := momentum_confirmation c |} in
  if holds (trend c) && holds sq then
    match klines1m !! (length klines1m - 1)%nat with
    | Some lastCandle1m =>
      let c' :=
        {| trend := trend c; squeeze := sq;
           breakout :=
             Some (ltb (orZero (ema9_1m analysis1m)) (close lastCandle1m));
           c_volume_ok :=
             Some (if USE_VOLUME_CONFIRMATION settings
                   then ltb (orZero (volume_avg_1m analysis1m) * (3 # 2))
                          (volume lastCandle1m)
                   else true);
           safety := safety c;
           obv :=
             Some (if USE_OBV_VALIDATION settings
                   then ltb 0 (orZero (obv_1m_slope analysis1m))
                   else true);
           rsi_mtf := rsi_mtf c;
           c_cvd_5m_trending_up :=
             (if USE_CVD_FILTER settings
              then cvd_5m_trending_up analysis5m
              else Some true);
           momentum_impulse := momentum_impulse c;
           momentum_confirmation := momentum_confirmation c |} in
      if holds (breakout c') && holds (c_volume_ok c') && holds (obv c')
         && holds (c_cvd_5m_trending_up c') && holds (safety c)
         && holds (rsi_mtf c)
      then ({| score := "PENDING_CONFIRMATION"; score_value := 80;
               strategy_type := "PRECISION"; conditions := c' |}, true)
      else ({| score := "COMPRESSION"; score_value := 70;
               strategy_type := "PRECISION"; conditions := c' |}, true)
    | None =>
      ({| score := "COMPRESSION"; score_value := 70;
          strategy_type := "PRECISION"; conditions := with_squeeze |}, true)
    end
  else ({| score := "HOLD"; score_value := 50;
           strategy_type := "PRECISION"; conditions := with_squeeze |},
        false).

(** *** evaluateStrategy *)

Definition evaluateStrategy (pair : Combined)
    (analysis1m analysis5m : Analysis) (klines1m : list Kline) : Scored :=
  let shared := evaluateSharedConditions pair noConditions in
  let ignitionResult := evaluateIgnitionStrategy pair klines1m shared in
  let momentumResult := evaluateMomentumStrategy pair analysis5m shared in
  let '(precisionResult, hot) :=
    evaluatePrecisionStrategy pair analysis1m analysis5m klines1m shared in
  let finalResult := precisionResult in
  let finalResult :=
    if (score_value finalResult <? score_value momentumResult)%Z
    then momentumResult else finalResult in
  let finalResult :=
    if (score_value finalResult <? score_value ignitionResult)%Z
    then ignitionResult else finalResult in
  {| s_pair := pair;
     s_conditions := conditions finalResult;
     conditions_met_count := metCount (conditions finalResult);
     s_score := score finalResult;
     s_score_value := score_value finalResult;
     s_strategy_type := strategy_type finalResult;
     is_on_hotlist := hot |}.

(** *** What the evaluators decide *)

Ltac split_ifs :=
  repeat match goal with
         | |- context [if ?b then _ else _] => destruct b eqn:?
         | |- context [match ?x with Some _ => _ | None => _ end] =>
           destruct x eqn:?
         end.

Lemma ignition_verdict pair klines1m c :
  let v := evaluateIgnitionStrategy pair klines1m c in
  strategy_type v = "IGNITION" /\ conditions v = c
  /\ (score v = "IGNITION_DETECTED" /\ score_value v = 100%Z
      \/ score v = "HOLD" /\ score_value v = 0%Z).
Proof.
  unfold evaluateIgnitionStrategy. cbv zeta.
  split_ifs; cbn; auto.
Qed.

Lemma momentum_verdict pair analysis5m c :
  let v := evaluateMomentumStrategy pair analysis5m c in
  strategy_type v = "MOMENTUM"
  /\ (score v = "MOMENTUM_BUY" /\ score_value v = 90%Z
      /\ holds (trend c) = true /\ holds (safety c) = true
      /\ holds (rsi_mtf c) = true
      /\ holds (momentum_impulse_15m (indicators pair)) = true
      /\ holds (momentum_confirmation_5m analysis5m) = true
      \/ score v = "HOLD" /\ score_value v = 0%Z).
Proof.
  unfold evaluateMomentumStrategy. cbv zeta. cbn [momentum_impulse
    momentum_confirmation].
  destruct (holds (trend c)), (holds (safety c)), (holds (rsi_mtf c)),
    (holds (momentum_impulse_15m (indicators pair))),
    (holds (momentum_confirmation_5m analysis5m)); cbn; auto 10.
Qed.

Lemma precision_verdict pair analysis1m analysis5m klines1m c :
  let v := fst (evaluatePrecisionStrategy pair analysis1m analysis5m
                  klines1m c) in
  strategy_type v = "PRECISION"
  /\ (score v = "PENDING_CONFIRMATION" /\ score_value v = 80%Z
      /\ holds (trend c) = true /\ holds (safety c) = true
      /\ holds (rsi_mtf c) = true
      \/ score v = "COMPRESSION" /\ score_value v = 70%Z
         /\ holds (trend c) = true
      \/ score v = "HOLD" /\ score_value v = 50%Z).
Proof.
  unfold evaluatePrecisionStrategy. cbv zeta.
  destruct (holds (trend c)); cbn [andb]; [|cbn; auto].
  destruct (holds (is_in_squeeze_15m (indicators pair))); [|cbn; auto].
  destruct (klines1m !! _); [|cbn; auto 10].
  cbn [breakout c_volume_ok obv c_cvd_5m_trending_up].
  destruct (holds (safety c)), (holds (rsi_mtf c));
    rewrite ?andb_false_r; cbn [andb]; try (cbn; auto 10; fail).
  rewrite !andb_true_r.
  match goal with |- context [if ?b then _ else _] => destruct b end;
    cbn; auto 10.
Qed.

Lemma shared_trend pair :
  trend (evaluateSharedConditions pair noConditions)
  = price_above_ema50_4h (indicators pair).
Proof. reflexivity. Qed.

Lemma holds_true c : holds c = true <-> c = Some true.
Proof. destruct c as [[]|]; cbn; split; congruence. Qed.

(** The three verdicts side by side, and the one [evaluateStrategy]
    keeps. *)
Lemma evaluateStrategy_pick pair analysis1m analysis5m klines1m :
  let shared := evaluateSharedConditions pair noConditions in
  let ign := evaluateIgnitionStrategy pair klines1m shared in
  let mom := evaluateMomentumStrategy pair analysis5m shared in
  let pre := fst (evaluatePrecisionStrategy pair analysis1m analysis5m
                    klines1m shared) in
  let r := evaluateStrategy pair analysis1m analysis5m klines1m in
  let final :=
    if String.eqb (score ign) "IGNITION_DETECTED" then ign
    else if String.eqb (score mom) "MOMENTUM_BUY" then mom
    else pre in
  s_score r = score final /\ s_score_value r = score_value final
  /\ s_strategy_type r = strategy_type final
  /\ s_conditions r = conditions final
  /\ conditions_met_count r = metCount (conditions final)
  /\ is_on_hotlist r
     = snd (evaluatePrecisionStrategy pair analysis1m analysis5m
              klines1m shared).
Proof.
  intros shared ign mom pre r final.
  subst r final. unfold evaluateStrategy. fold shared. fold ign mom.
  pose proof (ignition_verdict pair klines1m shared) as (_ & _ & Hi).
  pose proof (momentum_verdict pair analysis5m shared) as (_ & Hm).
  pose proof (precision_verdict pair analysis1m analysis5m klines1m shared)
    as (_ & Hp).
  cbv zeta in Hi, Hm, Hp. fold ign in Hi. fold mom in Hm. fold pre in Hp.
  subst pre.
  destruct (evaluatePrecisionStrategy pair analysis1m analysis5m klines1m
              shared) as [p hot].
  cbn [fst snd] in *.
  cbn [s_score s_score_value s_strategy_type s_conditions is_on_hotlist
       conditions_met_count].
  destruct Hi as [[Hi1 Hi2]|[Hi1 Hi2]];
    destruct Hm as [(Hm1 & Hm2 & _)|[Hm1 Hm2]];
    destruct Hp as [(Hp1 & Hp2 & _)|[(Hp1 & Hp2 & _)|[Hp1 Hp2]]];
    rewrite Hi1, Hi2, Hm1, Hm2, Hp2;
    cbn [Z.ltb Z.compare Pos.compare Pos.compare_cont String.eqb Ascii.eqb
         Bool.eqb];
    rewrite ?Hi2, ?Hm2, ?Hp2;
    cbn [Z.ltb Z.compare Pos.compare Pos.compare_cont];
    rewrite ?Hi2, ?Hm2, ?Hp2;
    repeat split; reflexivity.
Qed.

(** X15. [evaluateStrategy] returns one of five verdicts, score, value
    and strategy always in step: never a hold of value 0 and never a
    strong buy.  Ignition wins whenever it fires; Momentum wins whenever
    it fires and Ignition does not; otherwise the Precision verdict
    stands. *)
Theorem evaluateStrategy_outcomes pair analysis1m analysis5m klines1m :
  let shared := evaluateSharedConditions pair noConditions in
  let ign := evaluateIgnitionStrategy pair klines1m shared in
  let mom := evaluateMomentumStrategy pair analysis5m shared in
  let pre := fst (evaluatePrecisionStrategy pair analysis1m analysis5m
                    klines1m shared) in
  let r := evaluateStrategy pair analysis1m analysis5m klines1m in
  In (s_score r, s_score_value r, s_strategy_type r)
     [("IGNITION_DETECTED", 100%Z, "IGNITION");
      ("MOMENTUM_BUY", 90%Z, "MOMENTUM");
      ("PENDING_CONFIRMATION", 80%Z, "PRECISION");
      ("COMPRESSION", 70%Z, "PRECISION");
      ("HOLD", 50%Z, "PRECISION")]
  /\ (s_score r = "IGNITION_DETECTED" <-> score ign = "IGNITION_DETECTED")
  /\ (s_score r = "MOMENTUM_BUY"
      <-> score mom = "MOMENTUM_BUY" /\ score ign <> "IGNITION_DETECTED")
  /\ (score ign <> "IGNITION_DETECTED" -> score mom <> "MOMENTUM_BUY" ->
      s_score r = score pre /\ s_conditions r = conditions pre).
Proof.
  intros shared ign mom pre r.
  pose proof (evaluateStrategy_pick pair analysis1m analysis5m klines1m)
    as Hpick.
  cbv zeta in Hpick. destruct Hpick as (Hs & Hv & Ht & Hc & _ & _).
  fold shared in Hs, Hv, Ht, Hc. fold ign mom pre r in Hs, Hv, Ht, Hc.
  pose proof (ignition_verdict pair klines1m shared) as (Hit & _ & Hi).
  pose proof (momentum_verdict pair analysis5m shared) as (Hmt & Hm).
  pose proof (precision_verdict pair analysis1m analysis5m klines1m shared)
    as (Hpt & Hp).
  cbv zeta in Hit, Hi, Hmt, Hm, Hpt, Hp.
  fold ign in Hit, Hi. fold mom in Hmt, Hm. fold pre in Hpt, Hp.
  rewrite Hs, Hv, Ht, Hc.
  destruct Hi as [[Hi1 Hi2]|[Hi1 Hi2]];
    destruct Hm as [(Hm1 & Hm2 & _)|[Hm1 Hm2]];
    destruct Hp as [(Hp1 & Hp2 & _)|[(Hp1 & Hp2 & _)|[Hp1 Hp2]]];
    rewrite Hi1, Hm1; cbn [String.eqb Ascii.eqb Bool.eqb];
    rewrite ?Hi1, ?Hi2, ?Hit, ?Hm1, ?Hm2, ?Hmt, ?Hp1, ?Hp2, ?Hpt;
    cbn [In]; intuition (try discriminate; try congruence).
Qed.

(** The checklist of each verdict on the shared conditions. *)
Lemma ignition_checklist pair klines1m :
  let shared := evaluateSharedConditions pair noConditions in
  let v := evaluateIgnitionStrategy pair klines1m shared in
  score v = "IGNITION_DETECTED" ->
  price_above_ema50_4h (indicators pair) = Some true
  /\ (1 <= metCount (conditions v) <= 3)%nat.
Proof.
  unfold evaluateIgnitionStrategy, evaluateSharedConditions, metCount,
    values.
  cbv zeta. cbn [trend squeeze breakout c_volume_ok safety obv rsi_mtf
    c_cvd_5m_trending_up momentum_impulse momentum_confirmation
    noConditions].
  generalize (if USE_RSI_SAFETY_FILTER settings
              then ltb (orZero (rsi_1h (indicators pair)))
                     (RSI_OVERBOUGHT_THRESHOLD settings)
              else true) as bs.
  generalize (if USE_RSI_MTF_FILTER settings
              then ltb (orZero (rsi_15m (indicators pair)))
                     (RSI_15M_OVERBOUGHT_THRESHOLD settings)
              else true) as bm.
  intros bm bs.
  destruct (price_above_ema50_4h (indicators pair)) as [[]|];
    cbn [holds default andb]; rewrite ?andb_false_r;
    try (cbn; discriminate).
  split_ifs; cbn [score conditions]; try discriminate;
    intros _; (split; [reflexivity|]);
    destruct bm, bs; cbn; lia.
Qed.

Lemma momentum_checklist pair analysis5m :
  let shared := evaluateSharedConditions pair noConditions in
  let v := evaluateMomentumStrategy pair analysis5m shared in
  score v = "MOMENTUM_BUY" -> metCount (conditions v) = 5%nat.
Proof.
  unfold evaluateMomentumStrategy, evaluateSharedConditions, metCount,
    values.
  cbv zeta. cbn [trend squeeze breakout c_volume_ok safety obv rsi_mtf
    c_cvd_5m_trending_up momentum_impulse momentum_confirmation
    noConditions].
  generalize (if USE_RSI_SAFETY_FILTER settings
              then ltb (orZero (rsi_1h (indicators pair)))
                     (RSI_OVERBOUGHT_THRESHOLD settings)
              else true) as bs.
  generalize (if USE_RSI_MTF_FILTER settings
              then ltb (orZero (rsi_15m (indicators pair)))
                     (RSI_15M_OVERBOUGHT_THRESHOLD settings)
              else true) as bm.
  intros bm bs.
  destruct (price_above_ema50_4h (indicators pair)) as [[]|],
    (momentum_impulse_15m (indicators pair)) as [[]|],
    (momentum_confirmation_5m analysis5m) as [[]|], bs, bm;
    cbn; congruence.
Qed.

Lemma precision_checklist pair analysis1m analysis5m klines1m :
  let shared := evaluateSharedConditions pair noConditions in
  let v := fst (evaluatePrecisionStrategy pair analysis1m analysis5m
                  klines1m shared) in
  let n := metCount (conditions v) in
  (score v = "PENDING_CONFIRMATION" -> n = 8%nat)
  /\ (score v = "COMPRESSION" -> (2 <= n <= 7)%nat)
  /\ (score v = "HOLD" -> (n <= 3)%nat).
Proof.
  unfold evaluatePrecisionStrategy, evaluateSharedConditions, metCount,
    values.
  cbv zeta. cbn [trend squeeze breakout c_volume_ok safety obv rsi_mtf
    c_cvd_5m_trending_up momentum_impulse momentum_confirmation
    noConditions].
  generalize (if USE_RSI_SAFETY_FILTER settings
              then ltb (orZero (rsi_1h (indicators pair)))
                     (RSI_OVERBOUGHT_THRESHOLD settings)
              else true) as bs.
  generalize (if USE_RSI_MTF_FILTER settings
              then ltb (orZero (rsi_15m (indicators pair)))
                     (RSI_15M_OVERBOUGHT_THRESHOLD settings)
              else true) as bm.
  intros bm bs.
  destruct (klines1m !! _) as [lastCandle1m|].
  2:{ destruct (price_above_ema50_4h (indicators pair)) as [[]|],
        (is_in_squeeze_15m (indicators pair)) as [[]|], bm, bs;
        vm_compute; repeat split; intros; try discriminate; lia. }
  cbn [breakout c_volume_ok obv c_cvd_5m_trending_up safety rsi_mtf].
  generalize (ltb (orZero (ema9_1m analysis1m)) (close lastCandle1m)) as b1.
  generalize (if USE_VOLUME_CONFIRMATION settings
              then ltb (orZero (volume_avg_1m analysis1m) * (3 # 2))
                     (volume lastCandle1m)
              else true) as b2.
  generalize (if USE_OBV_VALIDATION settings
              then ltb 0 (orZero (obv_1m_slope analysis1m))
              else true) as b3.
  generalize (if USE_CVD_FILTER settings
              then cvd_5m_trending_up analysis5m
              else Some true) as b4.
  intros b4 b3 b2 b1.
  destruct (price_above_ema50_4h (indicators pair)) as [[]|],
    (is_in_squeeze_15m (indicators pair)) as [[]|];
    cbn [holds default andb fst].
  1:{ destruct b1, b2, b3, b4 as [[]|], bs, bm; vm_compute;
        repeat split; intros; try discriminate; lia. }
  all: destruct bm, bs; vm_compute; repeat split; intros;
    try discriminate; lia.
Qed.

(** X16. Without a 4-hour uptrend ([price_above_ema50_4h] false or
    missing) no strategy fires: the verdict is the Precision hold of
    value 50, the pair is off the hotlist, and at most three conditions
    are met. *)
Theorem evaluateStrategy_needs_trend pair analysis1m analysis5m klines1m :
  price_above_ema50_4h (indicators pair) <> Some true ->
  let r := evaluateStrategy pair analysis1m analysis5m klines1m in
  s_score r = "HOLD" /\ s_score_value r = 50%Z
  /\ s_strategy_type r = "PRECISION" /\ is_on_hotlist r = false
  /\ (conditions_met_count r <= 3)%nat.
Proof.
  intros Htrend r.
  pose proof (evaluateStrategy_pick pair analysis1m analysis5m klines1m)
    as Hpick.
  cbv zeta in Hpick. fold r in Hpick.
  destruct Hpick as (Hs & Hv & Ht & _ & Hn & Hh).
  set (shared := evaluateSharedConditions pair noConditions) in *.
  assert (Hno : holds (trend shared) = false).
  { unfold shared. rewrite shared_trend.
    destruct (price_above_ema50_4h (indicators pair)) as [[]|];
      [congruence|reflexivity|reflexivity]. }
  assert (Hign : evaluateIgnitionStrategy pair klines1m shared
                 = {| score := "HOLD"; score_value := 0;
                      strategy_type := "IGNITION"; conditions := shared |}).
  { unfold evaluateIgnitionStrategy. rewrite Hno, andb_false_r.
    reflexivity. }
  assert (Hmom : score (evaluateMomentumStrategy pair analysis5m shared)
                 = "HOLD").
  { unfold evaluateMomentumStrategy. cbv zeta. rewrite Hno. reflexivity. }
  rewrite Hign, Hmom in Hs, Hv, Ht, Hn.
  cbn [String.eqb Ascii.eqb Bool.eqb score] in Hs, Hv, Ht, Hn.
  pose proof (precision_checklist pair analysis1m analysis5m klines1m)
    as Hpre.
  cbv zeta in Hpre. fold shared in Hpre.
  destruct Hpre as (_ & _ & Hcount).
  revert Hs Hv Ht Hn Hh Hcount.
  unfold evaluatePrecisionStrategy. cbv zeta. rewrite Hno.
  cbn [andb fst snd score score_value strategy_type conditions].
  intros Hs Hv Ht Hn Hh Hcount.
  rewrite Hs, Hv, Ht, Hn, Hh.
  repeat split; try reflexivity. apply Hcount. reflexivity.
Qed.

(** X17. With an RSI filter on and the RSI at or above its threshold
    (1-hour RSI for the safety filter, 15-minute RSI for the
    multi-timeframe filter; a missing RSI counts as 0), neither
    [MOMENTUM_BUY] nor [PENDING_CONFIRMATION] is returned. *)
Theorem evaluateStrategy_overbought pair analysis1m analysis5m klines1m :
  USE_RSI_SAFETY_FILTER settings = true
  /\ (RSI_OVERBOUGHT_THRESHOLD settings
      <= orZero (rsi_1h (indicators pair)))%Q
  \/ USE_RSI_MTF_FILTER settings = true
     /\ (RSI_15M_OVERBOUGHT_THRESHOLD settings
         <= orZero (rsi_15m (indicators pair)))%Q ->
  let r := evaluateStrategy pair analysis1m analysis5m klines1m in
  s_score r <> "MOMENTUM_BUY" /\ s_score r <> "PENDING_CONFIRMATION".
Proof.
  intros Hover r.
  set (shared := evaluateSharedConditions pair noConditions).
  assert (Hblock : holds (safety shared) = false
                   \/ holds (rsi_mtf shared) = false).
  { destruct Hover as [[Hon Hle]|[Hon Hle]]; [left|right];
      unfold shared, evaluateSharedConditions;
      cbn [safety rsi_mtf holds default]; rewrite Hon;
      apply ltb_ge; exact Hle. }
  pose proof (evaluateStrategy_pick pair analysis1m analysis5m klines1m)
    as Hpick.
  cbv zeta in Hpick. fold r shared in Hpick.
  destruct Hpick as (Hs & _).
  pose proof (ignition_verdict pair klines1m shared) as Hi.
  pose proof (momentum_verdict pair analysis5m shared) as Hm.
  pose proof (precision_verdict pair analysis1m analysis5m klines1m shared)
    as Hp.
  cbv zeta in Hi, Hm, Hp.
  destruct Hi as (_ & _ & Hi), Hm as (_ & Hm), Hp as (_ & Hp).
  rewrite Hs.
  destruct Hi as [[Hi1 _]|[Hi1 _]]; rewrite Hi1;
    cbn [String.eqb Ascii.eqb Bool.eqb];
    [rewrite Hi1; split; discriminate|].
  destruct Hm as [(Hm1 & _ & _ & Hsafe & Hmtf & _)|[Hm1 _]].
  { destruct Hblock; congruence. }
  rewrite Hm1. cbn [String.eqb Ascii.eqb Bool.eqb].
  destruct Hp as [(_ & _ & _ & Hsafe & Hmtf)|[(Hp1 & _)|[Hp1 _]]].
  - destruct Hblock; congruence.
  - rewrite Hp1. split; discriminate.
  - rewrite Hp1. split; discriminate.
Qed.

(** X18. Ignition overrides everything else.  With the strategy enabled,
    a 4-hour uptrend, a positive 20-period average volume, and a last
    1-minute candle whose price spike and volume multiple reach their
    thresholds, the verdict is [IGNITION_DETECTED] of value 100 whatever
    the RSI filters, the squeeze flag and the 1- and 5-minute analyses
    say; its checklist is the shared one, with between one and three
    conditions met. *)
Theorem ignition_overrides_filters pair analysis1m analysis5m
    older prevCandle1m lastCandle1m avgVolume1m :
  let klines1m := older ++ [prevCandle1m; lastCandle1m] in
  USE_IGNITION_STRATEGY settings = true ->
  price_above_ema50_4h (indicators pair) = Some true ->
  last (SMA_calculate 20 (map volume klines1m)) = Some avgVolume1m ->
  (0 < avgVolume1m)%Q ->
  ~ (close prevCandle1m == 0)%Q ->
  (IGNITION_PRICE_SPIKE_PCT settings
   <= (close lastCandle1m - close prevCandle1m) / close prevCandle1m * 100)%Q ->
  (IGNITION_VOLUME_MULTIPLE settings
   <= volume lastCandle1m / avgVolume1m)%Q ->
  let r := evaluateStrategy pair analysis1m analysis5m klines1m in
  s_score r = "IGNITION_DETECTED" /\ s_score_value r = 100%Z
  /\ s_strategy_type r = "IGNITION"
  /\ s_conditions r = evaluateSharedConditions pair noConditions
  /\ (1 <= conditions_met_count r <= 3)%nat.
Proof.
  intros klines1m Hon Htrend Havg Hpos _ Hspike Hvol r.
  set (shared := evaluateSharedConditions pair noConditions).
  assert (Hign : evaluateIgnitionStrategy pair klines1m shared
                 = {| score := "IGNITION_DETECTED"; score_value := 100;
                      strategy_type := "IGNITION";
                      conditions := shared |}).
  { unfold evaluateIgnitionStrategy. cbv zeta.
    rewrite Hon. unfold shared at 1. rewrite shared_trend, Htrend.
    cbn [holds default andb].
    assert (Hlen : length klines1m = S (S (length older))).
    { unfold klines1m. rewrite length_app. cbn. lia. }
    rewrite Hlen.
    replace (S (S (length older)) - 1)%nat with (S (length older)) by lia.
    replace (S (S (length older)) - 2)%nat with (length older) by lia.
    assert (Hl : klines1m !! S (length older) = Some lastCandle1m).
    { unfold klines1m. rewrite lookup_app_r by lia.
      replace (S (length older) - length older)%nat with 1%nat by lia.
      reflexivity. }
    assert (Hp : klines1m !! length older = Some prevCandle1m).
    { unfold klines1m. rewrite lookup_app_r by lia.
      rewrite Nat.sub_diag. reflexivity. }
    rewrite Hl, Hp, Havg. cbn [Nat.ltb Nat.leb].
    apply ltb_lt in Hpos. rewrite Hpos.
    apply leb_le in Hspike, Hvol. rewrite Hspike, Hvol. reflexivity. }
  pose proof (evaluateStrategy_pick pair analysis1m analysis5m klines1m)
    as Hpick.
  cbv zeta in Hpick. fold r shared in Hpick.
  destruct Hpick as (Hs & Hv & Ht & Hc & Hn & _).
  rewrite Hign in Hs, Hv, Ht, Hc, Hn.
  cbn [String.eqb Ascii.eqb Bool.eqb score score_value strategy_type
       conditions] in Hs, Hv, Ht, Hc, Hn.
  pose proof (ignition_checklist pair klines1m) as Hck.
  cbv zeta in Hck. fold shared in Hck. rewrite Hign in Hck.
  destruct (Hck eq_refl) as (_ & Hcount). cbn [conditions] in Hcount.
  rewrite Hs, Hv, Ht, Hc, Hn. auto.
Qed.

(** X19. The number of conditions met that accompanies each signal:
    exactly 8 for [PENDING_CONFIRMATION], exactly 5 for [MOMENTUM_BUY],
    between 1 and 3 for [IGNITION_DETECTED], between 2 and 7 for
    [COMPRESSION], at most 3 for [HOLD]. *)
Theorem conditions_met_count_by_signal pair analysis1m analysis5m klines1m :
  let r := evaluateStrategy pair analysis1m analysis5m klines1m in
  let n := conditions_met_count r in
  (s_score r = "PENDING_CONFIRMATION" -> n = 8%nat)
  /\ (s_score r = "MOMENTUM_BUY" -> n = 5%nat)
  /\ (s_score r = "IGNITION_DETECTED" -> (1 <= n <= 3)%nat)
  /\ (s_score r = "COMPRESSION" -> (2 <= n <= 7)%nat)
  /\ (s_score r = "HOLD" -> (n <= 3)%nat).
Proof.
  intros r n. subst n.
  set (shared := evaluateSharedConditions pair noConditions).
  pose proof (evaluateStrategy_pick pair analysis1m analysis5m klines1m)
    as Hpick.
  cbv zeta in Hpick. fold r shared in Hpick.
  destruct Hpick as (Hs & _ & _ & _ & Hn & _).
  pose proof (ignition_verdict pair klines1m shared) as Hi.
  pose proof (momentum_verdict pair analysis5m shared) as Hm.
  pose proof (ignition_checklist pair klines1m) as Hic.
  pose proof (momentum_checklist pair analysis5m) as Hmc.
  pose proof (precision_checklist pair analysis1m analysis5m klines1m)
    as Hpc.
  cbv zeta in Hi, Hm, Hic, Hmc, Hpc. fold shared in Hic, Hmc, Hpc.
  destruct Hi as (_ & _ & Hi), Hm as (_ & Hm).
  destruct Hpc as (Hp8 & Hp7 & Hp3).
  rewrite Hs, Hn.
  destruct Hi as [[Hi1 _]|[Hi1 _]].
  { rewrite Hi1. cbn [String.eqb Ascii.eqb Bool.eqb]. rewrite Hi1.
    specialize (Hic Hi1).
    repeat apply conj; intros H; try discriminate H; apply Hic. }
  rewrite Hi1. cbn [String.eqb Ascii.eqb Bool.eqb].
  destruct Hm as [(Hm1 & _)|[Hm1 _]].
  { rewrite Hm1. cbn [String.eqb Ascii.eqb Bool.eqb]. rewrite Hm1.
    specialize (Hmc Hm1).
    repeat apply conj; intros H; try discriminate H; exact Hmc. }
  rewrite Hm1. cbn [String.eqb Ascii.eqb Bool.eqb].
  pose proof (precision_verdict pair analysis1m analysis5m klines1m shared)
    as Hp.
  cbv zeta in Hp. destruct Hp as (_ & Hp).
  repeat apply conj; try assumption; intros H; exfalso;
    destruct Hp as [(Hp1 & _)|[(Hp1 & _)|(Hp1 & _)]]; congruence.
Qed.

End Evaluators.

(** *** The evaluators and the cache at work *)

Lemma feed_keeps_latest_witness :
  exists klineData',
    feed (<[cacheKey "BTCUSDT" "1m" := repeat flat_candle 201]> ∅)
      "BTCUSDT" "1m" [(exchange_down, spike_candle);
                      (exchange_flat, flat_candle)]
    = Ok klineData'
    /\ klineData' !! cacheKey "BTCUSDT" "1m"
       = Some (repeat flat_candle 199 ++ [spike_candle; flat_candle]).
Proof.
  apply (feed_keeps_latest
           (<[cacheKey "BTCUSDT" "1m" := repeat flat_candle 201]> ∅)
           "BTCUSDT" "1m" (repeat flat_candle 201)
           [(exchange_down, spike_candle); (exchange_flat, flat_candle)]).
  - apply lookup_insert_eq.
  - reflexivity.
Defined.


Lemma evaluateStrategy_needs_trend_witness :
  let r := evaluateStrategy sample_settings sma cold_pair emptyAnalysis
             emptyAnalysis spike1m in
  s_score r = "HOLD" /\ s_score_value r = 50%Z
  /\ s_strategy_type r = "PRECISION" /\ is_on_hotlist r = false
  /\ (conditions_met_count r <= 3)%nat.
Proof.
  apply (evaluateStrategy_needs_trend sample_settings sma cold_pair
           emptyAnalysis emptyAnalysis spike1m).
  cbn. discriminate.
Defined.

Lemma evaluateStrategy_overbought_witness :
  let r := evaluateStrategy sample_settings sma hot_pair emptyAnalysis
             emptyAnalysis quiet1m in
  s_score r <> "MOMENTUM_BUY" /\ s_score r <> "PENDING_CONFIRMATION".
Proof.
  apply (evaluateStrategy_overbought sample_settings sma hot_pair
           emptyAnalysis emptyAnalysis quiet1m).
  left. split; [reflexivity|]. vm_compute. discriminate.
Defined.

Lemma ignition_overrides_filters_witness :
  let r := evaluateStrategy sample_settings sma hot_pair emptyAnalysis
             emptyAnalysis spike1m in
  s_score r = "IGNITION_DETECTED" /\ s_score_value r = 100%Z
  /\ s_strategy_type r = "IGNITION"
  /\ s_conditions r = evaluateSharedConditions sample_settings hot_pair
                        noConditions
  /\ (1 <= conditions_met_count r <= 3)%nat.
Proof.
  apply (ignition_overrides_filters sample_settings sma hot_pair
           emptyAnalysis emptyAnalysis (repeat flat_candle 19) flat_candle
           spike_candle (69 # 20)).
  - reflexivity.
  - reflexivity.
  - vm_compute. reflexivity.
  - vm_compute. reflexivity.
  - vm_compute. discriminate.
  - vm_compute. discriminate.
  - vm_compute. discriminate.
Defined.

Lemma conditions_met_count_by_signal_witness :
  (1 <= conditions_met_count
          (evaluateStrategy sample_settings sma hot_pair emptyAnalysis
             emptyAnalysis spike1m) <= 3)%nat.
Proof.
  apply (conditions_met_count_by_signal sample_settings sma hot_pair
           emptyAnalysis emptyAnalysis spike1m).
  vm_compute. reflexivity.
Defined.

(** An overbought pair in an uptrend: the quiet market is held, the spike
    is an Ignition signal with two conditions met. *)
Example ignition_while_overbought :
  let quiet := evaluateStrategy sample_settings sma hot_pair emptyAnalysis
                 emptyAnalysis quiet1m in
  let spike := evaluateStrategy sample_settings sma hot_pair emptyAnalysis
                 emptyAnalysis spike1m in
  (s_score quiet, s_score_value quiet, conditions_met_count quiet)
  = ("HOLD", 50%Z, 2%nat)
  /\ (s_score spike, s_score_value spike, conditions_met_count spike)
     = ("IGNITION_DETECTED", 100%Z, 2%nat).
Proof. split; vm_compute; reflexivity. Qed.

End Classifier.

(** ** TradingEngineService.js *)

Module TradingEngine.
Import JS.
Local Open Scope Q_scope.

(** *** Data *)

(** The settings the engine reads. *)
Record Settings := {
  MAX_OPEN_POSITIONS : Z;
  POSITION_SIZE_PCT : Q;
  USE_DYNAMIC_POSITION_SIZING : bool;
  STRONG_BUY_POSITION_SIZE_PCT : Q;
  USE_ATR_STOP_LOSS : bool;
  ATR_MULTIPLIER : Q;
  STOP_LOSS_PCT : Q;
  RISK_REWARD_RATIO : Q;
  LOSS_COOLDOWN_HOURS : Q;
  USE_MTF_VALIDATION : bool;
  USE_IGNITION_TRAILING_STOP : bool;
  IGNITION_TRAILING_STOP_PCT : Q
}.

(** An analysed pair, with the fields the engine destructures. *)
Record Pair := {
  symbol : string;
  score : string;
  atr_15m : option Q;
  price : Q;
  strategy_type : string
}.

(** [{ ...pair, score: s }]. *)
Definition with_score (pair : Pair) (s : string) : Pair :=
  {| symbol := symbol pair; score := s; atr_15m := atr_15m pair;
     price := price pair; strategy_type := strategy_type pair |}.

(** A trade: an open position, then a closed one. *)
Record Position := {
  id : Z;
  mode : string;
  p_symbol : string;
  side : string;
  entry_price : Q;
  average_entry_price : Q;
  quantity : Q;
  target_quantity : Q;
  stop_loss : Q;
  take_profit : Q;
  entry_time : Q;
  status : string;
  pnl : Q;
  pnl_pct : Q;
  entry_snapshot : Pair;
  highest_price_since_entry : Q;
  total_cost_usd : Q;
  p_strategy_type : string;
  exit_price : option Q;
  exit_time : option Q
}.

(** Assignments to the fields of a trade. *)
Definition set_fill (p : Position) (entry qty : Q) : Position :=
  {| id := id p; mode := mode p; p_symbol := p_symbol p; side := side p;
     entry_price := entry;
     average_entry_price := average_entry_price p;
     quantity := qty;
     target_quantity := target_quantity p; stop_loss := stop_loss p;
     take_profit := take_profit p; entry_time := entry_time p;
     status := status p; pnl := pnl p; pnl_pct := pnl_pct p;
     entry_snapshot := entry_snapshot p;
     highest_price_since_entry := highest_price_since_entry p;
     total_cost_usd := total_cost_usd p;
     p_strategy_type := p_strategy_type p;
     exit_price := exit_price p; exit_time := exit_time p |}.

Definition set_highest (p : Position) (h : Q) : Position :=
  {| id := id p; mode := mode p; p_symbol := p_symbol p; side := side p;
     entry_price := entry_price p;
     average_entry_price := average_entry_price p;
     quantity := quantity p;
     target_quantity := target_quantity p; stop_loss := stop_loss p;
     take_profit := take_profit p; entry_time := entry_time p;
     status := status p; pnl := pnl p; pnl_pct := pnl_pct p;
     entry_snapshot := entry_snapshot p;
     highest_price_since_entry := h;
     total_cost_usd := total_cost_usd p;
     p_strategy_type := p_strategy_type p;
     exit_price := exit_price p; exit_time := exit_time p |}.

Definition set_stop_loss (p : Position) (s : Q) : Position :=
  {| id := id p; mode := mode p; p_symbol := p_symbol p; side := side p;
     entry_price := entry_price p;
     average_entry_price := average_entry_price p;
     quantity := quantity p;
     target_quantity := target_quantity p; stop_loss := s;
     take_profit := take_profit p; entry_time := entry_time p;
     status := status p; pnl := pnl p; pnl_pct := pnl_pct p;
     entry_snapshot := entry_snapshot p;
     highest_price_since_entry := highest_price_since_entry p;
     total_cost_usd := total_cost_usd p;
     p_strategy_type := p_strategy_type p;
     exit_price := exit_price p; exit_time := exit_time p |}.

(** The four assignments of [closePosition]: [exit_price], [exit_time],
    [status], then [pnl] and [pnl_pct]. *)
Definition set_closed (p : Position) (exitPrice now pnl' pnl_pct' : Q)
  : Position :=
  {| id := id p; mode := mode p; p_symbol := p_symbol p; side := side p;
     entry_price := entry_price p;
     average_entry_price := average_entry_price p;
     quantity := quantity p;
     target_quantity := target_quantity p; stop_loss := stop_loss p;
     take_profit := take_profit p; entry_time := entry_time p;
     status := "CLOSED"; pnl := pnl'; pnl_pct := pnl_pct';
     entry_snapshot := entry_snapshot p;
     highest_price_since_entry := highest_price_since_entry p;
     total_cost_usd := total_cost_usd p;
     p_strategy_type := p_strategy_type p;
     exit_price := Some exitPrice; exit_time := Some now |}.

(** An entry of [pendingConfirmation]: [{ pair, timestamp }]. *)
Record Pending := {
  pair : Pair;
  timestamp : Q
}.

(** The shared bot state, with the fields the engine touches. *)
Record BotState := {
  settings : Settings;
  balance : Q;
  activePositions : list Position;
  tradeHistory : list Position;
  tradeIdCounter : Z;
  isRunning : bool;
  tradingMode : string;
  recentlyLostSymbols : gmap string Q;
  pendingConfirmation : gmap string Pending;
  priceCache : gmap string Q
}.

Definition set_balance (b : BotState) (x : Q) : BotState :=
  {| settings := settings b; balance := x;
     activePositions := activePositions b;
     tradeHistory := tradeHistory b; tradeIdCounter := tradeIdCounter b;
     isRunning := isRunning b; tradingMode := tradingMode b;
     recentlyLostSymbols := recentlyLostSymbols b;
     pendingConfirmation := pendingConfirmation b;
     priceCache := priceCache b |}.

Definition set_activePositions (b : BotState) (l : list Position)
  : BotState :=
  {| settings := settings b; balance := balance b;
     activePositions := l;
     tradeHistory := tradeHistory b; tradeIdCounter := tradeIdCounter b;
     isRunning := isRunning b; tradingMode := tradingMode b;
     recentlyLostSymbols := recentlyLostSymbols b;
     pendingConfirmation := pendingConfirmation b;
     priceCache := priceCache b |}.

Definition set_tradeHistory (b : BotState) (l : list Position)
  : BotState :=
  {| settings := settings b; balance := balance b;
     activePositions := activePositions b;
     tradeHistory := l; tradeIdCounter := tradeIdCounter b;
     isRunning := isRunning b; tradingMode := tradingMode b;
     recentlyLostSymbols := recentlyLostSymbols b;
     pendingConfirmation := pendingConfirmation b;
     priceCache := priceCache b |}.

Definition set_tradeIdCounter (b : BotState) (n : Z) : BotState :=
  {| settings := settings b; balance := balance b;
     activePositions := activePositions b;
     tradeHistory := tradeHistory b; tradeIdCounter := n;
     isRunning := isRunning b; tradingMode := tradingMode b;
     recentlyLostSymbols := recentlyLostSymbols b;
     pendingConfirmation := pendingConfirmation b;
     priceCache := priceCache b |}.

Definition set_recentlyLostSymbols (b : BotState) (m : gmap string Q)
  : BotState :=
  {| settings := settings b; balance := balance b;
     activePositions := activePositions b;
     tradeHistory := tradeHistory b; tradeIdCounter := tradeIdCounter b;
     isRunning := isRunning b; tradingMode := tradingMode b;
     recentlyLostSymbols := m;
     pendingConfirmation := pendingConfirmation b;
     priceCache := priceCache b |}.

Definition set_pendingConfirmation (b : BotState)
    (m : gmap string Pending) : BotState :=
  {| settings := settings b; balance := balance b;
     activePositions := activePositions b;
     tradeHistory := tradeHistory b; tradeIdCounter := tradeIdCounter b;
     isRunning := isRunning b; tradingMode := tradingMode b;
     recentlyLostSymbols := recentlyLostSymbols b;
     pendingConfirmation := m;
     priceCache := priceCache b |}.

Definition set_priceCache (b : BotState) (m : gmap string Q) : BotState :=
  {| settings := settings b; balance := balance b;
     activePositions := activePositions b;
     tradeHistory := tradeHistory b; tradeIdCounter := tradeIdCounter b;
     isRunning := isRunning b; tradingMode := tradingMode b;
     recentlyLostSymbols := recentlyLostSymbols b;
     pendingConfirmation := pendingConfirmation b;
     priceCache := m |}.

(** *** The exchange client *)

(** The argument of [apiClient.createOrder]. *)
Record OrderParams := {
  o_symbol : string;
  o_side : string;
  o_type : string;
  o_quantity : Q
}.

(** What the engine reads of the order result: the prices of [fills] and
    [executedQty]. *)
Record OrderResult := {
  fills : list Q;
  executedQty : Q
}.

(** [createOrder] resolves with a result or rejects with an error. *)
Inductive ApiReply :=
| Resolved (r : OrderResult)
| Rejected (message : string).

(** [symbolRules.get(symbol)]: [{ stepSize }]. *)
Record SymbolRule := {
  stepSize : Q
}.

(** *** Effects *)

(** The lines the engine logs. *)
Inductive Message :=
| MsgPending (sym : string)
| MsgConfirmed5m (sym : string)
| MsgRejected5m (sym : string)
| MsgSignal (sc sym : string)
| MsgInvalidRisk (sym : string)
| MsgOpenAttempt (sym : string)
| MsgOrderOk (r : OrderResult)
| MsgOpenFailed (sym message : string)
| MsgOpened (md sym : string) (qty entry : Q) (strat : string)
| MsgExit (reason sym : string) (exitPrice : Q)
| MsgCloseAttempt (sym : string)
| MsgSellOk (sym : string)
| MsgCloseFailed (sym message : string)
| MsgClosed (sym : string) (pnl pnl_pct balance : Q).

(** What the engine does to its collaborators. *)
Inductive Effect :=
| Log (level : string) (m : Message)
| CreateOrder (params : OrderParams)
| SaveData (kind : string)
| Broadcast (type : string).

(** The bot state and the effects so far, oldest first. *)
Record World := {
  bot : BotState;
  trace : list Effect
}.

(** State transformers over the world. *)
Definition M (A : Type) : Type := World -> A * World.

#[global] Instance M_ret : MRet M := fun A a w => (a, w).
#[global] Instance M_bind : MBind M := fun A B f m w =>
  let (a, w') := m w in f a w'.

Definition gets {A} (f : BotState -> A) : M A :=
  fun w => (f (bot w), w).

Definition modify (f : BotState -> BotState) : M unit :=
  fun w => (tt, {| bot := f (bot w); trace := trace w |}).

Definition emit (e : Effect) : M unit :=
  fun w => (tt, {| bot := bot w; trace := trace w ++ [e] |}).

Definition log (level : string) (m : Message) : M unit :=
  emit (Log level m).

Definition skip : M unit := mret tt.

(** Running a transformer for its final world. *)
Definition exec {A} (m : M A) (w : World) : World := snd (m w).

(** *** Helpers of the translation *)

(** [toFixed(digits)] followed by [parseFloat]: the nearest multiple of
    [10^-digits], a tie going away from zero. *)
Definition toFixed (digits : nat) (x : Q) : Q :=
  let f := inject_Z (10 ^ Z.of_nat digits) in
  let n := floor (Qabs x * f + (1 # 2)) in
  if ltb x 0 then - (n / f) else n / f.

(** [arr.findIndex(pred)]; [None] is [-1]. *)
Fixpoint findIndex {A} (pred : A -> bool) (l : list A) : option nat :=
  match l with
  | [] => None
  | x :: l' => if pred x then Some O else S <$> findIndex pred l'
  end.

(** [arr.splice(i, 1)]: the array without its element [i]. *)
Definition splice1 {A} (i : nat) (l : list A) : list A :=
  take i l ++ drop (S i) l.

(** The three scores [evaluateSignal] acts on. *)
Definition actionable (sc : string) : bool :=
  String.eqb sc "STRONG BUY" || String.eqb sc "IGNITION_DETECTED"
  || String.eqb sc "MOMENTUM_BUY".

(** A closed 5-minute candle as delivered by the stream: [kline5m.o] and
    [kline5m.c] after [parseFloat]. *)
Record Kline5m := {
  k_o : Q;
  k_c : Q
}.

(** The object literal [newTrade] of [openPosition]. *)
Definition newTrade (counter : Z) (md : string) (now : Q) (pr : Pair)
    (qty stopLoss takeProfit : Q) : Position :=
  {| id := counter; mode := md; p_symbol := symbol pr; side := "BUY";
     entry_price := price pr; average_entry_price := price pr;
     quantity := qty; target_quantity := qty;
     stop_loss := stopLoss; take_profit := takeProfit;
     entry_time := now; status := "FILLED"; pnl := 0; pnl_pct := 0;
     entry_snapshot := pr; highest_price_since_entry := price pr;
     total_cost_usd := price pr * qty;
     p_strategy_type := strategy_type pr;
     exit_price := None; exit_time := None |}.

(** *** Concrete scenarios *)

(** The defaults of the server, with the Ignition trailing stop at 1.5%. *)
Definition defaults : Settings :=
  {| MAX_OPEN_POSITIONS := 5; POSITION_SIZE_PCT := 2;
     USE_DYNAMIC_POSITION_SIZING := false;
     STRONG_BUY_POSITION_SIZE_PCT := 3;
     USE_ATR_STOP_LOSS := true; ATR_MULTIPLIER := 3 # 2;
     STOP_LOSS_PCT := 2; RISK_REWARD_RATIO := 4;
     LOSS_COOLDOWN_HOURS := 4; USE_MTF_VALIDATION := true;
     USE_IGNITION_TRAILING_STOP := true;
     IGNITION_TRAILING_STOP_PCT := 3 # 2 |}.

(** The state the server starts from, in a given mode. *)
Definition initial (md : string) (running : bool) : BotState :=
  {| settings := defaults; balance := 10000; activePositions := [];
     tradeHistory := []; tradeIdCounter := 1; isRunning := running;
     tradingMode := md; recentlyLostSymbols := ∅;
     pendingConfirmation := ∅; priceCache := ∅ |}.

Definition start (md : string) (running : bool) : World :=
  {| bot := initial md running; trace := [] |}.

(** A confirmed Precision signal on BTCUSDT at 100, and one on ETHUSDT. *)
Definition btc : Pair :=
  {| symbol := "BTCUSDT"; score := "STRONG BUY"; atr_15m := None;
     price := 100; strategy_type := "PRECISION" |}.

Definition eth : Pair :=
  {| symbol := "ETHUSDT"; score := "STRONG BUY"; atr_15m := None;
     price := 50; strategy_type := "PRECISION" |}.

(** A client that rejects every order, one that fills every order at a
    given price, and one that rejects BTCUSDT only. *)
Definition rejecting (o : OrderParams) : ApiReply :=
  Rejected "Binance API Error: insufficient balance".

Definition filling (fill_price : Q) (o : OrderParams) : ApiReply :=
  Resolved {| fills := [fill_price]; executedQty := o_quantity o |}.

Definition picky (o : OrderParams) : ApiReply :=
  if String.eqb (o_symbol o) "BTCUSDT" then rejecting o
  else filling 50 o.

(** [Math.pow] on whole exponents, and [Math.log10] on the powers of ten
    from [10^-12] to [10^12]. *)
Definition pow_whole (b e : Q) : Q := Qpower b (Qfloor e).

Definition log10_table (x : Q) : Q :=
  match List.find (fun k => Qeq_bool x (Qpower 10 k)) (seqZ (-12) 25) with
  | Some k => inject_Z k
  | None => 0
  end.

(** The lot size of BTCUSDT: three decimals. *)
Definition lots : gmap string SymbolRule :=
  {[ "BTCUSDT" := {| stepSize := 1 # 1000 |} ]}.

(** An open position on BTCUSDT bought at 100: stop 98, target 106. *)
Definition held (strat : string) : Position :=
  newTrade 1 "VIRTUAL" 0 
    {| symbol := "BTCUSDT"; score := "STRONG BUY"; atr_15m := None;
       price := 100; strategy_type := strat |} 2 98 106.

(** The state with that position open and the last price of the symbol. *)
Definition holding (strat : string) (last_price : Q) : World :=
  {| bot := set_priceCache
              (set_activePositions (initial "VIRTUAL" true) [held strat])
              {[ "BTCUSDT" := last_price ]};
     trace := [] |}.

(** The same position, its price cached at the stop, in a bot that is
    paused. *)
Definition paused_holding : World :=
  {| bot := set_priceCache
              (set_activePositions (initial "VIRTUAL" false)
                 [held "PRECISION"])
              {[ "BTCUSDT" := 98 ]};
     trace := [] |}.

(** A second position, on ETHUSDT bought at 50: stop 49, target 53. *)
Definition held_eth (strat : string) : Position :=
  newTrade 2 "VIRTUAL" 0 
    {| symbol := "ETHUSDT"; score := "STRONG BUY"; atr_15m := None;
       price := 50; strategy_type := strat |} 4 49 53.

(** Both positions open, BTCUSDT first, each last seen at its entry
    price. *)
Definition holding_both (strat : string) (running : bool) : World :=
  {| bot := set_tradeIdCounter
              (set_priceCache
                 (set_activePositions (initial "VIRTUAL" running)
                    [held "PRECISION"; held_eth strat])
                 {[ "BTCUSDT" := 100; "ETHUSDT" := 50 ]})
              3;
     trace := [] |}.

(** Five open positions on five other symbols. *)
Definition full : World :=
  {| bot := set_activePositions (initial "VIRTUAL" true)
              (map (fun n => newTrade (Z.of_nat n) "VIRTUAL" 0 
                       {| symbol := String (Ascii.ascii_of_nat (65 + n)) "USDT";
                          score := "STRONG BUY"; atr_15m := None;
                          price := 10; strategy_type := "PRECISION" |}
                       1 9 14)
                   (seq 1 5));
     trace := [] |}.

(** A Precision signal waiting for its 5-minute confirmation. *)
Definition waiting : World :=
  {| bot := set_pendingConfirmation (initial "VIRTUAL" true)
              {[ "BTCUSDT" := {| pair := with_score btc "PENDING_CONFIRMATION";
                                 timestamp := 0 |} ]};
     trace := [] |}.

(** A call into the public methods of the service, as the stream
    handler and the endpoints of the server make them. *)
Inductive Call :=
| ProcessAnalyzedPair (pr : Pair)
| EvaluateSignal (pr : Pair)
| CheckConfirmationsOn5mClose (sym : string) (kline5m : Kline5m)
| Ticker (sym : string) (last_price : Q)
| CheckAllPositions
| ManualClose (tradeId : Z) (currentPrice : option Q).

(** A run of calls: two signals, a repeated signal, a tick that stops
    BTCUSDT out, a signal inside its cooldown, a manual close. *)
Definition busy_hour : list (Q * Call) :=
  [(0, EvaluateSignal btc);
   (1, ProcessAnalyzedPair (with_score eth "MOMENTUM_BUY"));
   (2, EvaluateSignal btc);
   (3, Ticker "BTCUSDT" 97);
   (4, EvaluateSignal btc);
   (5, ManualClose 2 (Some 51));
   (6, CheckAllPositions)].

(** *** The service *)

Section Engine.

(** [this.apiClient]; [None] when no client is configured. *)
Variable apiClient : option (OrderParams -> ApiReply).

(** [this.symbolRules]. *)
Variable symbolRules : gmap string SymbolRule.

(** [Math.log10] and [Math.pow], as the platform computes them. *)
Variable Math_log10 : Q -> Q.
Variable Math_pow : Q -> Q -> Q.

(** **** formatQuantity *)

Definition formatQuantity (sym : string) (qty : Q) : Q :=
  match symbolRules !! sym with
  | None => toFixed 8 qty
  | Some rules =>
    if negb (truthy (stepSize rules)) then toFixed 8 qty
    else if Qeq_bool (stepSize rules) 1 then floor qty
    else
      let precision := Qmax 0 (- Math_log10 (stepSize rules)) in
      let factor := Math_pow 10 precision in
      floor (qty * factor) / factor
  end.

(** **** openPosition *)

(** The [try] block of [openPosition]: the trade as filled, or [None] when
    the [catch] returns. *)
Definition placeBuy (api : OrderParams -> ApiReply) (newTrade : Position)
    (qty : Q) : M (option Position) :=
  let sym := p_symbol newTrade in
  log "TRADE" (MsgOpenAttempt sym);;
  let orderParams :=
    {| o_symbol := sym; o_side := "BUY"; o_type := "MARKET";
       o_quantity := formatQuantity sym qty |} in
  emit (CreateOrder orderParams);;
  match api orderParams with
  | Rejected message =>
    log "ERROR" (MsgOpenFailed sym message);;
    mret None
  | Resolved orderResult =>
    log "TRADE" (MsgOrderOk orderResult);;
    match fills orderResult with
    | [] =>
      log "ERROR" (MsgOpenFailed sym "fills[0] is undefined");;
      mret None
    | fill0 :: _ =>
      mret (Some (set_fill newTrade fill0 (executedQty orderResult)))
    end
  end.

Definition openPosition (now : Q) (pr : Pair)
    (qty stopLoss takeProfit : Q) : M unit :=
  counter ← gets tradeIdCounter;
  modify (fun b => set_tradeIdCounter b (counter + 1)%Z);;
  md ← gets tradingMode;
  let newTrade := newTrade counter md now pr qty stopLoss takeProfit in
  filled ←
    (if String.eqb md "REAL_LIVE" then
       match apiClient with
       | Some api => placeBuy api newTrade qty
       | None => mret (Some newTrade)
       end
     else mret (Some newTrade));
  match filled with
  | None => skip
  | Some newTrade =>
    modify (fun b =>
      set_balance b (balance b - entry_price newTrade * quantity newTrade));;
    modify (fun b =>
      set_activePositions b (activePositions b ++ [newTrade]));;
    log "TRADE" (MsgOpened (mode newTrade) (symbol pr) (quantity newTrade)
                   (entry_price newTrade) (strategy_type pr));;
    emit (SaveData "state");;
    emit (Broadcast "POSITIONS_UPDATED")
  end.

(** **** evaluateSignal *)

Definition evaluateSignal (now : Q) (pr : Pair) : M unit :=
  st ← gets settings;
  active ← gets activePositions;
  lost ← gets recentlyLostSymbols;
  if negb (actionable (score pr)) then skip
  else if (MAX_OPEN_POSITIONS st <=? len active)%Z then skip
  else if existsb (fun p => String.eqb (p_symbol p) (symbol pr)) active
    then skip
  else if match lost !! symbol pr with
          | Some expiry => ltb now expiry
          | None => false
          end
    then skip
  else
    log "TRADE" (MsgSignal (score pr) (symbol pr));;
    let positionSizePct :=
      if USE_DYNAMIC_POSITION_SIZING st
         && String.eqb (score pr) "STRONG BUY"
      then STRONG_BUY_POSITION_SIZE_PCT st
      else POSITION_SIZE_PCT st in
    bal ← gets balance;
    let positionSizeUSD := bal * (positionSizePct / 100) in
    let qty := positionSizeUSD / price pr in
    let stopLossPrice :=
      match atr_15m pr with
      | Some atr =>
        if USE_ATR_STOP_LOSS st && truthy atr
        then price pr - atr * ATR_MULTIPLIER st
        else price pr * (1 - STOP_LOSS_PCT st / 100)
      | None => price pr * (1 - STOP_LOSS_PCT st / 100)
      end in
    let riskPerUnit := price pr - stopLossPrice in
    if leb riskPerUnit 0 then log "WARN" (MsgInvalidRisk (symbol pr))
    else
      let takeProfitPrice :=
        price pr + riskPerUnit * RISK_REWARD_RATIO st in
      openPosition now pr qty stopLossPrice takeProfitPrice.

(** **** processAnalyzedPair *)

Definition processAnalyzedPair (now : Q) (pr : Pair) : M unit :=
  running ← gets isRunning;
  if negb running then skip
  else if String.eqb (score pr) "MOMENTUM_BUY"
          || String.eqb (score pr) "IGNITION_DETECTED"
    then evaluateSignal now pr
  else if String.eqb (score pr) "PENDING_CONFIRMATION" then
    st ← gets settings;
    if USE_MTF_VALIDATION st then
      log "TRADE" (MsgPending (symbol pr));;
      modify (fun b =>
        set_pendingConfirmation b
          (<[symbol pr := {| pair := pr; timestamp := now |}]>
             (pendingConfirmation b)))
    else evaluateSignal now (with_score pr "STRONG BUY")
  else skip.

(** **** checkConfirmationsOn5mClose *)

Definition checkConfirmationsOn5mClose (now : Q) (sym : string)
    (kline5m : Kline5m) : M unit :=
  pending ← gets pendingConfirmation;
  match pending !! sym with
  | None => skip
  | Some entry =>
    modify (fun b =>
      set_pendingConfirmation b (delete sym (pendingConfirmation b)));;
    let isBullishConfirmation := ltb (k_o kline5m) (k_c kline5m) in
    if isBullishConfirmation then
      log "TRADE" (MsgConfirmed5m sym);;
      evaluateSignal now (with_score (pair entry) "STRONG BUY")
    else log "TRADE" (MsgRejected5m sym)
  end.

(** **** closePosition *)

(** The [try] block of [closePosition]; a rejection is logged and
    swallowed. *)
Definition placeSell (api : OrderParams -> ApiReply)
    (closedTrade : Position) : M unit :=
  let sym := p_symbol closedTrade in
  log "TRADE" (MsgCloseAttempt sym);;
  let orderParams :=
    {| o_symbol := sym; o_side := "SELL"; o_type := "MARKET";
       o_quantity := formatQuantity sym (quantity closedTrade) |} in
  emit (CreateOrder orderParams);;
  match api orderParams with
  | Rejected message => log "ERROR" (MsgCloseFailed sym message)
  | Resolved _ => log "TRADE" (MsgSellOk sym)
  end.

(** [if (tradingMode === 'REAL_LIVE' && this.apiClient) { try ... }]. *)
Definition sellIfLive (closedTrade : Position) : M unit :=
  md ← gets tradingMode;
  if String.eqb md "REAL_LIVE" then
    match apiClient with
    | Some api => placeSell api closedTrade
    | None => skip
    end
  else skip.

Definition closePosition (now : Q) (position : Position) (exitPrice : Q)
  : M unit :=
  active ← gets activePositions;
  match findIndex (fun p => (id p =? id position)%Z) active with
  | None => skip
  | Some positionIndex =>
    match active !! positionIndex with
    | None => skip
    | Some spliced =>
      modify (fun b =>
        set_activePositions b (splice1 positionIndex (activePositions b)));;
      let pnl := (exitPrice - entry_price spliced) * quantity spliced in
      let closedTrade :=
        set_closed spliced exitPrice now pnl
          ((pnl / (entry_price spliced * quantity spliced)) * 100) in
      sellIfLive closedTrade;;
      modify (fun b =>
        set_balance b
          (balance b
           + (entry_price closedTrade * quantity closedTrade + pnl)));;
      modify (fun b =>
        set_tradeHistory b (tradeHistory b ++ [closedTrade]));;
      st ← gets settings;
      (if ltb pnl 0 then
         let cooldownUntil :=
           now + LOSS_COOLDOWN_HOURS st * 60 * 60 * 1000 in
         modify (fun b =>
           set_recentlyLostSymbols b
             (<[p_symbol closedTrade := cooldownUntil]>
                (recentlyLostSymbols b)))
       else skip);;
      bal ← gets balance;
      log "TRADE" (MsgClosed (p_symbol closedTrade) pnl
                     (pnl_pct closedTrade) bal);;
      emit (SaveData "state");;
      emit (Broadcast "POSITIONS_UPDATED")
    end
  end.

(** **** checkPosition *)

(** The decision of [checkPosition] on one position and one price: the
    position as mutated, and the exit reason and price if it exits. *)
Definition monitor (st : Settings) (position : Position)
    (currentPrice : Q) : Position * option (string * Q) :=
  let position :=
    set_highest position
      (Qmax (highest_price_since_entry position) currentPrice) in
  if String.eqb (p_strategy_type position) "IGNITION"
     && USE_IGNITION_TRAILING_STOP st
  then
    let trailingStopPct := IGNITION_TRAILING_STOP_PCT st / 100 in
    let newStopLoss :=
      highest_price_since_entry position * (1 - trailingStopPct) in
    let position :=
      if ltb (stop_loss position) newStopLoss
      then set_stop_loss position newStopLoss
      else position in
    if leb currentPrice (stop_loss position)
    then (position,
          Some ("Stop Suiveur Ignition atteint", stop_loss position))
    else (position, None)
  else
    if leb currentPrice (stop_loss position)
    then (position, Some ("Stop Loss atteint", stop_loss position))
    else if leb (take_profit position) currentPrice
    then (position, Some ("Take Profit atteint", take_profit position))
    else (position, None).

(** [checkPosition(position)] where [position] is the object in slot
    [idx] of [activePositions]. *)
Definition checkPosition (now : Q) (idx : nat) : M unit :=
  active ← gets activePositions;
  match active !! idx with
  | None => skip
  | Some position =>
    cache ← gets priceCache;
    match cache !! p_symbol position with
    | None => skip
    | Some currentPrice =>
      if negb (truthy currentPrice) then skip
      else
        st ← gets settings;
        let '(position', exit) := monitor st position currentPrice in
        modify (fun b =>
          set_activePositions b (<[idx := position']> (activePositions b)));;
        match exit with
        | None => skip
        | Some (exitReason, exitPrice) =>
          log "TRADE" (MsgExit exitReason (p_symbol position') exitPrice);;
          closePosition now position' exitPrice
        end
    end
  end.

(** **** checkAllPositions

    [forEach] visits the indices below the length the array had when the
    loop started and skips an index the array no longer has; a position
    closed during the loop is spliced out of the live array. *)
Fixpoint forEach_from (now : Q) (k remaining : nat) : M unit :=
  match remaining with
  | O => skip
  | S remaining' =>
    checkPosition now k;;
    forEach_from now (S k) remaining'
  end.

Definition checkAllPositions (now : Q) : M unit :=
  running ← gets isRunning;
  if negb running then skip
  else
    active ← gets activePositions;
    forEach_from now 0 (length active).

(** The ticker branch of the server's stream handler, for one ticker:
    [priceCache.set(ticker.s, { price })], the [PRICE_UPDATE] broadcast,
    then [checkAllPositions()]. *)
Definition onTicker (now : Q) (sym : string) (last_price : Q) : M unit :=
  modify (fun b =>
    set_priceCache b (<[sym := last_price]> (priceCache b)));;
  emit (Broadcast "PRICE_UPDATE");;
  checkAllPositions now.

(** **** manualClose *)

Definition manualClose (now : Q) (tradeId : Z) (currentPrice : option Q)
  : M (option Position) :=
  active ← gets activePositions;
  match List.find (fun p => (id p =? tradeId)%Z) active with
  | None => mret None
  | Some position =>
    let currentPrice :=
      if truthy_opt currentPrice then default 0 currentPrice
      else average_entry_price position in
    closePosition now position currentPrice;;
    history ← gets tradeHistory;
    mret (last history)
  end.

(** **** Sequences of calls *)

(** One call, at the time [now]. *)
Definition call (now : Q) (c : Call) : M unit :=
  match c with
  | ProcessAnalyzedPair pr => processAnalyzedPair now pr
  | EvaluateSignal pr => evaluateSignal now pr
  | CheckConfirmationsOn5mClose sym kline5m =>
    checkConfirmationsOn5mClose now sym kline5m
  | Ticker sym last_price => onTicker now sym last_price
  | CheckAllPositions => checkAllPositions now
  | ManualClose tradeId currentPrice =>
    manualClose now tradeId currentPrice;; skip
  end.

(** A run of calls, each with the time it is made at. *)
Fixpoint session (calls : list (Q * Call)) : M unit :=
  match calls with
  | [] => skip
  | (now, c) :: rest => call now c;; session rest
  end.

(** **** Vocabulary of the statements *)

(** The order [openPosition] sends for a pair and a raw quantity. *)
Definition buyOrder (pr : Pair) (qty : Q) : OrderParams :=
  {| o_symbol := symbol pr; o_side := "BUY"; o_type := "MARKET";
     o_quantity := formatQuantity (symbol pr) qty |}.

(** The placement fails: the client rejects, or resolves with a result
    that carries no fill to read the price from. *)
Definition orderFails (api : OrderParams -> ApiReply) (o : OrderParams)
  : Prop :=
  match api o with
  | Rejected _ => True
  | Resolved r => fills r = []
  end.

(** An effect that reports a change of state to the outside. *)
Definition notifies (e : Effect) : bool :=
  match e with
  | Broadcast _ => true
  | SaveData _ => true
  | _ => false
  end.

(** The state after [t] was opened: the counter moved, the balance
    debited by the cost of the fill, the position appended. *)
Definition opened (b : BotState) (t : Position) : BotState :=
  set_activePositions
    (set_balance
       (set_tradeIdCounter b (tradeIdCounter b + 1)%Z)
       (balance b - entry_price t * quantity t))
    (activePositions b ++ [t]).

(** The trade [closePosition] records for the position [p]. *)
Definition closedTrade (p : Position) (exitPrice now : Q) : Position :=
  let pnl := (exitPrice - entry_price p) * quantity p in
  set_closed p exitPrice now pnl
    ((pnl / (entry_price p * quantity p)) * 100).

(** The state after the position in slot [i] was closed as [t]. *)
Definition settle (b : BotState) (i : nat) (t : Position) (now : Q)
  : BotState :=
  let b1 := set_activePositions b (splice1 i (activePositions b)) in
  let b2 :=
    set_balance b1 (balance b1 + (entry_price t * quantity t + pnl t)) in
  let b3 := set_tradeHistory b2 (tradeHistory b2 ++ [t]) in
  if ltb (pnl t) 0
  then set_recentlyLostSymbols b3
         (<[p_symbol t := now + LOSS_COOLDOWN_HOURS (settings b)
                                * 60 * 60 * 1000]>
            (recentlyLostSymbols b3))
  else b3.

(** [w'] is [w] after the position [p] of slot [idx] was closed at
    [exitPrice]: the slot is gone from [activePositions], the closed trade
    is the new last entry of [tradeHistory], and a loss starts the
    cooldown of the symbol, during which [evaluateSignal] turns the symbol
    away. *)
Definition closedAt (now : Q) (w w' : World) (idx : nat) (p : Position)
    (exitPrice : Q) : Prop :=
  exists t,
    tradeHistory (bot w') = tradeHistory (bot w) ++ [t]
    /\ activePositions (bot w') = splice1 idx (activePositions (bot w))
    /\ id t = id p /\ p_symbol t = p_symbol p /\ status t = "CLOSED"
    /\ exit_price t = Some exitPrice
    /\ pnl t = (exitPrice - entry_price p) * quantity p
    /\ (pnl t < 0 ->
        let until :=
          now + LOSS_COOLDOWN_HOURS (settings (bot w)) * 60 * 60 * 1000 in
        recentlyLostSymbols (bot w') !! p_symbol p = Some until
        /\ forall now' pr,
             symbol pr = p_symbol p -> now' < until ->
             evaluateSignal now' pr w' = (tt, w')).

(** The ids of the open positions are pairwise distinct and below the
    counter: what [closePosition] needs to find a position by its id. *)
Definition idsFresh (b : BotState) : Prop :=
  NoDup (map id (activePositions b))
  /\ Forall (fun p => (id p < tradeIdCounter b)%Z) (activePositions b).

(** The position after a run of ticks, each with the settings in force
    at the time. *)
Definition track (p : Position) (ticks : list (Settings * Q)) : Position :=
  fold_left (fun q tick => fst (monitor (fst tick) q (snd tick))) ticks p.

(** One change of the bot state: the counter moves alone (a failed live
    open), a position is opened under the gates of [evaluateSignal], a
    tick rewrites the slot of a position, a position is closed, the
    pending confirmations or the price cache are written. *)
Inductive Step : BotState -> BotState -> Prop :=
| step_bump b :
    Step b (set_tradeIdCounter b (tradeIdCounter b + 1)%Z)
| step_open b t :
    id t = tradeIdCounter b ->
    status t = "FILLED" ->
    ~ In (p_symbol t) (map p_symbol (activePositions b)) ->
    (len (activePositions b) < MAX_OPEN_POSITIONS (settings b))%Z ->
    Step b (opened b t)
| step_slot b i p st cp :
    activePositions b !! i = Some p ->
    Step b (set_activePositions b
              (<[i := fst (monitor st p cp)]> (activePositions b)))
| step_settle b i p exitPrice now :
    activePositions b !! i = Some p ->
    Step b (settle b i (closedTrade p exitPrice now) now)
| step_pending b m :
    Step b (set_pendingConfirmation b m)
| step_price b m :
    Step b (set_priceCache b m).

(** At most one open position per symbol. *)
Definition onePerSymbol (b : BotState) : Prop :=
  NoDup (map p_symbol (activePositions b)).

(** Open positions are [FILLED]; the trades of the ledger are [CLOSED]
    and carry an exit price. *)
Definition statusesSound (b : BotState) : Prop :=
  Forall (fun p => status p = "FILLED") (activePositions b)
  /\ Forall (fun t => status t = "CLOSED" /\ is_Some (exit_price t))
       (tradeHistory b).





(** *** Reasoning about transformers *)

Ltac run_M :=
  cbv beta iota zeta delta
    [mbind M_bind mret M_ret gets modify emit log skip exec];
  cbn [bot trace fst snd].

(** **** evaluateSignal: the portfolio gates *)

(** The three gates of [evaluateSignal]. *)
Lemma evaluateSignal_rejects (now : Q) (pr : Pair) (w : World) :
  (MAX_OPEN_POSITIONS (settings (bot w))
     <= len (activePositions (bot w)))%Z
  \/ (exists p, In p (activePositions (bot w))
                /\ p_symbol p = symbol pr)
  \/ (exists expiry,
        recentlyLostSymbols (bot w) !! symbol pr = Some expiry
        /\ now < expiry)
  -> evaluateSignal now pr w = (tt, w).
Proof.
  intros H. unfold evaluateSignal. run_M.
  destruct (negb (actionable (score pr))); [reflexivity|].
  destruct (Z.leb_spec (MAX_OPEN_POSITIONS (settings (bot w)))
              (len (activePositions (bot w)))) as [|Hmax];
    [reflexivity|].
  destruct (existsb _ (activePositions (bot w))) eqn:Hdup;
    [reflexivity|].
  destruct H as [H|[(p & Hin & Hsym)|(expiry & Hlost & Hlt)]].
  - lia.
  - exfalso.
    assert (existsb (fun p0 => String.eqb (p_symbol p0) (symbol pr))
              (activePositions (bot w)) = true) as Hex.
    { apply existsb_exists. exists p. split; [exact Hin|].
      apply String.eqb_eq. exact Hsym. }
    congruence.
  - rewrite Hlost. apply ltb_lt in Hlt. rewrite Hlt. reflexivity.
Qed.

(** The gate of [processAnalyzedPair]. *)
Lemma processAnalyzedPair_paused (now : Q) (pr : Pair) (w : World) :
  isRunning (bot w) = false -> processAnalyzedPair now pr w = (tt, w).
Proof.
  intros H. unfold processAnalyzedPair. run_M. rewrite H. reflexivity.
Qed.

(** The gates that are in place.  [evaluateSignal] returns before any
    sizing, log line or order when the number of open positions has
    reached [MAX_OPEN_POSITIONS], when the symbol already has an open
    position, or when the symbol's cooldown expiry lies in the future;
    [processAnalyzedPair] returns at once when [isRunning] is false.  In
    each case the world (state and effects) is left exactly as it was. *)
Theorem evaluateSignal_gates (now : Q) (pr : Pair) (w : World) :
  ((MAX_OPEN_POSITIONS (settings (bot w))
      <= len (activePositions (bot w)))%Z
   \/ (exists p, In p (activePositions (bot w))
                 /\ p_symbol p = symbol pr)
   \/ (exists expiry,
         recentlyLostSymbols (bot w) !! symbol pr = Some expiry
         /\ now < expiry)
   -> evaluateSignal now pr w = (tt, w))
  /\ (isRunning (bot w) = false -> processAnalyzedPair now pr w = (tt, w)).
Proof.
  split.
  - apply evaluateSignal_rejects.
  - apply processAnalyzedPair_paused.
Qed.

(** **** openPosition: a failed placement *)

(** What a failed live open leaves behind: the counter moved by one, and
    log lines and the order call in the trace. *)
Lemma openPosition_failure api now pr qty stopLoss takeProfit w :
  apiClient = Some api ->
  tradingMode (bot w) = "REAL_LIVE" ->
  orderFails api (buyOrder pr qty) ->
  exists evs,
    openPosition now pr qty stopLoss takeProfit w
    = (tt, {| bot := set_tradeIdCounter (bot w)
                       (tradeIdCounter (bot w) + 1)%Z;
              trace := trace w ++ evs |})
    /\ existsb notifies evs = false
    /\ In (CreateOrder (buyOrder pr qty)) evs.
Proof.
  intros Hapi Hmode Hfail. unfold openPosition, placeBuy. run_M.
  cbn [tradingMode set_tradeIdCounter]. rewrite Hmode, Hapi.
  cbn [String.eqb Ascii.eqb Bool.eqb p_symbol].
  unfold orderFails, buyOrder in Hfail.
  destruct (api _) as [r|message] eqn:Hreply.
  - cbn [trace bot fst snd]. rewrite Hfail.
    eexists. split.
    + cbn [trace bot]. rewrite <- !app_assoc. reflexivity.
    + split; [reflexivity|]. cbn. tauto.
  - eexists. split.
    + cbn [trace bot]. rewrite <- !app_assoc. reflexivity.
    + split; [reflexivity|]. cbn. tauto.
Qed.

(** C4. When the placement of the buy order fails in live mode, the open
    is abandoned as a whole: the balance is not debited, no position is
    added to [activePositions], [tradeHistory] and every map of the state
    are as before, and the trace gains no [POSITIONS_UPDATED] broadcast
    (nor a save): only log lines and the order call itself. *)
Theorem openPosition_failure_atomic api now pr qty stopLoss takeProfit w :
  apiClient = Some api ->
  tradingMode (bot w) = "REAL_LIVE" ->
  orderFails api (buyOrder pr qty) ->
  let w' := exec (openPosition now pr qty stopLoss takeProfit) w in
  balance (bot w') = balance (bot w)
  /\ activePositions (bot w') = activePositions (bot w)
  /\ tradeHistory (bot w') = tradeHistory (bot w)
  /\ pendingConfirmation (bot w') = pendingConfirmation (bot w)
  /\ recentlyLostSymbols (bot w') = recentlyLostSymbols (bot w)
  /\ exists evs, trace w' = trace w ++ evs
                 /\ ~ In (Broadcast "POSITIONS_UPDATED") evs
                 /\ existsb notifies evs = false.
Proof.
  intros Hapi Hmode Hfail w'.
  destruct (openPosition_failure api now pr qty stopLoss takeProfit w
              Hapi Hmode Hfail) as (evs & Hrun & Hquiet & _).
  subst w'. unfold exec. rewrite Hrun. cbn.
  repeat split; try reflexivity.
  exists evs. split; [reflexivity|]. split; [|exact Hquiet].
  intros Hin.
  assert (existsb notifies evs = true) as Hex.
  { apply existsb_exists. eexists. split; [exact Hin|reflexivity]. }
  congruence.
Qed.

(** **** openPosition: a successful open *)

(** Without a live client the trade is recorded at the signal price. *)
Lemma openPosition_paper now pr qty stopLoss takeProfit w :
  String.eqb (tradingMode (bot w)) "REAL_LIVE" = false
  \/ apiClient = None ->
  let t := newTrade (tradeIdCounter (bot w)) (tradingMode (bot w)) now pr
             qty stopLoss takeProfit in
  openPosition now pr qty stopLoss takeProfit w
  = (tt, {| bot := opened (bot w) t;
            trace := trace w
                     ++ [Log "TRADE" (MsgOpened (mode t) (symbol pr)
                                        (quantity t) (entry_price t)
                                        (strategy_type pr));
                         SaveData "state";
                         Broadcast "POSITIONS_UPDATED"] |}).
Proof.
  intros Hpaper t. unfold openPosition. run_M.
  cbn [tradingMode set_tradeIdCounter].
  destruct Hpaper as [H | H]; rewrite H;
    [|destruct (String.eqb (tradingMode (bot w)) "REAL_LIVE")];
    cbn [trace bot]; rewrite <- !app_assoc; reflexivity.
Qed.

(** With a live client that fills the order the trade carries the price
    of the first fill and the executed quantity. *)
Lemma openPosition_live api now pr qty stopLoss takeProfit w r fill0 rest :
  apiClient = Some api ->
  tradingMode (bot w) = "REAL_LIVE" ->
  api (buyOrder pr qty) = Resolved r ->
  fills r = fill0 :: rest ->
  let t := set_fill (newTrade (tradeIdCounter (bot w)) "REAL_LIVE" now pr
                       qty stopLoss takeProfit)
             fill0 (executedQty r) in
  bot (exec (openPosition now pr qty stopLoss takeProfit) w)
  = opened (bot w) t.
Proof.
  intros Hapi Hmode Hreply Hfills t. unfold openPosition, placeBuy. run_M.
  cbn [tradingMode set_tradeIdCounter]. rewrite Hmode, Hapi.
  cbn [String.eqb Ascii.eqb Bool.eqb p_symbol newTrade].
  unfold buyOrder in Hreply. rewrite Hreply.
  cbn [trace bot fst snd]. rewrite Hfills. reflexivity.
Qed.

(** C10. A failed live open has already taken its id: [tradeIdCounter]
    is one more than before although the balance, [activePositions] and
    [tradeHistory] are unchanged, and the next order that fills opens its
    position under the id after the one the failure used up. *)
Theorem openPosition_failure_consumes_id
    api now pr qty stopLoss takeProfit w :
  apiClient = Some api ->
  tradingMode (bot w) = "REAL_LIVE" ->
  orderFails api (buyOrder pr qty) ->
  let w' := exec (openPosition now pr qty stopLoss takeProfit) w in
  tradeIdCounter (bot w') = (tradeIdCounter (bot w) + 1)%Z
  /\ balance (bot w') = balance (bot w)
  /\ activePositions (bot w') = activePositions (bot w)
  /\ tradeHistory (bot w') = tradeHistory (bot w)
  /\ forall now2 pr2 qty2 stopLoss2 takeProfit2 r fill0 rest,
       api (buyOrder pr2 qty2) = Resolved r ->
       fills r = fill0 :: rest ->
       exists t,
         activePositions
           (bot (exec (openPosition now2 pr2 qty2 stopLoss2 takeProfit2) w'))
         = activePositions (bot w) ++ [t]
         /\ id t = (tradeIdCounter (bot w) + 1)%Z.
Proof.
  intros Hapi Hmode Hfail w'.
  destruct (openPosition_failure api now pr qty stopLoss takeProfit w
              Hapi Hmode Hfail) as (evs & Hrun & _ & _).
  assert (Hw' : w' = {| bot := set_tradeIdCounter (bot w)
                                 (tradeIdCounter (bot w) + 1)%Z;
                        trace := trace w ++ evs |}).
  { subst w'. unfold exec. rewrite Hrun. reflexivity. }
  rewrite Hw'. cbn [bot tradeIdCounter balance activePositions tradeHistory
                    set_tradeIdCounter].
  repeat split.
  intros now2 pr2 qty2 stopLoss2 takeProfit2 r fill0 rest Hreply Hfills.
  set (w1 := {| bot := set_tradeIdCounter (bot w)
                         (tradeIdCounter (bot w) + 1)%Z;
                trace := trace w ++ evs |}).
  assert (Hmode1 : tradingMode (bot w1) = "REAL_LIVE") by exact Hmode.
  rewrite (openPosition_live api now2 pr2 qty2 stopLoss2 takeProfit2 w1
             r fill0 rest Hapi Hmode1 Hreply Hfills).
  eexists. split; reflexivity.
Qed.

(** **** closePosition *)

Lemma findIndex_Some {A} (pred : A -> bool) (l : list A) (i : nat) :
  findIndex pred l = Some i ->
  exists x, l !! i = Some x /\ pred x = true.
Proof.
  revert i. induction l as [|y l IH]; intros i H; cbn in H.
  - discriminate.
  - destruct (pred y) eqn:E.
    + injection H as <-. exists y. split; [reflexivity|exact E].
    + destruct (findIndex pred l) as [j|]; [|discriminate].
      injection H as <-. apply (IH j). reflexivity.
Qed.

(** In an array whose ids are pairwise distinct, [findIndex] on the id of
    the element in slot [i] answers [i]. *)
Lemma findIndex_id (l : list Position) (i : nat) (p : Position) :
  NoDup (map id l) ->
  l !! i = Some p ->
  findIndex (fun q => (id q =? id p)%Z) l = Some i.
Proof.
  revert i. induction l as [|y l IH]; intros i Hnd Hi.
  - destruct i; discriminate.
  - cbn in Hnd. apply NoDup_cons in Hnd as [Hnotin Hnd].
    destruct i as [|i]; cbn in Hi |- *.
    + injection Hi as ->. rewrite Z.eqb_refl. reflexivity.
    + destruct (Z.eqb_spec (id y) (id p)) as [Heq|_].
      * exfalso. apply Hnotin. rewrite Heq.
        apply list_elem_of_fmap. exists p. split; [reflexivity|].
        apply list_elem_of_lookup. exists i. exact Hi.
      * rewrite (IH i Hnd Hi). reflexivity.
Qed.

Lemma sellIfLive_frame t w :
  exists evs,
    sellIfLive t w = (tt, {| bot := bot w; trace := trace w ++ evs |})
    /\ existsb notifies evs = false.
Proof.
  unfold sellIfLive, placeSell. run_M.
  destruct (String.eqb (tradingMode (bot w)) "REAL_LIVE").
  - destruct apiClient as [api|].
    + destruct (api _).
      * eexists. split;
          [cbn [bot trace]; rewrite <- !app_assoc; reflexivity|reflexivity].
      * eexists. split;
          [cbn [bot trace]; rewrite <- !app_assoc; reflexivity|reflexivity].
    + exists []. rewrite app_nil_r. destruct w. split; reflexivity.
  - exists []. rewrite app_nil_r. destruct w. split; reflexivity.
Qed.

(** What [closePosition] does when it finds the position. *)
Lemma closePosition_found now position exitPrice w i p :
  findIndex (fun q => (id q =? id position)%Z) (activePositions (bot w))
  = Some i ->
  activePositions (bot w) !! i = Some p ->
  exists evs,
    closePosition now position exitPrice w
    = (tt, {| bot := settle (bot w) i (closedTrade p exitPrice now) now;
              trace := trace w ++ evs
                       ++ [SaveData "state";
                           Broadcast "POSITIONS_UPDATED"] |}).
Proof.
  intros Hfind Hlook. unfold closePosition. run_M.
  rewrite Hfind, Hlook.
  match goal with
  | |- context [sellIfLive ?t ?w0] =>
      destruct (sellIfLive_frame t w0) as (evs & Hsell & _);
      cbn [bot trace] in Hsell; rewrite Hsell
  end.
  cbn [bot trace].
  unfold settle, closedTrade.
  cbn [pnl set_closed p_symbol entry_price quantity pnl_pct
       settings set_activePositions set_balance set_tradeHistory
       balance tradeHistory activePositions].
  set (pnl0 := (exitPrice - entry_price p) * quantity p).
  destruct (ltb pnl0 0); cbn [bot trace]; eexists (evs ++ [_]);
    rewrite <- !app_assoc; cbn [app]; reflexivity.
Qed.

Lemma settle_fields b i t now :
  activePositions (settle b i t now) = splice1 i (activePositions b)
  /\ tradeHistory (settle b i t now) = tradeHistory b ++ [t]
  /\ balance (settle b i t now)
     = balance b + (entry_price t * quantity t + pnl t)
  /\ pendingConfirmation (settle b i t now) = pendingConfirmation b
  /\ tradeIdCounter (settle b i t now) = tradeIdCounter b
  /\ settings (settle b i t now) = settings b
  /\ recentlyLostSymbols (settle b i t now)
     = if ltb (pnl t) 0
       then <[p_symbol t := now + LOSS_COOLDOWN_HOURS (settings b)
                                  * 60 * 60 * 1000]>
              (recentlyLostSymbols b)
       else recentlyLostSymbols b.
Proof.
  unfold settle. destruct (ltb (pnl t) 0); cbn; repeat split.
Qed.

(** C2, as the code has it. The trade [closePosition] appends to
    [tradeHistory] is closed at the exit price with
    [pnl = (exit_price - entry_price) * quantity] and
    [pnl_pct = pnl / (entry_price * quantity) * 100], on the price and
    quantity of the fill.  These are the formulas over
    [average_entry_price] and [total_cost_usd] whenever the position has
    [entry_price = average_entry_price] and
    [total_cost_usd = entry_price * quantity], which is how [openPosition]
    creates every position before a live fill overwrites the price and the
    quantity.  (A cost of zero makes the quotient [0] here.) *)
Theorem closePosition_pnl now position exitPrice w i p :
  findIndex (fun q => (id q =? id position)%Z) (activePositions (bot w))
  = Some i ->
  activePositions (bot w) !! i = Some p ->
  let w' := exec (closePosition now position exitPrice) w in
  let t := closedTrade p exitPrice now in
  tradeHistory (bot w') = tradeHistory (bot w) ++ [t]
  /\ activePositions (bot w') = splice1 i (activePositions (bot w))
  /\ status t = "CLOSED"
  /\ exit_price t = Some exitPrice
  /\ pnl t = (exitPrice - entry_price t) * quantity t
  /\ pnl_pct t = (pnl t / (entry_price t * quantity t)) * 100
  /\ (entry_price p = average_entry_price p ->
      total_cost_usd p = entry_price p * quantity p ->
      pnl t = (exitPrice - average_entry_price t) * quantity t
      /\ pnl_pct t = (pnl t / total_cost_usd t) * 100)
  /\ (forall counter md now0 pr qty stopLoss takeProfit,
        let p0 := newTrade counter md now0 pr qty stopLoss takeProfit in
        entry_price p0 = average_entry_price p0
        /\ total_cost_usd p0 = entry_price p0 * quantity p0).
Proof.
  intros Hfind Hlook w' t.
  destruct (closePosition_found now position exitPrice w i p Hfind Hlook)
    as (evs & Hrun).
  subst w'. unfold exec. rewrite Hrun. cbn [snd bot].
  destruct (settle_fields (bot w) i t now) as (Ha & Hh & _).
  split; [exact Hh|]. split; [exact Ha|].
  subst t. unfold closedTrade.
  cbn [status exit_price pnl pnl_pct entry_price quantity
       average_entry_price total_cost_usd set_closed].
  do 4 (split; [reflexivity|]). split.
  - intros Havg Hcost. rewrite Hcost, Havg. split; reflexivity.
  - intros counter md now0 pr qty stopLoss takeProfit.
    split; reflexivity.
Qed.

(** **** checkPosition *)

Lemma Qmax_ltb_true x y : ltb x y = true -> Qmax x y = y.
Proof.
  intros H. apply ltb_lt in H.
  assert (E : (x ?= y) = Lt) by (apply Qlt_alt; exact H).
  unfold Qmax, GenericMinMax.gmax. rewrite E. reflexivity.
Qed.

Lemma Qmax_ltb_false x y : ltb x y = false -> Qmax x y = x.
Proof.
  intros H. apply ltb_ge in H.
  unfold Qmax, GenericMinMax.gmax.
  destruct (x ?= y) eqn:E; try reflexivity.
  exfalso. apply (Qlt_not_le x y); [apply Qlt_alt; exact E|exact H].
Qed.

Lemma truthy_nonzero cp : ~ (cp == 0) -> truthy cp = true.
Proof.
  intros H. unfold truthy. destruct (Qeq_bool cp 0) eqn:E; [|reflexivity].
  apply Qeq_bool_iff in E. contradiction.
Qed.

Lemma splice1_insert {A} (l : list A) (i : nat) (x : A) :
  splice1 i (<[i := x]> l) = splice1 i l.
Proof.
  unfold splice1. rewrite take_insert_ge by lia.
  rewrite drop_insert_lt by lia. reflexivity.
Qed.

Lemma settle_insert b i x t now :
  settle (set_activePositions b (<[i := x]> (activePositions b))) i t now
  = settle b i t now.
Proof.
  unfold settle.
  cbn [activePositions set_activePositions balance tradeHistory settings
       set_balance set_tradeHistory recentlyLostSymbols].
  rewrite splice1_insert. reflexivity.
Qed.

(** The fixed exit rule: every position but an Ignition one under the
    trailing stop. *)
Lemma monitor_fixed st p cp :
  String.eqb (p_strategy_type p) "IGNITION"
  && USE_IGNITION_TRAILING_STOP st = false ->
  monitor st p cp
  = let p1 := set_highest p (Qmax (highest_price_since_entry p) cp) in
    if leb cp (stop_loss p)
    then (p1, Some ("Stop Loss atteint", stop_loss p))
    else if leb (take_profit p) cp
    then (p1, Some ("Take Profit atteint", take_profit p))
    else (p1, None).
Proof.
  intros H. unfold monitor.
  cbn [p_strategy_type set_highest stop_loss take_profit].
  rewrite H. reflexivity.
Qed.

(** The trailing rule of an Ignition position. *)
Lemma monitor_trailing st p cp :
  p_strategy_type p = "IGNITION" ->
  USE_IGNITION_TRAILING_STOP st = true ->
  monitor st p cp
  = let h := Qmax (highest_price_since_entry p) cp in
    let s := Qmax (stop_loss p)
               (h * (1 - IGNITION_TRAILING_STOP_PCT st / 100)) in
    let p2 := set_stop_loss (set_highest p h) s in
    if leb cp s
    then (p2, Some ("Stop Suiveur Ignition atteint", s))
    else (p2, None).
Proof.
  intros Hs Hf. unfold monitor.
  cbn [p_strategy_type set_highest stop_loss highest_price_since_entry].
  rewrite Hs, Hf. cbn [String.eqb Ascii.eqb Bool.eqb andb].
  cbv zeta.
  destruct (ltb (stop_loss p) _) eqn:E.
  - rewrite (Qmax_ltb_true _ _ E). reflexivity.
  - rewrite (Qmax_ltb_false _ _ E). reflexivity.
Qed.

(** [monitor] only touches [highest_price_since_entry] and [stop_loss]. *)
Lemma monitor_frame st p cp :
  let p' := fst (monitor st p cp) in
  id p' = id p /\ p_symbol p' = p_symbol p
  /\ entry_price p' = entry_price p /\ quantity p' = quantity p
  /\ take_profit p' = take_profit p
  /\ p_strategy_type p' = p_strategy_type p
  /\ highest_price_since_entry p'
     = Qmax (highest_price_since_entry p) cp.
Proof.
  unfold monitor.
  cbn [p_strategy_type set_highest stop_loss highest_price_since_entry
       take_profit].
  destruct (_ && _).
  - destruct (ltb _ _); destruct (leb _ _); cbn; repeat split.
  - destruct (leb cp _); [cbn; repeat split|].
    destruct (leb _ cp); cbn; repeat split.
Qed.

Lemma checkPosition_run now idx w p cp :
  activePositions (bot w) !! idx = Some p ->
  priceCache (bot w) !! p_symbol p = Some cp ->
  ~ (cp == 0) ->
  checkPosition now idx w
  = match monitor (settings (bot w)) p cp with
    | (p', None) =>
      (tt, {| bot := set_activePositions (bot w)
                       (<[idx := p']> (activePositions (bot w)));
              trace := trace w |})
    | (p', Some (reason, exitPrice)) =>
      closePosition now p' exitPrice
        {| bot := set_activePositions (bot w)
                    (<[idx := p']> (activePositions (bot w)));
           trace := trace w
                    ++ [Log "TRADE"
                          (MsgExit reason (p_symbol p') exitPrice)] |}
    end.
Proof.
  intros Hlook Hprice Hnz. unfold checkPosition. run_M.
  rewrite Hlook, Hprice, (truthy_nonzero cp Hnz). cbn [negb].
  destruct (monitor (settings (bot w)) p cp) as [p' [[reason ex]|]];
    reflexivity.
Qed.

(** A tick that leaves the position open only rewrites its slot. *)
Lemma checkPosition_hold now idx w p cp p' :
  activePositions (bot w) !! idx = Some p ->
  priceCache (bot w) !! p_symbol p = Some cp ->
  ~ (cp == 0) ->
  monitor (settings (bot w)) p cp = (p', None) ->
  checkPosition now idx w
  = (tt, {| bot := set_activePositions (bot w)
                     (<[idx := p']> (activePositions (bot w)));
            trace := trace w |}).
Proof.
  intros Hlook Hprice Hnz Hmon.
  rewrite (checkPosition_run now idx w p cp Hlook Hprice Hnz), Hmon.
  reflexivity.
Qed.

(** A tick that triggers an exit closes the position of the slot at the
    exit price [monitor] chose. *)
Lemma checkPosition_exit now idx w p cp p' reason exitPrice :
  NoDup (map id (activePositions (bot w))) ->
  activePositions (bot w) !! idx = Some p ->
  priceCache (bot w) !! p_symbol p = Some cp ->
  ~ (cp == 0) ->
  monitor (settings (bot w)) p cp = (p', Some (reason, exitPrice)) ->
  bot (exec (checkPosition now idx) w)
  = settle (bot w) idx (closedTrade p' exitPrice now) now.
Proof.
  intros Hnd Hlook Hprice Hnz Hmon. unfold exec.
  rewrite (checkPosition_run now idx w p cp Hlook Hprice Hnz), Hmon.
  pose proof (monitor_frame (settings (bot w)) p cp) as Hfr.
  rewrite Hmon in Hfr. cbn [fst] in Hfr. destruct Hfr as (Hid & _).
  set (w1 := {| bot := set_activePositions (bot w)
                         (<[idx := p']> (activePositions (bot w)));
                trace := trace w
                         ++ [Log "TRADE"
                               (MsgExit reason (p_symbol p') exitPrice)] |}).
  assert (Hlook1 : activePositions (bot w1) !! idx = Some p').
  { cbn. apply list_lookup_insert_eq. eapply lookup_lt_Some. exact Hlook. }
  assert (Hnd1 : NoDup (map id (activePositions (bot w1)))).
  { cbn [w1 bot activePositions set_activePositions].
    change (map id (<[idx:=p']> (activePositions (bot w))))
      with (id <$> <[idx:=p']> (activePositions (bot w))).
    rewrite list_fmap_insert, Hid.
    rewrite list_insert_id; [exact Hnd|].
    rewrite list_lookup_fmap, Hlook. reflexivity. }
  pose proof (findIndex_id _ idx p' Hnd1 Hlook1) as Hfind.
  destruct (closePosition_found now p' exitPrice w1 idx p' Hfind Hlook1)
    as (evs & Hrun).
  rewrite Hrun. cbn [snd bot w1]. apply settle_insert.
Qed.

Lemma checkPosition_closedAt now idx w p cp p' reason exitPrice :
  NoDup (map id (activePositions (bot w))) ->
  activePositions (bot w) !! idx = Some p ->
  priceCache (bot w) !! p_symbol p = Some cp ->
  ~ (cp == 0) ->
  monitor (settings (bot w)) p cp = (p', Some (reason, exitPrice)) ->
  closedAt now w (exec (checkPosition now idx) w) idx p exitPrice.
Proof.
  intros Hnd Hlook Hprice Hnz Hmon.
  pose proof (checkPosition_exit now idx w p cp p' reason exitPrice
                Hnd Hlook Hprice Hnz Hmon) as Hbot.
  pose proof (monitor_frame (settings (bot w)) p cp) as Hfr.
  rewrite Hmon in Hfr. cbn [fst] in Hfr.
  destruct Hfr as (Hid & Hsym & Hentry & Hqty & _).
  set (t := closedTrade p' exitPrice now) in *.
  destruct (settle_fields (bot w) idx t now)
    as (Ha & Hh & _ & _ & _ & _ & Hlost).
  assert (Hpnl : pnl t = (exitPrice - entry_price p) * quantity p).
  { subst t. unfold closedTrade. cbn [pnl set_closed].
    rewrite Hentry, Hqty. reflexivity. }
  assert (Htsym : p_symbol t = p_symbol p) by exact Hsym.
  exists t. rewrite Hbot.
  split; [exact Hh|]. split; [exact Ha|]. split; [exact Hid|].
  split; [exact Htsym|]. split; [reflexivity|]. split; [reflexivity|].
  split; [exact Hpnl|].
  intros Hneg until.
  assert (Hl : recentlyLostSymbols (settle (bot w) idx t now) !! p_symbol p
               = Some until).
  { rewrite Hlost. apply ltb_lt in Hneg. rewrite Hneg, Htsym.
    apply lookup_insert_eq. }
  split; [exact Hl|].
  intros now' pr Hpr Hbefore. apply evaluateSignal_rejects.
  right. right. exists until. rewrite Hbot, Hpr. split; assumption.
Qed.

(** One check of an open position that is not an Ignition one: a price
    at or below [stop_loss] closes it at the stop price, and otherwise a
    price at or above [take_profit] closes it at the target price, never
    at the cached price; and when the resulting [pnl] is negative
    [recentlyLostSymbols] maps the symbol to
    [now + LOSS_COOLDOWN_HOURS * 60 * 60 * 1000], before which
    [evaluateSignal] rejects the symbol.  The cached price is other than
    zero and the ids of the open positions are pairwise distinct. *)
Lemma checkPosition_fixed_exit now idx w p cp :
  NoDup (map id (activePositions (bot w))) ->
  activePositions (bot w) !! idx = Some p ->
  p_strategy_type p <> "IGNITION" ->
  priceCache (bot w) !! p_symbol p = Some cp ->
  ~ (cp == 0) ->
  let w' := exec (checkPosition now idx) w in
  (cp <= stop_loss p -> closedAt now w w' idx p (stop_loss p))
  /\ (stop_loss p < cp -> take_profit p <= cp ->
      closedAt now w w' idx p (take_profit p)).
Proof.
  intros Hnd Hlook Hstrat Hprice Hnz w'.
  assert (Hfixed : String.eqb (p_strategy_type p) "IGNITION"
                   && USE_IGNITION_TRAILING_STOP (settings (bot w)) = false).
  { apply String.eqb_neq in Hstrat. rewrite Hstrat. reflexivity. }
  pose proof (monitor_fixed (settings (bot w)) p cp Hfixed) as Hmon.
  cbv zeta in Hmon.
  split.
  - intros Hstop. apply leb_le in Hstop. rewrite Hstop in Hmon.
    eapply checkPosition_closedAt; eassumption.
  - intros Habove Htarget.
    apply leb_gt in Habove. apply leb_le in Htarget.
    rewrite Habove, Htarget in Hmon.
    eapply checkPosition_closedAt; eassumption.
Qed.

Lemma monitor_stop_mono st p cp :
  stop_loss p <= stop_loss (fst (monitor st p cp)).
Proof.
  unfold monitor.
  cbn [p_strategy_type set_highest stop_loss highest_price_since_entry
       take_profit].
  destruct (_ && _).
  - destruct (ltb (stop_loss p) _) eqn:E.
    + apply ltb_lt in E.
      destruct (leb _ _); cbn; apply Qlt_le_weak; exact E.
    + destruct (leb _ _); cbn; apply Qle_refl.
  - destruct (leb cp _); [cbn; apply Qle_refl|].
    destruct (leb _ cp); cbn; apply Qle_refl.
Qed.

Lemma track_stop_mono p ticks : stop_loss p <= stop_loss (track p ticks).
Proof.
  unfold track. revert p.
  induction ticks as [|[st cp] ticks IH]; intros p; cbn [fold_left].
  - apply Qle_refl.
  - eapply Qle_trans; [apply (monitor_stop_mono st p cp)|apply IH].
Qed.

(** One check of an open Ignition position while the trailing stop is
    enabled sets [stop_loss] to the larger of its old value and
    [highest_price_since_entry * (1 - IGNITION_TRAILING_STOP_PCT / 100)],
    the highest price counting the cached one; the position stays open,
    whatever its [take_profit], as long as the price is above that stop,
    and is closed at the stop as soon as the price is at or below it.
    Over any run of checks, under any settings, [stop_loss] never
    decreases. *)
Lemma checkPosition_trailing now idx w p cp :
  NoDup (map id (activePositions (bot w))) ->
  activePositions (bot w) !! idx = Some p ->
  p_strategy_type p = "IGNITION" ->
  USE_IGNITION_TRAILING_STOP (settings (bot w)) = true ->
  priceCache (bot w) !! p_symbol p = Some cp ->
  ~ (cp == 0) ->
  let w' := exec (checkPosition now idx) w in
  let h := Qmax (highest_price_since_entry p) cp in
  let s := Qmax (stop_loss p)
             (h * (1 - IGNITION_TRAILING_STOP_PCT (settings (bot w)) / 100)) in
  stop_loss (fst (monitor (settings (bot w)) p cp)) = s
  /\ stop_loss p <= s
  /\ (s < cp ->
      activePositions (bot w')
      = <[idx := set_stop_loss (set_highest p h) s]>
          (activePositions (bot w))
      /\ tradeHistory (bot w') = tradeHistory (bot w)
      /\ trace w' = trace w)
  /\ (cp <= s -> closedAt now w w' idx p s)
  /\ (forall ticks1 ticks2,
        stop_loss (track p ticks1)
        <= stop_loss (track p (ticks1 ++ ticks2))).
Proof.
  intros Hnd Hlook Hstrat Hflag Hprice Hnz w' h s.
  pose proof (monitor_trailing (settings (bot w)) p cp Hstrat Hflag)
    as Hmon.
  cbv zeta in Hmon. fold h in Hmon. fold s in Hmon.
  split; [|split; [|split; [|split]]].
  - rewrite Hmon. destruct (leb cp s); reflexivity.
  - apply Q.le_max_l.
  - intros Habove. apply leb_gt in Habove. rewrite Habove in Hmon.
    subst w'. unfold exec.
    rewrite (checkPosition_hold now idx w p cp _ Hlook Hprice Hnz Hmon).
    cbn. repeat split.
  - intros Hbelow. apply leb_le in Hbelow. rewrite Hbelow in Hmon.
    eapply checkPosition_closedAt; eassumption.
  - intros ticks1 ticks2. unfold track. rewrite fold_left_app.
    apply track_stop_mono.
Qed.

(** **** The confirmation gate *)

(** Whatever the outcome of the order, [openPosition] leaves the state
    either with the counter moved alone or with a position opened. *)
Lemma openPosition_cases now pr qty stopLoss takeProfit w :
  let b' := bot (exec (openPosition now pr qty stopLoss takeProfit) w) in
  b' = set_tradeIdCounter (bot w) (tradeIdCounter (bot w) + 1)%Z
  \/ exists t, id t = tradeIdCounter (bot w) /\ b' = opened (bot w) t.
Proof.
  intros b'. subst b'.
  destruct (String.eqb (tradingMode (bot w)) "REAL_LIVE") eqn:Hmode.
  2:{ right. eexists. unfold exec.
      rewrite openPosition_paper by (left; exact Hmode).
      split; [|reflexivity]. reflexivity. }
  destruct apiClient as [api|] eqn:Hapi.
  2:{ right. eexists. unfold exec.
      rewrite openPosition_paper by (right; exact Hapi).
      split; [|reflexivity]. reflexivity. }
  apply String.eqb_eq in Hmode.
  destruct (api (buyOrder pr qty)) as [r|message] eqn:Hreply.
  - destruct (fills r) as [|fill0 rest] eqn:Hfills.
    + left.
      assert (Hfail : orderFails api (buyOrder pr qty)).
      { unfold orderFails. rewrite Hreply. exact Hfills. }
      destruct (openPosition_failure api now pr qty stopLoss takeProfit w
                  Hapi Hmode Hfail) as (evs & Hrun & _).
      unfold exec. rewrite Hrun. reflexivity.
    + right. eexists. split; [|
        apply (openPosition_live api now pr qty stopLoss takeProfit w r
                 fill0 rest Hapi Hmode Hreply Hfills)].
      reflexivity.
  - left.
    assert (Hfail : orderFails api (buyOrder pr qty)).
    { unfold orderFails. rewrite Hreply. exact I. }
    destruct (openPosition_failure api now pr qty stopLoss takeProfit w
                Hapi Hmode Hfail) as (evs & Hrun & _).
    unfold exec. rewrite Hrun. reflexivity.
Qed.

Lemma openPosition_pending now pr qty stopLoss takeProfit w :
  pendingConfirmation
    (bot (exec (openPosition now pr qty stopLoss takeProfit) w))
  = pendingConfirmation (bot w).
Proof.
  destruct (openPosition_cases now pr qty stopLoss takeProfit w)
    as [-> | (t & _ & ->)]; reflexivity.
Qed.

(** The ids [openPosition] hands out are fresh, and closing keeps them
    so: in every state the engine reaches from an empty book the ids of
    the open positions are pairwise distinct. *)
Lemma openPosition_idsFresh now pr qty stopLoss takeProfit w :
  idsFresh (bot w) ->
  idsFresh (bot (exec (openPosition now pr qty stopLoss takeProfit) w)).
Proof.
  intros [Hnd Hlt].
  destruct (openPosition_cases now pr qty stopLoss takeProfit w)
    as [-> | (t & Hid & ->)]; unfold idsFresh, opened;
    cbn [activePositions tradeIdCounter set_tradeIdCounter set_balance
         set_activePositions].
  - split; [exact Hnd|].
    eapply Forall_impl; [exact Hlt|]. cbn. intros p Hp. lia.
  - split.
    + rewrite map_app. cbn [map]. apply NoDup_app.
      split; [exact Hnd|]. split; [|apply NoDup_singleton].
      intros x Hx Hx'. apply list_elem_of_singleton in Hx'. subst x.
      apply list_elem_of_fmap in Hx as (p & Hp & Hin).
      rewrite Forall_forall in Hlt. specialize (Hlt p Hin). cbn in Hlt.
      lia.
    + apply Forall_app. split.
      * eapply Forall_impl; [exact Hlt|]. cbn. intros p Hp. lia.
      * constructor; [lia|constructor].
Qed.

Lemma settle_idsFresh b i t now : idsFresh b -> idsFresh (settle b i t now).
Proof.
  intros [Hnd Hlt].
  destruct (settle_fields b i t now) as (Ha & _ & _ & _ & Hc & _).
  unfold idsFresh. rewrite Ha, Hc. unfold splice1.
  rewrite <- delete_take_drop. split.
  - eapply sublist_NoDup; [exact Hnd|].
    apply (fmap_sublist id). apply sublist_delete.
  - rewrite delete_take_drop. apply Forall_app.
    split; [apply Forall_take|apply Forall_drop]; exact Hlt.
Qed.

(** [evaluateSignal] never touches [pendingConfirmation]. *)
Lemma evaluateSignal_pending now pr w :
  pendingConfirmation (bot (exec (evaluateSignal now pr) w))
  = pendingConfirmation (bot w).
Proof.
  unfold exec, evaluateSignal. run_M.
  destruct (negb (actionable (score pr))); [reflexivity|].
  destruct (_ <=? _)%Z; [reflexivity|].
  destruct (existsb _ _); [reflexivity|].
  destruct (match recentlyLostSymbols (bot w) !! symbol pr with
            | Some expiry => ltb now expiry
            | None => false
            end); [reflexivity|].
  destruct (leb _ 0); [reflexivity|].
  match goal with
  | |- context [openPosition ?n ?p ?q ?sl ?tp ?w0] =>
      exact (openPosition_pending n p q sl tp w0)
  end.
Qed.

(** C7. Closing a 5-minute candle of a symbol that is not pending
    changes nothing at all.  For a pending symbol the entry is deleted
    first; then a close strictly above the open hands the stored pair,
    with the score [STRONG BUY], to [evaluateSignal], and any other candle
    only logs the rejection.  In every case the symbol is not pending
    afterwards. *)
Theorem checkConfirmationsOn5mClose_resolves now sym kline5m w :
  let w' := exec (checkConfirmationsOn5mClose now sym kline5m) w in
  (pendingConfirmation (bot w) !! sym = None ->
     checkConfirmationsOn5mClose now sym kline5m w = (tt, w))
  /\ (forall entry,
        pendingConfirmation (bot w) !! sym = Some entry ->
        let cleared :=
          set_pendingConfirmation (bot w)
            (delete sym (pendingConfirmation (bot w))) in
        let promoted := with_score (pair entry) "STRONG BUY" in
        actionable (score promoted) = true
        /\ (k_o kline5m < k_c kline5m ->
            w' = exec (evaluateSignal now promoted)
                   {| bot := cleared;
                      trace := trace w ++ [Log "TRADE" (MsgConfirmed5m sym)] |})
        /\ (k_c kline5m <= k_o kline5m ->
            w' = {| bot := cleared;
                    trace := trace w ++ [Log "TRADE" (MsgRejected5m sym)] |}))
  /\ pendingConfirmation (bot w') !! sym = None.
Proof.
  intros w'. subst w'. unfold exec, checkConfirmationsOn5mClose. run_M.
  destruct (pendingConfirmation (bot w) !! sym) as [entry|] eqn:Hp.
  - split; [discriminate|]. split.
    + intros entry' Heq. injection Heq as <-. split; [reflexivity|].
      split.
      * intros Hbull. apply ltb_lt in Hbull. rewrite Hbull. reflexivity.
      * intros Hbear. apply ltb_ge in Hbear. rewrite Hbear. reflexivity.
    + destruct (ltb (k_o kline5m) (k_c kline5m)).
      * match goal with
        | |- context [evaluateSignal ?n ?p ?w0] =>
            pose proof (evaluateSignal_pending n p w0) as Hfr
        end.
        unfold exec in Hfr. rewrite Hfr. cbn. apply lookup_delete_eq.
      * cbn. apply lookup_delete_eq.
  - split; [reflexivity|]. split; [discriminate|]. exact Hp.
Qed.

(** **** Every call is a run of steps *)

Lemma exec_bind {A B} (m : M A) (f : A -> M B) (w : World) :
  exec (m ≫= f) w = exec (f (fst (m w))) (exec m w).
Proof.
  unfold exec. cbv [mbind M_bind]. destruct (m w). reflexivity.
Qed.

Lemma In_symbol_existsb (sym : string) (l : list Position) :
  In sym (map p_symbol l) ->
  existsb (fun p => String.eqb (p_symbol p) sym) l = true.
Proof.
  intros H. apply in_map_iff in H as (p & Hp & Hin).
  apply existsb_exists. exists p. split; [exact Hin|].
  apply String.eqb_eq. exact Hp.
Qed.

(** The two outcomes of [openPosition], with the trade it records. *)
Lemma openPosition_outcome now pr qty stopLoss takeProfit w :
  let b' := bot (exec (openPosition now pr qty stopLoss takeProfit) w) in
  b' = set_tradeIdCounter (bot w) (tradeIdCounter (bot w) + 1)%Z
  \/ exists t,
       id t = tradeIdCounter (bot w) /\ p_symbol t = symbol pr
       /\ status t = "FILLED"
       /\ stop_loss t = stopLoss /\ take_profit t = takeProfit
       /\ average_entry_price t = price pr
       /\ b' = opened (bot w) t.
Proof.
  intros b'. subst b'.
  destruct (String.eqb (tradingMode (bot w)) "REAL_LIVE") eqn:Hmode.
  2:{ right.
      exists (newTrade (tradeIdCounter (bot w)) (tradingMode (bot w)) now
                pr qty stopLoss takeProfit).
      unfold exec. rewrite openPosition_paper by (left; exact Hmode).
      repeat split. }
  destruct apiClient as [api|] eqn:Hapi.
  2:{ right.
      exists (newTrade (tradeIdCounter (bot w)) (tradingMode (bot w)) now
                pr qty stopLoss takeProfit).
      unfold exec. rewrite openPosition_paper by (right; exact Hapi).
      repeat split. }
  apply String.eqb_eq in Hmode.
  destruct (api (buyOrder pr qty)) as [r|message] eqn:Hreply.
  - destruct (fills r) as [|fill0 rest] eqn:Hfills.
    + left.
      assert (Hfail : orderFails api (buyOrder pr qty)).
      { unfold orderFails. rewrite Hreply. exact Hfills. }
      destruct (openPosition_failure api now pr qty stopLoss takeProfit w
                  Hapi Hmode Hfail) as (evs & Hrun & _).
      unfold exec. rewrite Hrun. reflexivity.
    + right.
      exists (set_fill (newTrade (tradeIdCounter (bot w)) "REAL_LIVE" now
                          pr qty stopLoss takeProfit)
                fill0 (executedQty r)).
      rewrite (openPosition_live api now pr qty stopLoss takeProfit w r
                 fill0 rest Hapi Hmode Hreply Hfills).
      repeat split.
  - left.
    assert (Hfail : orderFails api (buyOrder pr qty)).
    { unfold orderFails. rewrite Hreply. exact I. }
    destruct (openPosition_failure api now pr qty stopLoss takeProfit w
                Hapi Hmode Hfail) as (evs & Hrun & _).
    unfold exec. rewrite Hrun. reflexivity.
Qed.

Lemma evaluateSignal_steps now pr w :
  rtc Step (bot w) (bot (exec (evaluateSignal now pr) w)).
Proof.
  unfold exec, evaluateSignal. run_M.
  destruct (negb (actionable (score pr))); [apply rtc_refl|].
  destruct (Z.leb_spec (MAX_OPEN_POSITIONS (settings (bot w)))
              (len (activePositions (bot w)))) as [|Hroom];
    [apply rtc_refl|].
  destruct (existsb _ (activePositions (bot w))) eqn:Hdup;
    [apply rtc_refl|].
  destruct (match recentlyLostSymbols (bot w) !! symbol pr with
            | Some expiry => ltb now expiry
            | None => false
            end); [apply rtc_refl|].
  destruct (leb _ 0); [apply rtc_refl|].
  match goal with
  | |- context [openPosition ?n ?p ?q ?sl ?tp ?w0] =>
      destruct (openPosition_outcome n p q sl tp w0)
        as [Hb | (t & Hid & Hsym & Hst & _ & _ & _ & Hb)];
      unfold exec in Hb; rewrite Hb; cbn [bot]
  end.
  - apply rtc_once. apply step_bump.
  - apply rtc_once. apply step_open; try assumption.
    intros Hin. rewrite Hsym in Hin.
    apply In_symbol_existsb in Hin. congruence.
Qed.

(** The two outcomes of [closePosition]. *)
Lemma closePosition_outcome now position exitPrice w :
  let w' := exec (closePosition now position exitPrice) w in
  (findIndex (fun q => (id q =? id position)%Z) (activePositions (bot w))
   = None /\ w' = w)
  \/ exists i p,
       findIndex (fun q => (id q =? id position)%Z)
         (activePositions (bot w)) = Some i
       /\ activePositions (bot w) !! i = Some p
       /\ id p = id position
       /\ bot w' = settle (bot w) i (closedTrade p exitPrice now) now.
Proof.
  intros w'. subst w'.
  destruct (findIndex (fun q => (id q =? id position)%Z)
              (activePositions (bot w))) as [i|] eqn:Hfind.
  - right. destruct (findIndex_Some _ _ _ Hfind) as (p & Hlook & Hid).
    exists i, p. split; [reflexivity|]. split; [exact Hlook|].
    split; [apply Z.eqb_eq; exact Hid|].
    destruct (closePosition_found now position exitPrice w i p Hfind Hlook)
      as (evs & Hrun).
    unfold exec. rewrite Hrun. reflexivity.
  - left. split; [reflexivity|].
    unfold exec, closePosition. run_M. rewrite Hfind. reflexivity.
Qed.

Lemma closePosition_steps now position exitPrice w :
  rtc Step (bot w) (bot (exec (closePosition now position exitPrice) w)).
Proof.
  destruct (closePosition_outcome now position exitPrice w)
    as [[_ ->] | (i & p & _ & Hlook & _ & ->)].
  - apply rtc_refl.
  - apply rtc_once. apply step_settle. exact Hlook.
Qed.

Lemma checkPosition_steps now idx w :
  rtc Step (bot w) (bot (exec (checkPosition now idx) w)).
Proof.
  unfold exec, checkPosition. run_M.
  destruct (activePositions (bot w) !! idx) as [p|] eqn:Hlook;
    [|apply rtc_refl].
  destruct (priceCache (bot w) !! p_symbol p) as [cp|]; [|apply rtc_refl].
  destruct (negb (truthy cp)); [apply rtc_refl|].
  pose proof (step_slot (bot w) idx p (settings (bot w)) cp Hlook) as Hslot.
  destruct (monitor (settings (bot w)) p cp) as [p' [[reason ex]|]];
    cbn [fst] in Hslot.
  - eapply rtc_l; [exact Hslot|].
    match goal with
    | |- context [closePosition ?n ?q ?e ?w0] =>
        exact (closePosition_steps n q e w0)
    end.
  - apply rtc_once. exact Hslot.
Qed.

Lemma forEach_from_steps now remaining k w :
  rtc Step (bot w) (bot (exec (forEach_from now k remaining) w)).
Proof.
  revert k w. induction remaining as [|remaining IH]; intros k w.
  - apply rtc_refl.
  - cbn [forEach_from]. rewrite exec_bind.
    eapply rtc_trans; [apply checkPosition_steps|apply IH].
Qed.

Lemma checkAllPositions_steps now w :
  rtc Step (bot w) (bot (exec (checkAllPositions now) w)).
Proof.
  unfold exec, checkAllPositions. run_M.
  destruct (negb (isRunning (bot w))); [apply rtc_refl|].
  apply forEach_from_steps.
Qed.

Lemma call_steps now c w : rtc Step (bot w) (bot (exec (call now c) w)).
Proof.
  destruct c as [pr|pr|sym kline5m|sym last_price| |tradeId currentPrice];
    cbn [call].
  - unfold exec, processAnalyzedPair. run_M.
    destruct (negb (isRunning (bot w))); [apply rtc_refl|].
    destruct (_ || _); [apply evaluateSignal_steps|].
    destruct (String.eqb (score pr) "PENDING_CONFIRMATION");
      [|apply rtc_refl].
    destruct (USE_MTF_VALIDATION (settings (bot w)));
      [|apply evaluateSignal_steps].
    apply rtc_once. apply step_pending.
  - apply evaluateSignal_steps.
  - unfold exec, checkConfirmationsOn5mClose. run_M.
    destruct (pendingConfirmation (bot w) !! sym); [|apply rtc_refl].
    eapply rtc_l; [apply (step_pending (bot w))|].
    destruct (ltb _ _); [|apply rtc_refl].
    match goal with
    | |- context [evaluateSignal ?n ?p ?w0] =>
        exact (evaluateSignal_steps n p w0)
    end.
  - unfold onTicker. rewrite !exec_bind.
    eapply rtc_l; [apply (step_price (bot w))|].
    match goal with
    | |- context [exec (checkAllPositions ?n) ?w0] =>
        exact (checkAllPositions_steps n w0)
    end.
  - apply checkAllPositions_steps.
  - unfold exec, manualClose. run_M.
    destruct (List.find _ _) as [position|]; [|apply rtc_refl].
    match goal with
    | |- context [closePosition ?n ?q ?e ?w0] =>
        pose proof (closePosition_steps n q e w0) as H;
        unfold exec in H; destruct (closePosition n q e w0)
    end.
    exact H.
Qed.

(** Whatever the calls and the replies of the exchange, a session moves
    the bot state by steps only. *)
Lemma session_steps calls w :
  rtc Step (bot w) (bot (exec (session calls) w)).
Proof.
  revert w. induction calls as [|[now c] calls IH]; intros w.
  - apply rtc_refl.
  - cbn [session]. rewrite exec_bind.
    eapply rtc_trans; [apply call_steps|apply IH].
Qed.

(** **** What a step keeps *)

Lemma settle_frame b i t now :
  isRunning (settle b i t now) = isRunning b
  /\ tradingMode (settle b i t now) = tradingMode b
  /\ priceCache (settle b i t now) = priceCache b.
Proof. unfold settle. destruct (ltb (pnl t) 0); cbn; repeat split. Qed.

Lemma monitor_status st p cp :
  status (fst (monitor st p cp)) = status p
  /\ average_entry_price (fst (monitor st p cp)) = average_entry_price p
  /\ total_cost_usd (fst (monitor st p cp)) = total_cost_usd p
  /\ exit_price (fst (monitor st p cp)) = exit_price p.
Proof.
  unfold monitor.
  cbn [p_strategy_type set_highest stop_loss highest_price_since_entry
       take_profit].
  destruct (_ && _).
  - destruct (ltb _ _); destruct (leb _ _); cbn; repeat split.
  - destruct (leb cp _); [cbn; repeat split|].
    destruct (leb _ cp); cbn; repeat split.
Qed.

Lemma Step_frame b b' :
  Step b b' ->
  settings b' = settings b /\ isRunning b' = isRunning b
  /\ tradingMode b' = tradingMode b.
Proof.
  intros H. destruct H; try (cbn; repeat split; fail).
  destruct (settle_fields b i (closedTrade p exitPrice now) now)
    as (_ & _ & _ & _ & _ & Hs & _).
  destruct (settle_frame b i (closedTrade p exitPrice now) now)
    as (Hr & Hm & _).
  repeat split; assumption.
Qed.

Lemma Step_ledger b b' :
  Step b b' ->
  (exists more, tradeHistory b' = tradeHistory b ++ more)
  /\ (tradeIdCounter b <= tradeIdCounter b')%Z.
Proof.
  intros H. destruct H;
    try (split; [exists []; rewrite app_nil_r; reflexivity|cbn; lia]).
  destruct (settle_fields b i (closedTrade p exitPrice now) now)
    as (_ & Hh & _ & _ & Hc & _).
  split; [eexists; exact Hh|]. rewrite Hc. lia.
Qed.

Lemma slot_map_same {B} (f : Position -> B) (l : list Position) i p p' :
  l !! i = Some p -> f p' = f p -> map f (<[i := p']> l) = map f l.
Proof.
  intros Hlook Hf.
  change (f <$> <[i:=p']> l = f <$> l).
  rewrite list_fmap_insert, Hf. apply list_insert_id.
  rewrite list_lookup_fmap, Hlook. reflexivity.
Qed.

Lemma Step_onePerSymbol b b' : Step b b' -> onePerSymbol b -> onePerSymbol b'.
Proof.
  unfold onePerSymbol. intros H Hnd. destruct H; try exact Hnd.
  - cbn. rewrite map_app. cbn [map]. apply NoDup_app.
    split; [exact Hnd|]. split; [|apply NoDup_singleton].
    intros x Hx Hx'. apply list_elem_of_singleton in Hx'. subst x.
    apply list_elem_of_In in Hx. contradiction.
  - cbn [activePositions set_activePositions].
    rewrite (slot_map_same p_symbol _ i p); [exact Hnd|assumption|].
    apply (monitor_frame st p cp).
  - destruct (settle_fields b i (closedTrade p exitPrice now) now)
      as (Ha & _).
    rewrite Ha. unfold splice1. rewrite <- delete_take_drop.
    eapply sublist_NoDup; [exact Hnd|].
    apply (fmap_sublist p_symbol). apply sublist_delete.
Qed.

Lemma Step_idsFresh b b' : Step b b' -> idsFresh b -> idsFresh b'.
Proof.
  intros H [Hnd Hlt]. destruct H; try (split; assumption).
  - split; [exact Hnd|].
    eapply Forall_impl; [exact Hlt|]. cbn. intros q Hq. lia.
  - unfold idsFresh, opened.
    cbn [activePositions tradeIdCounter set_tradeIdCounter set_balance
         set_activePositions].
    split.
    + rewrite map_app. cbn [map]. apply NoDup_app.
      split; [exact Hnd|]. split; [|apply NoDup_singleton].
      intros x Hx Hx'. apply list_elem_of_singleton in Hx'. subst x.
      apply list_elem_of_fmap in Hx as (q & Hq & Hin).
      rewrite Forall_forall in Hlt. specialize (Hlt q Hin). cbn in Hlt.
      lia.
    + apply Forall_app. split.
      * eapply Forall_impl; [exact Hlt|]. cbn. intros q Hq. lia.
      * constructor; [lia|constructor].
  - unfold idsFresh. cbn [activePositions set_activePositions tradeIdCounter].
    assert (Hid : id (fst (monitor st p cp)) = id p)
      by apply (monitor_frame st p cp).
    split.
    + rewrite (slot_map_same id _ i p); assumption.
    + apply Forall_insert; [exact Hlt|]. rewrite Hid.
      rewrite Forall_forall in Hlt. apply Hlt.
      apply list_elem_of_lookup. exists i. assumption.
  - apply settle_idsFresh. split; assumption.
Qed.

Lemma Step_statusesSound b b' :
  Step b b' -> statusesSound b -> statusesSound b'.
Proof.
  intros H [Ha Hh]. destruct H; try (split; assumption).
  - split; [|exact Hh]. cbn. apply Forall_app. split; [exact Ha|].
    constructor; [assumption|constructor].
  - split; [|exact Hh]. cbn [activePositions set_activePositions].
    apply Forall_insert; [exact Ha|].
    destruct (monitor_status st p cp) as (-> & _).
    rewrite Forall_forall in Ha. apply Ha.
    apply list_elem_of_lookup. exists i. assumption.
  - destruct (settle_fields b i (closedTrade p exitPrice now) now)
      as (Hact & Hhist & _).
    unfold statusesSound. rewrite Hact, Hhist. split.
    + unfold splice1. apply Forall_app.
      split; [apply Forall_take|apply Forall_drop]; exact Ha.
    + apply Forall_app. split; [exact Hh|].
      constructor; [|constructor]. split; [reflexivity|].
      eexists. reflexivity.
Qed.

Lemma rtc_Step_keeps (P : BotState -> Prop) :
  (forall b b', Step b b' -> P b -> P b') ->
  forall b b', rtc Step b b' -> P b -> P b'.
Proof.
  intros Hstep b b' H. induction H as [|b b1 b2 H1 _ IH]; [tauto|].
  intros Hb. apply IH. eapply Hstep; eassumption.
Qed.

(** **** Invariants of a session *)

(** X1. When orders are not sent to the exchange (the mode is not
    [REAL_LIVE], or no client is set), every run of calls into the service
    from a state with at most one open position per symbol ends in such a
    state: [evaluateSignal] is the only place that opens, it turns away a
    symbol that is already open, and nothing is awaited between its test
    and the push of the position.  (With a live client the push comes
    after the [await] of the order, and calls that overlap there are not
    covered.) *)
Theorem session_onePerSymbol calls w :
  String.eqb (tradingMode (bot w)) "REAL_LIVE" = false
  \/ apiClient = None ->
  onePerSymbol (bot w) -> onePerSymbol (bot (exec (session calls) w)).
Proof.
  intros _.
  apply (rtc_Step_keeps onePerSymbol Step_onePerSymbol).
  apply session_steps.
Qed.

(** X2. From a state whose open positions carry pairwise distinct ids
    below [tradeIdCounter], every run of calls ends in such a state. *)
Theorem session_idsFresh calls w :
  idsFresh (bot w) -> idsFresh (bot (exec (session calls) w)).
Proof.
  apply (rtc_Step_keeps idsFresh Step_idsFresh).
  apply session_steps.
Qed.

(** X3. When orders are not sent to the exchange, no call into the
    service takes the number of open positions above the larger of what
    it was and the [MAX_OPEN_POSITIONS] in force at the call, whatever the
    state the call finds: below the cap a call opens at most up to it, and
    at or above it (the cap may have been lowered since) nothing is
    opened. *)
Theorem call_capacity now c w :
  String.eqb (tradingMode (bot w)) "REAL_LIVE" = false
  \/ apiClient = None ->
  (len (activePositions (bot (exec (call now c) w)))
   <= Z.max (len (activePositions (bot w)))
        (MAX_OPEN_POSITIONS (settings (bot w))))%Z.
Proof.
  intros _.
  set (n0 := len (activePositions (bot w))).
  set (st0 := settings (bot w)).
  assert (Hkeep : forall b b',
            Step b b' ->
            settings b = st0
            /\ (len (activePositions b)
                <= Z.max n0 (MAX_OPEN_POSITIONS st0))%Z ->
            settings b' = st0
            /\ (len (activePositions b')
                <= Z.max n0 (MAX_OPEN_POSITIONS st0))%Z).
  { intros b b' Hstep [Hst Hlen].
    destruct (Step_frame _ _ Hstep) as (Hst' & _).
    split; [congruence|].
    unfold len in *. destruct Hstep; try exact Hlen.
    - cbn [opened activePositions set_activePositions]. rewrite length_app.
      cbn [length]. unfold len in *. rewrite Hst in *. lia.
    - cbn [activePositions set_activePositions].
      rewrite length_insert. exact Hlen.
    - destruct (settle_fields b i (closedTrade p exitPrice now0) now0)
        as (Ha & _).
      rewrite Ha. unfold splice1.
      rewrite length_app, length_take, length_drop. lia. }
  apply (rtc_Step_keeps _ Hkeep _ _ (call_steps now c w)).
  split; [reflexivity|]. subst n0. lia.
Qed.

(** X4. Every run of calls keeps the open positions [FILLED] and the
    ledger made of [CLOSED] trades that carry an exit price: a trade
    changes status once, when it moves to the ledger. *)
Theorem session_statusesSound calls w :
  statusesSound (bot w) -> statusesSound (bot (exec (session calls) w)).
Proof.
  apply (rtc_Step_keeps statusesSound Step_statusesSound).
  apply session_steps.
Qed.

(** X5. Over every run of calls [tradeHistory] only grows at its end,
    [tradeIdCounter] never decreases, and the service never writes the
    settings, the running flag or the trading mode. *)
Theorem session_ledger calls w :
  let b' := bot (exec (session calls) w) in
  (exists more, tradeHistory b' = tradeHistory (bot w) ++ more)
  /\ (tradeIdCounter (bot w) <= tradeIdCounter b')%Z
  /\ settings b' = settings (bot w)
  /\ isRunning b' = isRunning (bot w)
  /\ tradingMode b' = tradingMode (bot w).
Proof.
  intros b'. subst b'. pose proof (session_steps calls w) as H.
  induction H as [b|b b1 b2 H1 _ IH].
  - split; [exists []; rewrite app_nil_r; reflexivity|].
    split; [lia|]. repeat split.
  - destruct (Step_ledger _ _ H1) as ((m1 & Hh1) & Hc1).
    destruct (Step_frame _ _ H1) as (Hs1 & Hr1 & Hm1).
    destruct IH as ((m2 & Hh2) & Hc2 & Hs2 & Hr2 & Hm2).
    split; [exists (m1 ++ m2); rewrite Hh2, Hh1, app_assoc; reflexivity|].
    split; [lia|]. repeat split; congruence.
Qed.

(** **** Sizing and risk of an open *)

(** X6. Without a live client [evaluateSignal] either leaves the bot
    state alone or opens one position at the signal price; the position
    it opens has its stop strictly below the entry (a risk per unit of
    zero or less opens nothing), its target at the entry plus the risk
    times [RISK_REWARD_RATIO], a quantity of the configured percentage of
    the balance divided by the price, and a recorded cost of the price
    times that quantity, which is what the balance is debited by.  The
    figures are the expressions of the code, operation for operation. *)
Theorem evaluateSignal_paper_open now pr w :
  String.eqb (tradingMode (bot w)) "REAL_LIVE" = false
  \/ apiClient = None ->
  let st := settings (bot w) in
  let pct :=
    if USE_DYNAMIC_POSITION_SIZING st && String.eqb (score pr) "STRONG BUY"
    then STRONG_BUY_POSITION_SIZE_PCT st
    else POSITION_SIZE_PCT st in
  let b' := bot (exec (evaluateSignal now pr) w) in
  b' = bot w
  \/ exists t,
       b' = opened (bot w) t
       /\ p_symbol t = symbol pr
       /\ entry_price t = price pr
       /\ stop_loss t < entry_price t
       /\ take_profit t
          = entry_price t
            + (entry_price t - stop_loss t) * RISK_REWARD_RATIO st
       /\ (0 <= RISK_REWARD_RATIO st -> entry_price t <= take_profit t)
       /\ quantity t = balance (bot w) * (pct / 100) / price pr
       /\ total_cost_usd t = price pr * quantity t
       /\ balance b' = balance (bot w) - price pr * quantity t.
Proof.
  intros Hpaper st pct b'. subst b'.
  unfold exec, evaluateSignal. run_M.
  destruct (negb (actionable (score pr))); [left; reflexivity|].
  destruct (_ <=? _)%Z; [left; reflexivity|].
  destruct (existsb _ _); [left; reflexivity|].
  destruct (match recentlyLostSymbols (bot w) !! symbol pr with
            | Some expiry => ltb now expiry
            | None => false
            end); [left; reflexivity|].
  fold st. fold pct.
  set (stop := match atr_15m pr with
               | Some atr =>
                 if USE_ATR_STOP_LOSS st && truthy atr
                 then price pr - atr * ATR_MULTIPLIER st
                 else price pr * (1 - STOP_LOSS_PCT st / 100)
               | None => price pr * (1 - STOP_LOSS_PCT st / 100)
               end).
  destruct (leb (price pr - stop) 0) eqn:Hrisk; [left; reflexivity|].
  apply leb_gt in Hrisk.
  right.
  match goal with
  | |- context [openPosition ?n ?p ?q ?sl ?tp ?w0] =>
      rewrite (openPosition_paper n p q sl tp w0 Hpaper)
  end.
  cbn [snd bot tradeIdCounter tradingMode].
  eexists. split; [reflexivity|].
  cbn [newTrade p_symbol entry_price stop_loss take_profit quantity opened
       total_cost_usd balance set_activePositions set_balance
       set_tradeIdCounter].
  split; [reflexivity|]. split; [reflexivity|].
  split; [lra|]. split; [reflexivity|]. split.
  - intros Hrr.
    assert (0 <= (price pr - stop) * RISK_REWARD_RATIO st)
      by (apply Qmult_le_0_compat; [apply Qlt_le_weak|]; assumption).
    lra.
  - repeat split.
Qed.

Lemma find_findIndex {A} (pred : A -> bool) (l : list A) :
  match List.find pred l with
  | Some x => exists i, findIndex pred l = Some i /\ l !! i = Some x
  | None => findIndex pred l = None
  end.
Proof.
  induction l as [|y l IH]; cbn; [reflexivity|].
  destruct (pred y).
  - exists 0%nat. split; reflexivity.
  - destruct (List.find pred l) as [x|].
    + destruct IH as (i & Hi & Hx). exists (S i). rewrite Hi.
      split; [reflexivity|exact Hx].
    + rewrite IH. reflexivity.
Qed.

(** X8. [manualClose] on an id that no open position carries answers
    not-found and leaves the world as it was; on the id of an open
    position it closes that position at the given price, or at its
    [average_entry_price] when no price (or a price of zero) is given,
    and answers the closed trade. *)
Theorem manualClose_spec now tradeId currentPrice w :
  match List.find (fun p => (id p =? tradeId)%Z)
          (activePositions (bot w)) with
  | None => manualClose now tradeId currentPrice w = (None, w)
  | Some p =>
    let exitPrice :=
      match currentPrice with
      | Some c => if Qeq_bool c 0 then average_entry_price p else c
      | None => average_entry_price p
      end in
    exists i,
      activePositions (bot w) !! i = Some p
      /\ fst (manualClose now tradeId currentPrice w)
         = Some (closedTrade p exitPrice now)
      /\ bot (snd (manualClose now tradeId currentPrice w))
         = settle (bot w) i (closedTrade p exitPrice now) now
  end.
Proof.
  pose proof (find_findIndex (fun p => (id p =? tradeId)%Z)
                (activePositions (bot w))) as Hf.
  unfold manualClose. run_M.
  destruct (List.find _ _) as [p|] eqn:Hfind; [|reflexivity].
  destruct Hf as (i & Hi & Hlook).
  assert (Hidp : id p = tradeId).
  { apply find_some in Hfind as [_ H]. apply Z.eqb_eq. exact H. }
  cbv zeta. exists i. split; [exact Hlook|].
  set (exitPrice := match currentPrice with
                    | Some c => if Qeq_bool c 0 then average_entry_price p
                                else c
                    | None => average_entry_price p
                    end).
  assert (Hprice : (if truthy_opt currentPrice then default 0 currentPrice
                    else average_entry_price p) = exitPrice).
  { subst exitPrice. destruct currentPrice as [c|]; [|reflexivity].
    cbn. unfold truthy. destruct (Qeq_bool c 0); reflexivity. }
  rewrite Hprice.
  assert (Hfind' : findIndex (fun q => (id q =? id p)%Z)
                     (activePositions (bot w)) = Some i)
    by (rewrite Hidp; exact Hi).
  destruct (closePosition_found now p exitPrice w i p Hfind' Hlook)
    as (evs & Hrun).
  rewrite Hrun. cbn [fst snd bot].
  destruct (settle_fields (bot w) i (closedTrade p exitPrice now) now)
    as (_ & Hh & _).
  rewrite Hh, last_snoc. split; reflexivity.
Qed.

(** **** Closing twice *)

Lemma findIndex_splice1 (l : list Position) (i : nat) (p : Position) :
  NoDup (map id l) ->
  l !! i = Some p ->
  findIndex (fun q => (id q =? id p)%Z) (splice1 i l) = None.
Proof.
  intros Hnd Hlook.
  destruct (findIndex (fun q => (id q =? id p)%Z) (splice1 i l))
    as [j|] eqn:Hfind; [|reflexivity].
  exfalso. destruct (findIndex_Some _ _ _ Hfind) as (q & Hq & Hid).
  apply Z.eqb_eq in Hid.
  pose proof (take_drop_middle l i p Hlook) as Hsplit.
  rewrite <- Hsplit in Hnd. rewrite map_app in Hnd. cbn [map] in Hnd.
  apply NoDup_app in Hnd as (_ & Hdisj & Hnd2).
  apply NoDup_cons in Hnd2 as [Hnotin _].
  unfold splice1 in Hq.
  assert (Hin : q ∈ take i l ++ drop (S i) l)
    by (apply list_elem_of_lookup; exists j; exact Hq).
  apply elem_of_app in Hin as [Hin|Hin].
  - apply (Hdisj (id p)).
    + rewrite <- Hid. apply list_elem_of_fmap. exists q. split; [reflexivity|exact Hin].
    + apply list_elem_of_here.
  - apply Hnotin. rewrite <- Hid.
    apply list_elem_of_fmap. exists q. split; [reflexivity|exact Hin].
Qed.

(** X9. [closePosition] on a position that is not open changes nothing;
    so, with pairwise distinct ids, closing a position a second time (at
    any price, at any time) is ignored: one trade in the ledger, one
    credit. *)
Theorem closePosition_twice now now2 position exitPrice exitPrice2 w :
  NoDup (map id (activePositions (bot w))) ->
  let once := exec (closePosition now position exitPrice) w in
  (findIndex (fun q => (id q =? id position)%Z) (activePositions (bot w))
   = None -> once = w)
  /\ exec (closePosition now2 position exitPrice2) once = once.
Proof.
  intros Hnd once. subst once.
  destruct (closePosition_outcome now position exitPrice w)
    as [[Hnone Hsame] | (i & p & Hfind & Hlook & Hid & Hbot)].
  - split; [intros _; exact Hsame|]. rewrite Hsame.
    destruct (closePosition_outcome now2 position exitPrice2 w)
      as [[_ H] | (j & q & Hj & _)]; [exact H|congruence].
  - split; [intros Hn; congruence|].
    set (w1 := exec (closePosition now position exitPrice) w) in *.
    destruct (closePosition_outcome now2 position exitPrice2 w1)
      as [[_ H] | (j & q & Hj & _)]; [exact H|].
    exfalso. rewrite Hbot in Hj.
    destruct (settle_fields (bot w) i (closedTrade p exitPrice now) now)
      as (Ha & _).
    rewrite Ha, <- Hid in Hj.
    rewrite (findIndex_splice1 _ i p Hnd Hlook) in Hj. discriminate.
Qed.

(** **** The stop of a position under the fixed rule *)

(** X11. Over any run of ticks the stop and the target of a position
    that is not an Ignition one stay what they were at entry, while
    [highest_price_since_entry] ends at or above its old value and every
    price of the run. *)
Theorem track_fixed_stop (p : Position) (ticks : list (Settings * Q)) :
  p_strategy_type p <> "IGNITION" ->
  stop_loss (track p ticks) = stop_loss p
  /\ take_profit (track p ticks) = take_profit p
  /\ highest_price_since_entry p
     <= highest_price_since_entry (track p ticks)
  /\ Forall (fun tick =>
               snd tick <= highest_price_since_entry (track p ticks))
       ticks.
Proof.
  revert p. induction ticks as [|[st cp] ticks IH]; intros p Hstrat.
  - cbn. split; [reflexivity|]. split; [reflexivity|].
    split; [apply Qle_refl|constructor].
  - unfold track. cbn [fold_left fst snd]. fold (track (fst (monitor st p cp)) ticks).
    destruct (monitor_frame st p cp) as (_ & _ & _ & _ & Htp & Hs & Hh).
    assert (Hstrat' : p_strategy_type (fst (monitor st p cp)) <> "IGNITION")
      by (rewrite Hs; exact Hstrat).
    destruct (IH _ Hstrat') as (IHs & IHt & IHh & IHall).
    assert (Hfixed : String.eqb (p_strategy_type p) "IGNITION"
                     && USE_IGNITION_TRAILING_STOP st = false).
    { apply String.eqb_neq in Hstrat. rewrite Hstrat. reflexivity. }
    assert (Hstop : stop_loss (fst (monitor st p cp)) = stop_loss p).
    { rewrite (monitor_fixed st p cp Hfixed). cbv zeta.
      destruct (leb cp _); [reflexivity|].
      destruct (leb _ cp); reflexivity. }
    rewrite Hh in IHh.
    split; [congruence|]. split; [congruence|]. split.
    + eapply Qle_trans; [apply Q.le_max_l|exact IHh].
    + constructor; [|exact IHall]. cbn [snd].
      eapply Qle_trans; [apply Q.le_max_r|exact IHh].
Qed.

(** **** Ticks that change nothing *)

(** X12. While the bot is paused a ticker only writes the price cache:
    [checkAllPositions] returns at once, so no position is closed, not
    even at or below its stop.  And [checkPosition] leaves the world as
    it was, [highest_price_since_entry] included, when the slot is empty
    or the symbol has no cached price or a cached price of zero. *)
Theorem idle_ticks now w :
  (isRunning (bot w) = false ->
   checkAllPositions now w = (tt, w)
   /\ forall sym last_price,
        exec (onTicker now sym last_price) w
        = {| bot := set_priceCache (bot w)
                      (<[sym := last_price]> (priceCache (bot w)));
             trace := trace w ++ [Broadcast "PRICE_UPDATE"] |})
  /\ (forall idx,
        activePositions (bot w) !! idx = None
        \/ (exists p,
              activePositions (bot w) !! idx = Some p
              /\ (priceCache (bot w) !! p_symbol p = None
                  \/ exists c, priceCache (bot w) !! p_symbol p = Some c
                               /\ c == 0)) ->
        checkPosition now idx w = (tt, w)).
Proof.
  split.
  - intros Hpaused. split.
    + unfold checkAllPositions. run_M. rewrite Hpaused. reflexivity.
    + intros sym last_price. unfold exec, onTicker, checkAllPositions.
      run_M. cbn [isRunning set_priceCache]. rewrite Hpaused. reflexivity.
  - intros idx H. unfold checkPosition. run_M.
    destruct H as [-> | (p & -> & [-> | (c & -> & Hc)])]; try reflexivity.
    unfold truthy. apply Qeq_bool_iff in Hc. rewrite Hc. reflexivity.
Qed.

(** **** The dispatch of processAnalyzedPair *)

(** X13. A running bot ignores every score but [MOMENTUM_BUY],
    [IGNITION_DETECTED] and [PENDING_CONFIRMATION] (a pair already scored
    [STRONG BUY] included).  With multi-timeframe validation on, a
    [PENDING_CONFIRMATION] pair is only stored, under its symbol and with
    the time of the call, replacing what was stored, and nothing is
    opened; the next 5-minute close of the symbol then either hands that
    pair, scored [STRONG BUY], to [evaluateSignal] (close above open) or
    drops it, and in both cases the stored entry is gone. *)
Theorem processAnalyzedPair_dispatch now now2 pr kline5m w :
  isRunning (bot w) = true ->
  (score pr <> "MOMENTUM_BUY" -> score pr <> "IGNITION_DETECTED" ->
   score pr <> "PENDING_CONFIRMATION" ->
   processAnalyzedPair now pr w = (tt, w))
  /\ (score pr = "PENDING_CONFIRMATION" ->
      USE_MTF_VALIDATION (settings (bot w)) = true ->
      let w1 := exec (processAnalyzedPair now pr) w in
      let cleared :=
        set_pendingConfirmation (bot w)
          (delete (symbol pr) (pendingConfirmation (bot w))) in
      let logged := trace w ++ [Log "TRADE" (MsgPending (symbol pr))] in
      pendingConfirmation (bot w1) !! symbol pr
      = Some {| pair := pr; timestamp := now |}
      /\ activePositions (bot w1) = activePositions (bot w)
      /\ balance (bot w1) = balance (bot w)
      /\ (k_o kline5m < k_c kline5m ->
          exec (checkConfirmationsOn5mClose now2 (symbol pr) kline5m) w1
          = exec (evaluateSignal now2 (with_score pr "STRONG BUY"))
              {| bot := cleared;
                 trace := logged
                          ++ [Log "TRADE" (MsgConfirmed5m (symbol pr))] |})
      /\ (k_c kline5m <= k_o kline5m ->
          exec (checkConfirmationsOn5mClose now2 (symbol pr) kline5m) w1
          = {| bot := cleared;
               trace := logged
                        ++ [Log "TRADE" (MsgRejected5m (symbol pr))] |})).
Proof.
  intros Hrun. split.
  - intros H1 H2 H3. unfold processAnalyzedPair. run_M.
    rewrite Hrun. cbn [negb].
    apply String.eqb_neq in H1, H2, H3. rewrite H1, H2, H3. reflexivity.
  - intros Hscore Hmtf w1 cleared logged.
    assert (Hw1 : w1 = {| bot := set_pendingConfirmation (bot w)
                                   (<[symbol pr :=
                                        {| pair := pr; timestamp := now |}]>
                                      (pendingConfirmation (bot w)));
                          trace := logged |}).
    { subst w1. unfold exec, processAnalyzedPair. run_M.
      rewrite Hrun, Hscore.
      cbn [negb orb String.eqb Ascii.eqb Bool.eqb]. rewrite Hmtf.
      reflexivity. }
    rewrite Hw1. cbn [bot pendingConfirmation set_pendingConfirmation
                      activePositions balance].
    split; [apply lookup_insert_eq|]. split; [reflexivity|].
    split; [reflexivity|].
    assert (Hcl : set_pendingConfirmation
                    (set_pendingConfirmation (bot w)
                       (<[symbol pr := {| pair := pr; timestamp := now |}]>
                          (pendingConfirmation (bot w))))
                    (delete (symbol pr)
                       (<[symbol pr := {| pair := pr; timestamp := now |}]>
                          (pendingConfirmation (bot w))))
                  = cleared).
    { subst cleared. rewrite delete_insert_eq. reflexivity. }
    assert (Hget : forall b m,
              pendingConfirmation (set_pendingConfirmation b m) = m)
      by reflexivity.
    split.
    + intros Hbull. apply ltb_lt in Hbull.
      unfold exec, checkConfirmationsOn5mClose. run_M.
      rewrite !Hget, lookup_insert_eq, Hbull. cbn [pair bot trace].
      rewrite !Hget, Hcl. reflexivity.
    + intros Hbear. apply ltb_ge in Hbear.
      unfold exec, checkConfirmationsOn5mClose. run_M.
      rewrite !Hget, lookup_insert_eq, Hbear. cbn [snd bot trace].
      rewrite !Hget, Hcl. reflexivity.
Qed.

(** *** A pass over the positions *)




















(** **** The stop over the life of a position *)






End Engine.

(** *** The theorems at work *)

(** Scenario E of the design document: a sixth position is refused; and
    a paused bot is handed a Momentum signal through
    [processAnalyzedPair]. *)
Lemma evaluateSignal_gates_witness :
  (MAX_OPEN_POSITIONS (settings (bot full))
     <= len (activePositions (bot full)))%Z
  /\ evaluateSignal None ∅ log10_table pow_whole 0 btc full = (tt, full)
  /\ isRunning (bot (start "VIRTUAL" false)) = false
  /\ processAnalyzedPair None ∅ log10_table pow_whole 0
       (with_score btc "MOMENTUM_BUY") (start "VIRTUAL" false)
     = (tt, start "VIRTUAL" false).
Proof.
  assert (H1 : (MAX_OPEN_POSITIONS (settings (bot full))
                  <= len (activePositions (bot full)))%Z)
    by (intros H; discriminate H).
  split; [exact H1|]. split.
  - apply (proj1 (evaluateSignal_gates None ∅ log10_table pow_whole 0 btc
                    full)).
    left. exact H1.
  - split; [reflexivity|].
    apply (proj2 (evaluateSignal_gates None ∅ log10_table pow_whole 0
                    (with_score btc "MOMENTUM_BUY") (start "VIRTUAL" false))).
    reflexivity.
Defined.

(** C3. The pause is not a gate of [evaluateSignal].  The bot is paused
    and holds nothing.  [processAnalyzedPair] turns a Momentum signal for
    BTCUSDT away, and a pass over the positions does nothing; but
    [evaluateSignal], which the stream handler of the server calls with
    that pair once its candle is analysed, sizes the trade, debits the
    balance, opens the position and announces it.  So does the 5-minute
    confirmation of a Precision signal that was waiting when the bot was
    paused. *)
Theorem paused_bot_opens_position :
  let signal := with_score btc "MOMENTUM_BUY" in
  let paused := start "VIRTUAL" false in
  let w' := exec (evaluateSignal None ∅ log10_table pow_whole 0 signal)
              paused in
  let paused_waiting :=
    {| bot := set_pendingConfirmation (initial "VIRTUAL" false)
                {[ "BTCUSDT" :=
                     {| pair := with_score btc "PENDING_CONFIRMATION";
                        timestamp := 0 |} ]};
       trace := [] |} in
  let w'' := exec (checkConfirmationsOn5mClose None ∅ log10_table pow_whole
                     5 "BTCUSDT" {| k_o := 101; k_c := 102 |})
               paused_waiting in
  isRunning (bot paused) = false
  /\ activePositions (bot paused) = []
  /\ processAnalyzedPair None ∅ log10_table pow_whole 0 signal paused
     = (tt, paused)
  /\ checkAllPositions None ∅ log10_table pow_whole 0 paused = (tt, paused)
  /\ map p_symbol (activePositions (bot w')) = ["BTCUSDT"]
  /\ balance (bot w') < balance (bot paused)
  /\ In (Broadcast "POSITIONS_UPDATED") (trace w')
  /\ isRunning (bot w') = false
  /\ isRunning (bot paused_waiting) = false
  /\ map p_symbol (activePositions (bot w'')) = ["BTCUSDT"].
Proof.
  cbv zeta.
  split; [reflexivity|]. split; [reflexivity|].
  split; [reflexivity|]. split; [reflexivity|].
  split; [vm_compute; reflexivity|].
  split; [vm_compute; reflexivity|].
  split; [vm_compute; tauto|].
  split; [vm_compute; reflexivity|].
  split; [reflexivity|].
  vm_compute; reflexivity.
Qed.

Lemma openPosition_failure_atomic_witness :
  tradingMode (bot (start "REAL_LIVE" true)) = "REAL_LIVE"
  /\ orderFails rejecting (buyOrder ∅ log10_table pow_whole btc 2)
  /\ balance
       (bot (exec (openPosition (Some rejecting) ∅ log10_table pow_whole
                     0 btc 2 98 108) (start "REAL_LIVE" true)))
     = balance (bot (start "REAL_LIVE" true))
  /\ activePositions
       (bot (exec (openPosition (Some rejecting) ∅ log10_table pow_whole
                     0 btc 2 98 108) (start "REAL_LIVE" true)))
     = activePositions (bot (start "REAL_LIVE" true)).
Proof.
  assert (Hmode : tradingMode (bot (start "REAL_LIVE" true)) = "REAL_LIVE")
    by reflexivity.
  assert (Hfail : orderFails rejecting
                    (buyOrder ∅ log10_table pow_whole btc 2)) by exact I.
  split; [exact Hmode|]. split; [exact Hfail|].
  destruct (openPosition_failure_atomic (Some rejecting) ∅ log10_table
              pow_whole rejecting 0 btc 2 98 108 (start "REAL_LIVE" true)
              eq_refl Hmode Hfail) as (Hb & Ha & _).
  split; [exact Hb|exact Ha].
Defined.

Lemma openPosition_failure_consumes_id_witness :
  tradingMode (bot (start "REAL_LIVE" true)) = "REAL_LIVE"
  /\ orderFails picky (buyOrder ∅ log10_table pow_whole btc 2)
  /\ tradeIdCounter
       (bot (exec (openPosition (Some picky) ∅ log10_table pow_whole
                     0 btc 2 98 108) (start "REAL_LIVE" true)))
     = (tradeIdCounter (bot (start "REAL_LIVE" true)) + 1)%Z.
Proof.
  assert (Hmode : tradingMode (bot (start "REAL_LIVE" true)) = "REAL_LIVE")
    by reflexivity.
  assert (Hfail : orderFails picky
                    (buyOrder ∅ log10_table pow_whole btc 2)) by exact I.
  split; [exact Hmode|]. split; [exact Hfail|].
  exact (proj1 (openPosition_failure_consumes_id (Some picky) ∅
                  log10_table pow_whole picky 0 btc 2 98 108
                  (start "REAL_LIVE" true) eq_refl Hmode Hfail)).
Defined.

(** An open on ETHUSDT, a rejected open on BTCUSDT, then an open on
    SOLUSDT: the two positions carry the ids 1 and 3. *)
Example ids_skip_the_failed_open :
  let sol := {| symbol := "SOLUSDT"; score := "MOMENTUM_BUY";
                atr_15m := None; price := 20;
                strategy_type := "MOMENTUM" |} in
  let open_ pr := openPosition (Some picky) ∅ log10_table pow_whole 0 pr
                    2 1 100 in
  let w1 := exec (open_ eth) (start "REAL_LIVE" true) in
  let w2 := exec (open_ btc) w1 in
  let w3 := exec (open_ sol) w2 in
  map id (activePositions (bot w3)) = [1; 3]%Z
  /\ map p_symbol (activePositions (bot w3)) = ["ETHUSDT"; "SOLUSDT"]
  /\ tradeIdCounter (bot w3) = 4%Z.
Proof. vm_compute. repeat split; reflexivity. Qed.

Lemma closePosition_pnl_witness :
  findIndex (fun q => (id q =? id (held "PRECISION"))%Z)
    (activePositions (bot (holding "PRECISION" 106)))
  = Some 0%nat
  /\ activePositions (bot (holding "PRECISION" 106)) !! 0%nat
     = Some (held "PRECISION")
  /\ tradeHistory
       (bot (exec (closePosition None ∅ log10_table pow_whole 7
                     (held "PRECISION") 106) (holding "PRECISION" 106)))
     = tradeHistory (bot (holding "PRECISION" 106))
       ++ [closedTrade (held "PRECISION") 106 7].
Proof.
  split; [reflexivity|]. split; [reflexivity|].
  exact (proj1 (closePosition_pnl None ∅ log10_table pow_whole 7
                  (held "PRECISION") 106 (holding "PRECISION" 106) 0
                  (held "PRECISION") eq_refl eq_refl)).
Defined.

(** C2, as the design document has it, fails. The signal at 100 is
    filled at 101 and the price then reaches the target of 108: the
    closed trade records a [pnl] of 14 on 2 units
    and a [pnl_pct] of 14 / 202, whereas the formulas over
    [average_entry_price] (100) and [total_cost_usd] (200) give 16 and
    14 / 200. *)
Lemma live_fill_pnl_on_entry_price :
  let engine_open :=
    evaluateSignal (Some (filling 101)) ∅ log10_table pow_whole 0 btc in
  let engine_tick :=
    onTicker (Some (filling 101)) ∅ log10_table pow_whole 1000
      "BTCUSDT" 108 in
  match tradeHistory
          (bot (exec engine_tick
                  (exec engine_open (start "REAL_LIVE" true)))) with
  | [t] =>
    status t = "CLOSED"
    /\ exit_price t = Some (take_profit t)
    /\ entry_price t == 101 /\ average_entry_price t == 100
    /\ quantity t == 2 /\ total_cost_usd t == 200
    /\ pnl t == 14
    /\ ~ (pnl t == (108 - average_entry_price t) * quantity t)
    /\ ~ (pnl_pct t == (pnl t / total_cost_usd t) * 100)
  | _ => False
  end.
Proof.
  vm_compute.
  repeat split; try reflexivity; intros H; discriminate H.
Qed.

(** Scenario C of the design document: entry 100, stop 98, target 106;
    the price ticks to 98. *)
Lemma checkPosition_fixed_exit_witness :
  NoDup (map id (activePositions (bot (holding "PRECISION" 98))))
  /\ activePositions (bot (holding "PRECISION" 98)) !! 0%nat
     = Some (held "PRECISION")
  /\ p_strategy_type (held "PRECISION") <> "IGNITION"
  /\ priceCache (bot (holding "PRECISION" 98))
       !! p_symbol (held "PRECISION") = Some 98
  /\ ~ (98 == 0)
  /\ 98 <= stop_loss (held "PRECISION")
  /\ closedAt None ∅ log10_table pow_whole 1000 (holding "PRECISION" 98)
       (exec (checkPosition None ∅ log10_table pow_whole 1000 0)
          (holding "PRECISION" 98))
       0 (held "PRECISION") (stop_loss (held "PRECISION")).
Proof.
  assert (Hnd : NoDup (map id
                         (activePositions (bot (holding "PRECISION" 98))))).
  { cbn. constructor; [intros H; inversion H|constructor]. }
  assert (Hstrat : p_strategy_type (held "PRECISION") <> "IGNITION")
    by discriminate.
  assert (Hnz : ~ (98 == 0)) by (intros H; discriminate H).
  assert (Hstop : 98 <= stop_loss (held "PRECISION"))
    by (intros H; discriminate H).
  repeat (split; [first [assumption|reflexivity]|]).
  exact (proj1 (checkPosition_fixed_exit None ∅ log10_table pow_whole
                  1000 0 (holding "PRECISION" 98) (held "PRECISION") 98
                  Hnd eq_refl Hstrat eq_refl Hnz) Hstop).
Defined.

Example scenario_C :
  let w' := exec (checkPosition None ∅ log10_table pow_whole 1000 0)
              (holding "PRECISION" 98) in
  activePositions (bot w') = []
  /\ map exit_price (tradeHistory (bot w')) = [Some 98]
  /\ map pnl (tradeHistory (bot w')) = [-4 # 1]
  /\ recentlyLostSymbols (bot w') !! "BTCUSDT"
     = Some (1000 + 4 * 60 * 60 * 1000).
Proof. vm_compute. repeat split; reflexivity. Qed.

(** Scenario D of the design document: an Ignition position bought at
    100 with a trailing stop of 1.5%; the price ticks to 110. *)
Lemma checkPosition_trailing_witness :
  NoDup (map id (activePositions (bot (holding "IGNITION" 110))))
  /\ activePositions (bot (holding "IGNITION" 110)) !! 0%nat
     = Some (held "IGNITION")
  /\ p_strategy_type (held "IGNITION") = "IGNITION"
  /\ USE_IGNITION_TRAILING_STOP (settings (bot (holding "IGNITION" 110)))
     = true
  /\ priceCache (bot (holding "IGNITION" 110))
       !! p_symbol (held "IGNITION") = Some 110
  /\ ~ (110 == 0)
  /\ stop_loss (fst (monitor defaults (held "IGNITION") 110))
     = Qmax 98 (Qmax 100 110 * (1 - (3 # 2) / 100)).
Proof.
  assert (Hnd : NoDup (map id
                         (activePositions (bot (holding "IGNITION" 110))))).
  { cbn. constructor; [intros H; inversion H|constructor]. }
  assert (Hnz : ~ (110 == 0)) by (intros H; discriminate H).
  repeat (split; [first [assumption|reflexivity]|]).
  exact (proj1 (checkPosition_trailing None ∅ log10_table pow_whole
                  1000 0 (holding "IGNITION" 110) (held "IGNITION") 110
                  Hnd eq_refl eq_refl eq_refl eq_refl Hnz)).
Defined.

Example scenario_D :
  let tick last_price w :=
    exec (onTicker None ∅ log10_table pow_whole 1000 "BTCUSDT" last_price)
      w in
  let w1 := tick 110 (holding "IGNITION" 100) in
  let w2 := tick (10835 # 100) w1 in
  map stop_loss (activePositions (bot w1)) = [21670 # 200]
  /\ (21670 # 200 == 108.35)
  /\ activePositions (bot w2) = []
  /\ map exit_price (tradeHistory (bot w2)) = [Some (21670 # 200)]
  /\ map take_profit (tradeHistory (bot w2)) = [106 # 1].
Proof. vm_compute. repeat split; reflexivity. Qed.

(** Two positions at their stop on the same tick: closing the first
    splices the array [forEach] is walking, so the second is not visited
    in that pass and is closed by the next one. *)
Example forEach_after_a_close :
  let second := newTrade 2 "VIRTUAL" 0 eth 4 49 53 in
  let w :=
    {| bot := set_priceCache
                (set_activePositions (initial "VIRTUAL" true)
                   [held "PRECISION"; second])
                {[ "BTCUSDT" := 98; "ETHUSDT" := 49 ]};
       trace := [] |} in
  let pass := checkAllPositions None ∅ log10_table pow_whole 1000 in
  map id (activePositions (bot (exec pass w))) = [2%Z]
  /\ map id (activePositions (bot (exec pass (exec pass w)))) = [].
Proof. vm_compute. split; reflexivity. Qed.





(** After a close the next position of the list is not checked in that
    pass.  BTCUSDT is stopped out by its ticker; the Ignition position on
    ETHUSDT, whose check would have raised its stop to
    50 * (1 - 1.5 / 100) = 49.25, keeps its stop of 49 until the next
    pass. *)
Example trailing_after_a_close :
  let ticker :=
    onTicker None ∅ log10_table pow_whole 1000 "BTCUSDT" 98 in
  let w := holding_both "IGNITION" true in
  map id (activePositions (bot (exec ticker w))) = [2%Z]
  /\ map stop_loss (activePositions (bot (exec ticker w))) = [49]
  /\ map stop_loss (activePositions (bot (exec ticker (exec ticker w))))
     = [(50 * (1 - (3 # 2) / 100))%Q].
Proof. vm_compute. repeat split; reflexivity. Qed.

(** Scenario B of the design document and its bullish counterpart. *)
Lemma checkConfirmationsOn5mClose_resolves_witness :
  pendingConfirmation (bot waiting) !! "BTCUSDT"
  = Some {| pair := with_score btc "PENDING_CONFIRMATION"; timestamp := 0 |}
  /\ 101 <= 102
  /\ exec (checkConfirmationsOn5mClose None ∅ log10_table pow_whole 5
             "BTCUSDT" {| k_o := 102; k_c := 101 |}) waiting
     = {| bot := set_pendingConfirmation (bot waiting)
                   (delete "BTCUSDT" (pendingConfirmation (bot waiting)));
          trace := trace waiting
                   ++ [Log "TRADE" (MsgRejected5m "BTCUSDT")] |}.
Proof.
  assert (Hbear : 101 <= 102) by (intros H; discriminate H).
  split; [reflexivity|]. split; [exact Hbear|].
  destruct (checkConfirmationsOn5mClose_resolves None ∅ log10_table
              pow_whole 5 "BTCUSDT" {| k_o := 102; k_c := 101 |} waiting)
    as (_ & Hres & _).
  exact (proj2 (proj2 (Hres _ eq_refl)) Hbear).
Defined.

Example scenario_B :
  let close5m o c :=
    exec (checkConfirmationsOn5mClose None ∅ log10_table pow_whole 5
            "BTCUSDT" {| k_o := o; k_c := c |}) waiting in
  map p_symbol (activePositions (bot (close5m 102 101))) = []
  /\ pendingConfirmation (bot (close5m 102 101)) !! "BTCUSDT" = None
  /\ map p_symbol (activePositions (bot (close5m 100 100))) = []
  /\ map p_symbol (activePositions (bot (close5m 100 101))) = ["BTCUSDT"]
  /\ pendingConfirmation (bot (close5m 100 101)) !! "BTCUSDT" = None.
Proof. vm_compute. repeat split; reflexivity. Qed.

(** *** Further properties at work *)

(** X14. A close does the same to the bot state whatever client is
    configured and whatever the exchange answers to the sell order: a
    rejected sell is logged and the local close goes ahead. *)
Theorem closePosition_whatever_the_exchange
    (api1 api2 : option (OrderParams -> ApiReply))
    (rules1 rules2 : gmap string SymbolRule)
    (log10a log10b : Q -> Q) (pow_a pow_b : Q -> Q -> Q)
    now position exitPrice w :
  bot (exec (closePosition api1 rules1 log10a pow_a now position exitPrice) w)
  = bot (exec (closePosition api2 rules2 log10b pow_b now position
                 exitPrice) w).
Proof.
  destruct (closePosition_outcome api1 rules1 log10a pow_a now position
              exitPrice w)
    as [[Hn1 ->] | (i & p & Hi & Hp & _ & ->)];
  destruct (closePosition_outcome api2 rules2 log10b pow_b now position
              exitPrice w)
    as [[Hn2 ->] | (j & q & Hj & Hq & _ & ->)]; congruence.
Qed.

Lemma session_onePerSymbol_witness :
  String.eqb (tradingMode (bot (start "VIRTUAL" true))) "REAL_LIVE" = false
  /\ onePerSymbol (bot (start "VIRTUAL" true))
  /\ onePerSymbol
       (bot (exec (session None ∅ log10_table pow_whole busy_hour)
               (start "VIRTUAL" true))).
Proof.
  assert (H0 : onePerSymbol (bot (start "VIRTUAL" true))) by constructor.
  split; [reflexivity|]. split; [exact H0|].
  exact (session_onePerSymbol None ∅ log10_table pow_whole busy_hour
           (start "VIRTUAL" true) (or_introl eq_refl) H0).
Defined.

Lemma session_idsFresh_witness :
  idsFresh (bot (start "REAL_LIVE" true))
  /\ idsFresh
       (bot (exec (session (Some picky) ∅ log10_table pow_whole busy_hour)
               (start "REAL_LIVE" true))).
Proof.
  assert (H0 : idsFresh (bot (start "REAL_LIVE" true)))
    by (split; constructor).
  split; [exact H0|].
  exact (session_idsFresh (Some picky) ∅ log10_table pow_whole busy_hour
           (start "REAL_LIVE" true) H0).
Defined.

(** Five positions are open and the cap is five: a sixth signal opens
    nothing. *)
Lemma call_capacity_witness :
  String.eqb (tradingMode (bot full)) "REAL_LIVE" = false
  /\ (len (activePositions
             (bot (exec (call None ∅ log10_table pow_whole 0
                           (EvaluateSignal btc)) full)))
      <= Z.max (len (activePositions (bot full)))
           (MAX_OPEN_POSITIONS (settings (bot full))))%Z.
Proof.
  split; [reflexivity|].
  exact (call_capacity None ∅ log10_table pow_whole 0 (EvaluateSignal btc)
           full (or_introl eq_refl)).
Defined.

Lemma session_statusesSound_witness :
  statusesSound (bot (start "VIRTUAL" true))
  /\ statusesSound
       (bot (exec (session None ∅ log10_table pow_whole busy_hour)
               (start "VIRTUAL" true))).
Proof.
  assert (H0 : statusesSound (bot (start "VIRTUAL" true)))
    by (split; constructor).
  split; [exact H0|].
  exact (session_statusesSound None ∅ log10_table pow_whole busy_hour
           (start "VIRTUAL" true) H0).
Defined.

(** What [busy_hour] does to a fresh paper account. *)
Example busy_hour_book :
  let w' := exec (session None ∅ log10_table pow_whole busy_hour)
              (start "VIRTUAL" true) in
  activePositions (bot w') = []
  /\ map (fun t => (id t, p_symbol t, exit_price t)) (tradeHistory (bot w'))
     = [(1%Z, "BTCUSDT", Some (9800 # 100)); (2%Z, "ETHUSDT", Some (51 # 1))]
  /\ tradeIdCounter (bot w') = 3%Z.
Proof. vm_compute. repeat split; reflexivity. Qed.

Lemma evaluateSignal_paper_open_witness :
  (String.eqb (tradingMode (bot (start "VIRTUAL" true))) "REAL_LIVE" = false
   \/ @None (OrderParams -> ApiReply) = None)
  /\ (bot (exec (evaluateSignal None ∅ log10_table pow_whole 0 btc)
             (start "VIRTUAL" true))
      = bot (start "VIRTUAL" true)
      \/ exists t,
           bot (exec (evaluateSignal None ∅ log10_table pow_whole 0 btc)
                  (start "VIRTUAL" true))
           = opened (bot (start "VIRTUAL" true)) t
           /\ stop_loss t < entry_price t).
Proof.
  assert (Hpaper : String.eqb (tradingMode (bot (start "VIRTUAL" true)))
                     "REAL_LIVE" = false
                   \/ @None (OrderParams -> ApiReply) = None)
    by (left; reflexivity).
  split; [exact Hpaper|].
  destruct (evaluateSignal_paper_open None ∅ log10_table pow_whole 0 btc
              (start "VIRTUAL" true) Hpaper)
    as [H | (t & H & _ & _ & Hstop & _)].
  - left. exact H.
  - right. exists t. split; [exact H|exact Hstop].
Defined.

Lemma closePosition_twice_witness :
  NoDup (map id (activePositions (bot (holding "PRECISION" 106))))
  /\ exec (closePosition None ∅ log10_table pow_whole 9
             (held "PRECISION") 90)
       (exec (closePosition None ∅ log10_table pow_whole 7
                (held "PRECISION") 106) (holding "PRECISION" 106))
     = exec (closePosition None ∅ log10_table pow_whole 7
               (held "PRECISION") 106) (holding "PRECISION" 106).
Proof.
  assert (Hnd : NoDup (map id
                         (activePositions (bot (holding "PRECISION" 106))))).
  { cbn. constructor; [intros H; inversion H|constructor]. }
  split; [exact Hnd|].
  exact (proj2 (closePosition_twice None ∅ log10_table pow_whole 7 9
                  (held "PRECISION") 106 90 (holding "PRECISION" 106) Hnd)).
Defined.

Lemma track_fixed_stop_witness :
  p_strategy_type (held "PRECISION") <> "IGNITION"
  /\ stop_loss (track (held "PRECISION")
                  [(defaults, 101); (defaults, 105); (defaults, 99)])
     = stop_loss (held "PRECISION").
Proof.
  assert (H : p_strategy_type (held "PRECISION") <> "IGNITION")
    by discriminate.
  split; [exact H|].
  exact (proj1 (track_fixed_stop (held "PRECISION")
                  [(defaults, 101); (defaults, 105); (defaults, 99)] H)).
Defined.

(** A paused bot that holds BTCUSDT with a stop at 98: the price is
    cached at 98 and a pass over the positions leaves the world as it was;
    a ticker at 90 is written to the cache and the position stays open. *)
Lemma idle_ticks_witness :
  isRunning (bot paused_holding) = false
  /\ activePositions (bot paused_holding) = [held "PRECISION"]
  /\ priceCache (bot paused_holding) !! "BTCUSDT" = Some 98
  /\ checkAllPositions None ∅ log10_table pow_whole 3 paused_holding
     = (tt, paused_holding)
  /\ exec (onTicker None ∅ log10_table pow_whole 3 "BTCUSDT" 90)
       paused_holding
     = {| bot := set_priceCache (bot paused_holding)
                   (<["BTCUSDT" := 90]> (priceCache (bot paused_holding)));
          trace := trace paused_holding ++ [Broadcast "PRICE_UPDATE"] |}.
Proof.
  split; [reflexivity|]. split; [reflexivity|]. split; [reflexivity|].
  destruct (proj1 (idle_ticks None ∅ log10_table pow_whole 3 paused_holding)
              eq_refl) as [Hpass Hticker].
  split; [exact Hpass|exact (Hticker "BTCUSDT" 90)].
Defined.

Example paused_at_the_stop :
  let w := {| bot := set_activePositions (initial "VIRTUAL" false)
                       [held "PRECISION"];
              trace := [] |} in
  let w' := exec (onTicker None ∅ log10_table pow_whole 3 "BTCUSDT" 90) w in
  activePositions (bot w') = [held "PRECISION"]
  /\ tradeHistory (bot w') = [].
Proof. vm_compute. split; reflexivity. Qed.

Lemma processAnalyzedPair_dispatch_witness :
  isRunning (bot (start "VIRTUAL" true)) = true
  /\ score btc <> "MOMENTUM_BUY" /\ score btc <> "IGNITION_DETECTED"
  /\ score btc <> "PENDING_CONFIRMATION"
  /\ processAnalyzedPair None ∅ log10_table pow_whole 0 btc
       (start "VIRTUAL" true)
     = (tt, start "VIRTUAL" true).
Proof.
  assert (H1 : score btc <> "MOMENTUM_BUY") by discriminate.
  assert (H2 : score btc <> "IGNITION_DETECTED") by discriminate.
  assert (H3 : score btc <> "PENDING_CONFIRMATION") by discriminate.
  repeat (split; [first [assumption|reflexivity]|]).
  exact (proj1 (processAnalyzedPair_dispatch None ∅ log10_table pow_whole
                  0 0 btc {| k_o := 1; k_c := 1 |} (start "VIRTUAL" true)
                  eq_refl) H1 H2 H3).
Defined.

End TradingEngine.

(** ** TradingEngineService.js: formatQuantity on doubles

    Here a number is an IEEE 754 binary64 value and [+], [-], [*] and [/]
    round to nearest, ties to even, as the arithmetic of the platform
    does. *)

Module Binary64.
Import PrimFloat.
Local Open Scope float_scope.

(** An entry of [symbolRules]. *)
Record SymbolRule := {
  stepSize : float
}.

(** Truthiness of a number: [0], [-0] and [NaN] are falsy. *)
Definition truthy (x : float) : bool := negb (x =? 0) && (x =? x).

(** [Math.floor]: below [2^52] in size, adding and taking away [2^52]
    rounds to a whole number, which is the floor or one above it; from
    [2^52] on every double is whole. *)
Definition two52 : float := 4503599627370496.

Definition Math_floor (x : float) : float :=
  if x =? 0 then x
  else if abs x <? two52 then
    let r := if x <? 0 then (x - two52) + two52 else (x + two52) - two52 in
    if x <? r then r - 1 else r
  else x.

(** [Math.max(a, b)]. *)
Definition Math_max (a b : float) : float :=
  if negb (a =? a) then a
  else if negb (b =? b) then b
  else if a <? b then b else a.

(** What the platform returns for the step sizes and the precisions of
    the scenarios: [Math.log10] of 0.1, 0.01 and 0.001, and the powers of
    ten up to the third. *)
Definition log10_table (x : float) : float :=
  if x =? 0x1.999999999999ap-4 then -(1)
  else if x =? 0x1.47ae147ae147bp-7 then -(2)
  else if x =? 0x1.0624dd2f1a9fcp-10 then -(3)
  else 0.

Definition pow10_table (b e : float) : float :=
  if e =? 1 then 10 else if e =? 2 then 100 else if e =? 3 then 1000 else 1.

(** Lots of a thousandth for BTCUSDT and of a hundredth for ETHUSDT. *)
Definition lots : gmap string SymbolRule :=
  {[ "BTCUSDT" := {| stepSize := 0x1.0624dd2f1a9fcp-10 |};
     "ETHUSDT" := {| stepSize := 0x1.47ae147ae147bp-7 |} ]}.

Section Platform.

(** [this.symbolRules], [Math.log10], [Math.pow], and
    [parseFloat(x.toFixed(8))]. *)
Variable symbolRules : gmap string SymbolRule.
Variable Math_log10 : float -> float.
Variable Math_pow : float -> float -> float.
Variable toFixed8 : float -> float.

Definition formatQuantity (sym : string) (quantity : float) : float :=
  match symbolRules !! sym with
  | None => toFixed8 quantity
  | Some rules =>
    if negb (truthy (stepSize rules)) then toFixed8 quantity
    else if stepSize rules =? 1 then Math_floor quantity
    else
      let precision := Math_max 0 (- Math_log10 (stepSize rules)) in
      let factor := Math_pow 10 precision in
      Math_floor (quantity * factor) / factor
  end.

End Platform.

(** C9. [formatQuantity] can round up.  With a step of 0.001 and the raw
    quantity 0.11699999999999999 (the double just below 0.117), the
    product [quantity * factor] rounds to 117 exactly, [Math.floor] has
    nothing left to cut, and the quotient 117/1000 is the double 0.117:
    the quantity returned is above the raw one. *)
Theorem formatQuantity_rounds_up :
  let raw := 0x1.df3b645a1cacp-4 in
  let formatted :=
    formatQuantity lots log10_table pow10_table (fun x => x) "BTCUSDT" raw in
  raw * 1000 = 117
  /\ Math_floor (raw * 1000) = 117
  /\ formatted = 0x1.df3b645a1cac1p-4
  /\ (raw <? formatted) = true.
Proof. cbv zeta. repeat split; vm_compute; reflexivity. Qed.

(** Nor is a formatted quantity a fixed point: with a step of 0.01,
    1.159 is formatted to 1.15, and 1.15 to 1.14, since 1.15 x 100 is
    114.99999999999999. *)
Example formatQuantity_twice :
  let format :=
    formatQuantity lots log10_table pow10_table (fun x => x) "ETHUSDT" in
  format 0x1.28b4395810625p+0 = 0x1.2666666666666p+0
  /\ format 0x1.2666666666666p+0 = 0x1.23d70a3d70a3dp+0.
Proof. cbv zeta. split; vm_compute; reflexivity. Qed.

End Binary64.

(** ** server.js: the performance statistics *)

Module Server.
Import JS TradingEngine.
Local Open Scope Q_scope.

(** The body of the answer of [/api/performance-stats]. *)
Record Stats := {
  total_trades : Z;
  winning_trades : Z;
  losing_trades : Z;
  total_pnl : Q;
  avg_pnl_pct : Q;
  win_rate : Q
}.

(** [botState.tradeHistory.filter(t => t.status === 'CLOSED')]. *)
Definition closedTrades (tradeHistory : list Position) : list Position :=
  List.filter (fun t => String.eqb (status t) "CLOSED") tradeHistory.

(** [trades.reduce((sum, t) => sum + (f(t) || 0), 0)]. *)
Definition sumOf (f : Position -> Q) (trades : list Position) : Q :=
  fold_left (fun sum t => sum + f t) trades 0.

Definition performanceStats (tradeHistory : list Position) : Stats :=
  let closed := closedTrades tradeHistory in
  let total_pnl := sumOf pnl closed in
  let winning_trades := len (List.filter (fun t => ltb 0 (pnl t)) closed) in
  let total_trades := len closed in
  {| total_trades := total_trades;
     winning_trades := winning_trades;
     losing_trades := total_trades - winning_trades;
     total_pnl := total_pnl;
     avg_pnl_pct :=
       if (0 <? total_trades)%Z
       then sumOf pnl_pct closed / inject_Z total_trades
       else 0;
     win_rate :=
       if (0 <? total_trades)%Z
       then inject_Z winning_trades / inject_Z total_trades * 100
       else 0 |}.

Lemma filter_length_le {A} (f : A -> bool) (l : list A) :
  (length (List.filter f l) <= length l)%nat.
Proof.
  induction l as [|x l IH]; cbn; [lia|]. destruct (f x); cbn; lia.
Qed.

Lemma closedTrades_all (l : list Position) :
  Forall (fun t => status t = "CLOSED") l -> closedTrades l = l.
Proof.
  intros Hl. unfold closedTrades.
  induction Hl as [|t l Ht _ IH]; [reflexivity|].
  cbn [List.filter]. rewrite Ht. cbn [String.eqb Ascii.eqb Bool.eqb].
  f_equal. exact IH.
Qed.

(** X27. In the statistics the winners and the losers add up to the
    closed trades, which are at most the ledger (and all of it when every
    trade of the ledger is [CLOSED]); the win rate lies between 0 and
    100; with no closed trade every figure is 0. *)
Theorem performanceStats_counts (tradeHistory : list Position) :
  let s := performanceStats tradeHistory in
  (0 <= winning_trades s <= total_trades s)%Z
  /\ (winning_trades s + losing_trades s = total_trades s)%Z
  /\ (total_trades s <= len tradeHistory)%Z
  /\ (Forall (fun t => status t = "CLOSED") tradeHistory ->
      total_trades s = len tradeHistory)
  /\ 0 <= win_rate s <= 100
  /\ (closedTrades tradeHistory = [] ->
      s = {| total_trades := 0; winning_trades := 0; losing_trades := 0;
             total_pnl := 0; avg_pnl_pct := 0; win_rate := 0 |}).
Proof.
  intros s. subst s. unfold performanceStats. cbv zeta.
  cbn [total_trades winning_trades losing_trades win_rate].
  set (closed := closedTrades tradeHistory).
  pose proof (filter_length_le (fun t => ltb 0 (pnl t)) closed) as Hw.
  pose proof (filter_length_le (fun t => String.eqb (status t) "CLOSED")
                tradeHistory) as Hc.
  fold (closedTrades tradeHistory) in Hc. fold closed in Hc.
  unfold len.
  split; [lia|]. split; [lia|]. split; [lia|]. split; [|split].
  - intros Hall. unfold closed. rewrite (closedTrades_all _ Hall).
    reflexivity.
  - destruct (Z.ltb_spec 0 (Z.of_nat (length closed))) as [Hpos|Hzero].
    + assert (Hq : 0 < inject_Z (Z.of_nat (length closed))).
      { change 0 with (inject_Z 0). rewrite <- Zlt_Qlt. exact Hpos. }
      split.
      * apply Qmult_le_0_compat; [|discriminate].
        apply Qle_shift_div_l; [exact Hq|].
        rewrite Qmult_0_l. change 0 with (inject_Z 0).
        rewrite <- Zle_Qle. lia.
      * assert (Hle : inject_Z (Z.of_nat (length
                        (List.filter (fun t => ltb 0 (pnl t)) closed)))
                      / inject_Z (Z.of_nat (length closed)) <= 1).
        { apply Qle_shift_div_r; [exact Hq|].
          rewrite Qmult_1_l, <- Zle_Qle. lia. }
        lra.
    + split; [apply Qle_refl|discriminate].
  - intros Hnone. rewrite Hnone. reflexivity.
Qed.

(** X28. A close that finds its position adds one closed trade to the
    statistics and its profit or loss, (exit price - entry price) x
    quantity, to the total; it adds a winner exactly when that amount is
    positive.  A close that finds nothing leaves the statistics as they
    were. *)
Theorem performanceStats_after_close
    (apiClient : option (OrderParams -> ApiReply))
    (symbolRules : gmap string SymbolRule)
    (Math_log10 : Q -> Q) (Math_pow : Q -> Q -> Q)
    now position exitPrice w :
  Forall (fun t => status t = "CLOSED") (tradeHistory (bot w)) ->
  let w' :=
    exec (closePosition apiClient symbolRules Math_log10 Math_pow now
            position exitPrice) w in
  let s := performanceStats (tradeHistory (bot w)) in
  let s' := performanceStats (tradeHistory (bot w')) in
  match List.find (fun q => (id q =? id position)%Z)
          (activePositions (bot w)) with
  | None => s' = s
  | Some p =>
    let gain := (exitPrice - entry_price p) * quantity p in
    total_trades s' = (total_trades s + 1)%Z
    /\ total_pnl s' = total_pnl s + gain
    /\ winning_trades s'
       = (winning_trades s + if ltb 0 gain then 1 else 0)%Z
    /\ total_trades s' = len (tradeHistory (bot w'))
  end.
Proof.
  intros Hclosed w' s s'. subst w' s s'.
  pose proof (closePosition_outcome apiClient symbolRules Math_log10
                Math_pow now position exitPrice w) as Hout.
  cbv zeta in Hout.
  pose proof (find_findIndex (fun q => (id q =? id position)%Z)
                (activePositions (bot w))) as Hfind.
  destruct Hout as [[Hnone Hsame]|(i & p & Hsome & Hlook & Hid & Hbot)].
  - rewrite Hnone in Hfind.
    destruct (List.find _ _);
      [destruct Hfind as (j & Hj & _); discriminate Hj|].
    rewrite Hsame. reflexivity.
  - rewrite Hsome in Hfind.
    destruct (List.find _ _) as [p'|] eqn:Hp'.
    2:{ discriminate Hfind. }
    assert (p' = p) as ->.
    { destruct Hfind as (j & Hj & Hlook'). congruence. }
    cbv zeta. rewrite Hbot.
    destruct (settle_fields (bot w) i (closedTrade p exitPrice now) now)
      as (_ & Hhist & _).
    rewrite Hhist.
    pose proof closedTrades_all as Hall.
    assert (Hnew : Forall (fun t => status t = "CLOSED")
                     (tradeHistory (bot w) ++ [closedTrade p exitPrice now])).
    { apply Forall_app. split; [exact Hclosed|]. repeat constructor. }
    unfold performanceStats. cbv zeta.
    cbn [total_trades winning_trades total_pnl].
    rewrite (Hall _ Hnew), (Hall _ Hclosed).
    unfold sumOf, len.
    rewrite fold_left_app, List.filter_app, !length_app.
    cbn [fold_left length].
    change (pnl (closedTrade p exitPrice now))
      with ((exitPrice - entry_price p) * quantity p).
    split; [lia|]. split; [reflexivity|]. split; [|reflexivity].
    cbn [List.filter].
    change (pnl (closedTrade p exitPrice now))
      with ((exitPrice - entry_price p) * quantity p).
    destruct (ltb 0 ((exitPrice - entry_price p) * quantity p));
      cbn [length]; lia.
Qed.

(** The held position closed at a gain: one closed trade, one winner. *)
Lemma performanceStats_after_close_witness :
  let w := holding "PRECISION" 105 in
  let w' :=
    exec (closePosition None ∅ log10_table pow_whole 7 (held "PRECISION")
            105) w in
  total_trades (performanceStats (tradeHistory (bot w'))) = 1%Z
  /\ winning_trades (performanceStats (tradeHistory (bot w'))) = 1%Z.
Proof.
  intros w w'.
  pose proof (performanceStats_after_close None ∅ log10_table pow_whole 7
                (held "PRECISION") 105 w (List.Forall_nil _)) as H.
  cbv zeta in H. fold w' in H.
  change (List.find _ _) with (Some (held "PRECISION")) in H.
  cbv beta iota zeta in H.
  destruct H as (Ht & _ & Hw & _).
  split; [exact Ht|exact Hw].
Defined.

End Server.

(** ** server.js: the backtesting engine *)

Module Backtest.
Import JS Analyzer.
Local Open Scope Q_scope.

(** [position = { entryPrice, quantity, stopLossPrice }]. *)
Record Entry := {
  entryPrice : Q;
  quantity : Q;
  stopLossPrice : Q
}.

(** The variables of the loop; a trade is kept as its [pnl]. *)
Record Loop := {
  capital : Q;
  position : option Entry;
  trades : list Q;
  equityCurve : list Q;
  peakEquity : Q;
  maxDrawdown : Q
}.

(** What [performStrategyBacktest] returns. *)
Record Report := {
  netProfitPct : Q;
  totalTrades : Z;
  winRate : Q;
  profitFactor : Q;
  maxDrawdownPct : Q
}.

Definition bbLen : Z := 20.
Definition slPct : Q := 3.
Definition initialCapital : Q := 10000.

Definition start : Loop :=
  {| capital := initialCapital; position := None; trades := [];
     equityCurve := [initialCapital]; peakEquity := initialCapital;
     maxDrawdown := 0 |}.

(** [arr[i]] followed by a property access: on a missing element the
    access throws. *)
Definition item {A} (name : string) (arr : list A) (i : Z) : Result A :=
  match (if (i <? 0)%Z then None else arr !! Z.to_nat i) with
  | Some x => Ok x
  | None => Throw (TypeError name)
  end.

(** The block [if (position) { ... }]: the capital, the position, the
    trades and the current equity after it. *)
Definition exits (st : Loop) (currentCandle : Kline) (currentBB : BBOutput)
    (currentEquity : Q) : Q * option Entry * list Q * Q :=
  match position st with
  | Some p =>
    let exit := leb (upper currentBB) (high currentCandle) in
    let exitPrice := if exit then upper currentBB else 0 in
    let stopped := leb (low currentCandle) (stopLossPrice p) in
    let exitPrice :=
      if stopped && (negb exit || ltb (stopLossPrice p) exitPrice)
      then stopLossPrice p else exitPrice in
    let exit := exit || stopped in
    if exit then
      let capital' := capital st + quantity p * exitPrice in
      (capital', None,
       trades st ++ [(exitPrice - entryPrice p) * quantity p], capital')
    else (capital st, Some p, trades st, currentEquity)
  | None => (capital st, None, trades st, currentEquity)
  end.

(** The block [if (!position) { ... }]. *)
Definition enters (position : option Entry)
    (currentCandle prevCandle : Kline) (currentBB prevBB : BBOutput)
    (currentEquity : Q) : option Entry :=
  match position with
  | Some p => Some p
  | None =>
    let candle_broke_lower :=
      ltb (close currentCandle) (lower currentBB)
      && leb (lower prevBB) (close prevCandle) in
    if candle_broke_lower && ltb 0 (close currentCandle) then
      let positionSize := currentEquity * (1 # 10) in
      Some {| entryPrice := close currentCandle;
              quantity := positionSize / close currentCandle;
              stopLossPrice := close currentCandle * (1 - slPct / 100) |}
    else None
  end.

(** The body of the loop once the candles and the bands of the turn are
    at hand. *)
Definition advance (st : Loop) (currentCandle prevCandle : Kline)
    (currentBB prevBB : BBOutput) : Loop :=
  let currentEquity :=
    capital st
    + match position st with
      | Some p => quantity p * close currentCandle
      | None => 0
      end in
  let '(capital1, position1, trades1, currentEquity1) :=
    exits st currentCandle currentBB currentEquity in
  let position2 :=
    enters position1 currentCandle prevCandle currentBB prevBB
      currentEquity1 in
  let peak := Qmax (peakEquity st) currentEquity1 in
  let drawdown := (peak - currentEquity1) / peak * 100 in
  {| capital := capital1; position := position2; trades := trades1;
     equityCurve := equityCurve st ++ [currentEquity1];
     peakEquity := peak;
     maxDrawdown := Qmax (maxDrawdown st) drawdown |}.

(** One turn of the loop, for the index [i]. *)
Definition turn (klines : list Kline) (bb : list BBOutput) (st : Loop)
    (i : Z) : Result Loop :=
  let currentBBIndex := (i - bbLen + 1)%Z in
  let prevBBIndex := (currentBBIndex - 1)%Z in
  if (prevBBIndex <? 0)%Z || (len bb <=? currentBBIndex)%Z then Ok st
  else
    currentCandle ← item "currentCandle" klines i;
    prevCandle ← item "prevCandle" klines (i - 1);
    currentBB ← item "currentBB" bb currentBBIndex;
    prevBB ← item "prevBB" bb prevBBIndex;
    Ok (advance st currentCandle prevCandle currentBB prevBB).

(** [for (let i = bbLen; i < klines.length; i++)]. *)
Definition indices (klines : list Kline) : list Z :=
  map Z.of_nat (seq 20 (length klines - 20)).

Fixpoint loop (klines : list Kline) (bb : list BBOutput)
    (todo : list Z) (st : Loop) : Result Loop :=
  match todo with
  | [] => Ok st
  | i :: rest => st' ← turn klines bb st i; loop klines bb rest st'
  end.

(** The figures computed after the loop.  An empty equity curve would
    give [NaN], which is reported as 0. *)
Definition report (st : Loop) : Report :=
  let netProfitPct :=
    match last (equityCurve st) with
    | Some finalEquity =>
      (finalEquity - initialCapital) / initialCapital * 100
    | None => 0
    end in
  let winningTrades := List.filter (fun pnl => ltb 0 pnl) (trades st) in
  let totalProfit := fold_left (fun sum pnl => sum + pnl) winningTrades 0 in
  let totalLoss :=
    fold_left (fun sum pnl => sum + Qabs pnl)
      (List.filter (fun pnl => leb pnl 0) (trades st)) 0 in
  let winRate :=
    if (0 <? len (trades st))%Z
    then inject_Z (len winningTrades) / inject_Z (len (trades st)) * 100
    else 0 in
  let profitFactor :=
    if ltb 0 totalLoss then totalProfit / totalLoss
    else if ltb 0 totalProfit then 9999 else 1 in
  {| netProfitPct := netProfitPct; totalTrades := len (trades st);
     winRate := winRate; profitFactor := profitFactor;
     maxDrawdownPct := maxDrawdown st |}.

(** Bands for the scenarios: 2 above and below the mean of the window. *)
Definition channel (period : nat) (values : list Q) (stdDev : Q)
  : list BBOutput :=
  map (fun m => {| upper := m + stdDev; middle := m; lower := m - stdDev |})
      (Classifier.sma period values).

(** A flat market at 100 that dips to 90 and comes back. *)
Definition candle (c : Q) : Kline :=
  {| open := c; high := c; low := c; close := c; volume := 1 |}.

Definition dip : list Kline :=
  repeat (candle 100) 21 ++ [candle 90; candle 95; candle 103].

(** The same market falling through the stop of the entry at 90. *)
Definition crash : list Kline :=
  repeat (candle 100) 21 ++ [candle 90; candle 80].

(** The position is sized, priced and stopped sensibly, and neither the
    capital nor the equity has ever been below the initial capital. *)
Definition neverBelow (st : Loop) : Prop :=
  initialCapital <= capital st
  /\ (forall p, position st = Some p ->
        0 <= quantity p /\ 0 <= stopLossPrice p)
  /\ (exists e, last (equityCurve st) = Some e /\ initialCapital <= e)
  /\ initialCapital <= peakEquity st
  /\ 0 <= maxDrawdown st <= 100.

Section Engine.

(** [BollingerBands.calculate({ period, values, stdDev })]. *)
Variable BollingerBands_calculate : nat -> list Q -> Q -> list BBOutput.

Definition performStrategyBacktest (klines : list Kline) : Result Report :=
  let closes := map close klines in
  let bb := BollingerBands_calculate 20 closes 2 in
  st ← loop klines bb (indices klines) start;
  Ok (report st).

(** *** The loop *)

Lemma item_in_range {A} (name : string) (arr : list A) (i : Z) :
  (0 <= i < len arr)%Z ->
  exists x, item name arr i = Ok x /\ arr !! Z.to_nat i = Some x.
Proof.
  intros Hi. unfold item, len in *.
  destruct (Z.ltb_spec i 0) as [Hneg|_]; [lia|].
  destruct (arr !! Z.to_nat i) as [x|] eqn:Hx.
  - exists x. split; reflexivity.
  - apply lookup_ge_None in Hx. lia.
Qed.

(** A turn either skips ([continue]) or advances on candles of the
    window and bands of the package; it never throws. *)
Lemma turn_cases klines bb st i :
  (20 <= i < len klines)%Z ->
  (turn klines bb st i = Ok st /\ (len bb <= i - 19)%Z)
  \/ exists currentCandle prevCandle currentBB prevBB,
       klines !! Z.to_nat i = Some currentCandle
       /\ bb !! Z.to_nat (i - 19) = Some currentBB
       /\ turn klines bb st i
          = Ok (advance st currentCandle prevCandle currentBB prevBB).
Proof.
  intros Hi. unfold turn, bbLen. cbv zeta.
  destruct (Z.ltb_spec (i - 20 + 1 - 1) 0) as [Hneg|_]; [lia|].
  cbn [orb].
  destruct (Z.leb_spec (len bb) (i - 20 + 1)) as [Hskip|Hin].
  { left. split; [reflexivity|lia]. }
  right.
  destruct (item_in_range "currentCandle" klines i) as (cc & Hcc & Hcc');
    [lia|].
  destruct (item_in_range "prevCandle" klines (i - 1)) as (pc & Hpc & _);
    [lia|].
  destruct (item_in_range "currentBB" bb (i - 20 + 1)) as (cb & Hcb & Hcb');
    [lia|].
  destruct (item_in_range "prevBB" bb (i - 20 + 1 - 1)) as (pb & Hpb & _);
    [lia|].
  exists cc, pc, cb, pb.
  rewrite Hcc, bind_Ok, Hpc, bind_Ok, Hcb, bind_Ok, Hpb, bind_Ok.
  replace (i - 19)%Z with (i - 20 + 1)%Z by lia.
  split; [exact Hcc'|]. split; [exact Hcb'|reflexivity].
Qed.

(** What the [if (position)] block leaves. *)
Lemma exits_cases st currentCandle currentBB currentEquity :
  let r := exits st currentCandle currentBB currentEquity in
  (r = (capital st, position st, trades st, currentEquity))
  \/ exists p exitPrice,
       position st = Some p
       /\ (exitPrice = upper currentBB \/ exitPrice = stopLossPrice p)
       /\ r = (capital st + quantity p * exitPrice, None,
               trades st ++ [(exitPrice - entryPrice p) * quantity p],
               capital st + quantity p * exitPrice).
Proof.
  unfold exits. cbv zeta.
  destruct (position st) as [p|]; [|left; reflexivity].
  destruct (leb (upper currentBB) (high currentCandle)),
    (leb (low currentCandle) (stopLossPrice p));
    cbn [orb andb negb].
  - right. exists p.
    destruct (ltb (stopLossPrice p) (upper currentBB));
      eexists; (split; [reflexivity|]); (split; [|reflexivity]); tauto.
  - right. exists p, (upper currentBB).
    split; [reflexivity|]. split; [tauto|reflexivity].
  - right. exists p, (stopLossPrice p).
    split; [reflexivity|]. split; [tauto|reflexivity].
  - left. reflexivity.
Qed.

Lemma advance_general st cc pc cb pb :
  0 <= maxDrawdown st ->
  0 <= maxDrawdown (advance st cc pc cb pb)
  /\ (length (trades (advance st cc pc cb pb))
      <= length (trades st) + 1)%nat.
Proof.
  intros Hdd. unfold advance. cbv zeta.
  pose proof (exits_cases st cc cb
    (capital st + match position st with
                  | Some p => quantity p * close cc
                  | None => 0
                  end)) as Hex.
  cbv zeta in Hex.
  destruct Hex as [->|(p & x & _ & _ & ->)];
    cbn [maxDrawdown trades]; (split;
      [eapply Qle_trans; [exact Hdd|apply Q.le_max_l]|]).
  - lia.
  - rewrite length_app. cbn [length]. lia.
Qed.

Lemma drawdown_range (peak equity : Q) :
  0 <= equity -> 0 < Qmax peak equity ->
  0 <= (Qmax peak equity - equity) / Qmax peak equity * 100 <= 100.
Proof.
  intros He Hp.
  pose proof (Q.le_max_r peak equity) as Hle.
  set (m := Qmax peak equity) in *. clearbody m.
  assert (H0 : 0 <= (m - equity) / m).
  { apply Qle_shift_div_l; [exact Hp|]. lra. }
  assert (H1 : (m - equity) / m <= 1).
  { apply Qle_shift_div_r; [exact Hp|]. lra. }
  split; lra.
Qed.

Lemma advance_neverBelow st cc pc cb pb :
  neverBelow st -> 0 <= close cc -> 0 <= upper cb ->
  neverBelow (advance st cc pc cb pb).
Proof.
  intros (Hcap & Hpos & (e & _ & _) & Hpeak & Hdd0 & Hdd1) Hclose Hupper.
  assert (Hinit : 0 < initialCapital) by reflexivity.
  unfold advance. cbv zeta.
  pose proof (exits_cases st cc cb
    (capital st + match position st with
                  | Some p => quantity p * close cc
                  | None => 0
                  end)) as Hex.
  cbv zeta in Hex.
  assert (Hequity : initialCapital
                    <= capital st + match position st with
                                    | Some p => quantity p * close cc
                                    | None => 0
                                    end).
  { destruct (position st) as [p|] eqn:Hp; [|lra].
    destruct (Hpos p eq_refl) as [Hq _].
    pose proof (Qmult_le_0_compat _ _ Hq Hclose). lra. }
  assert (Hfinish : forall capital1 position1 trades1 equity1,
    initialCapital <= capital1 -> initialCapital <= equity1 ->
    (forall p, position1 = Some p ->
       0 <= quantity p /\ 0 <= stopLossPrice p) ->
    neverBelow
      {| capital := capital1;
         position := enters position1 cc pc cb pb equity1;
         trades := trades1;
         equityCurve := equityCurve st ++ [equity1];
         peakEquity := Qmax (peakEquity st) equity1;
         maxDrawdown :=
           Qmax (maxDrawdown st)
             ((Qmax (peakEquity st) equity1 - equity1)
              / Qmax (peakEquity st) equity1 * 100) |}).
  { intros capital1 position1 trades1 equity1 Hc1 He1 Hp1.
    assert (Hpk : initialCapital <= Qmax (peakEquity st) equity1).
    { eapply Qle_trans; [exact Hpeak|apply Q.le_max_l]. }
    destruct (drawdown_range (peakEquity st) equity1) as [Hd0 Hd1];
      [lra|lra|].
    unfold neverBelow.
    cbn [capital position equityCurve peakEquity maxDrawdown].
    split; [exact Hc1|]. split; [|split; [|split; [exact Hpk|split]]].
    - intros p. unfold enters.
      destruct position1 as [p1|]; [intros [= <-]; apply Hp1; reflexivity|].
      cbv zeta.
      destruct (ltb (close cc) (lower cb) && leb (lower pb) (close pc));
        cbn [andb]; [|discriminate].
      destruct (ltb 0 (close cc)) eqn:Hpos'; [|discriminate].
      apply ltb_lt in Hpos'. intros [= <-]. cbn [quantity stopLossPrice].
      split.
      + apply Qle_shift_div_l; [exact Hpos'|]. lra.
      + apply Qmult_le_0_compat; [exact Hclose|]. discriminate.
    - exists equity1. split; [apply last_snoc|exact He1].
    - eapply Qle_trans; [exact Hdd0|apply Q.le_max_l].
    - apply Q.max_lub; assumption. }
  destruct Hex as [->|(p & x & Hp & Hx & ->)].
  - apply Hfinish; [exact Hcap|exact Hequity|exact Hpos].
  - destruct (Hpos p Hp) as [Hq Hs].
    assert (Hx0 : 0 <= x) by (destruct Hx as [->| ->]; assumption).
    pose proof (Qmult_le_0_compat _ _ Hq Hx0).
    apply Hfinish; [lra|lra|discriminate].
Qed.

(** The loop runs to its end on the indices it is given. *)
Lemma loop_runs klines bb todo st (Keeps : Loop -> Prop) :
  Forall (fun i => (20 <= i < len klines)%Z) todo ->
  (forall st cc pc cb pb i,
     In i todo -> klines !! Z.to_nat i = Some cc ->
     bb !! Z.to_nat (i - 19) = Some cb ->
     Keeps st -> Keeps (advance st cc pc cb pb)) ->
  Keeps st ->
  exists st', loop klines bb todo st = Ok st' /\ Keeps st'.
Proof.
  revert st. induction todo as [|i rest IH]; intros st Hrange Hkeep Hst.
  - exists st. split; [reflexivity|exact Hst].
  - inversion Hrange as [|? ? Hi Hrest]; subst.
    cbn [loop].
    destruct (turn_cases klines bb st i Hi)
      as [[Hskip _]|(cc & pc & cb & pb & Hcc & Hcb & Hturn)].
    + rewrite Hskip, bind_Ok. apply IH; [exact Hrest| |exact Hst].
      intros; eapply Hkeep; try eassumption. now right.
    + rewrite Hturn, bind_Ok. apply IH; [exact Hrest| |].
      * intros; eapply Hkeep; try eassumption. now right.
      * eapply Hkeep; try eassumption. now left.
Qed.

Lemma indices_range klines :
  Forall (fun i => (20 <= i < len klines)%Z) (indices klines).
Proof.
  unfold indices, len. apply Forall_forall. intros i Hi.
  apply list_elem_of_fmap in Hi. destruct Hi as (n & -> & Hn).
  apply elem_of_seq in Hn. lia.
Qed.

Lemma loop_trades klines bb todo st st' :
  loop klines bb todo st = Ok st' ->
  Forall (fun i => (20 <= i < len klines)%Z) todo ->
  (length (trades st') <= length (trades st) + length todo)%nat.
Proof.
  revert st. induction todo as [|i rest IH]; intros st Hloop Hrange.
  - cbn in Hloop. injection Hloop as <-. cbn. lia.
  - inversion Hrange as [|? ? Hi Hrest]; subst.
    cbn [loop] in Hloop.
    destruct (turn_cases klines bb st i Hi)
      as [[Hskip _]|(cc & pc & cb & pb & _ & _ & Hturn)].
    + rewrite Hskip, bind_Ok in Hloop.
      specialize (IH _ Hloop Hrest). cbn [length]. lia.
    + rewrite Hturn, bind_Ok in Hloop.
      specialize (IH _ Hloop Hrest). cbn [length].
      assert (Hone : (length (trades (advance st cc pc cb pb))
                      <= length (trades st) + 1)%nat).
      { unfold advance. cbv zeta.
        pose proof (exits_cases st cc cb
          (capital st + match position st with
                        | Some p => quantity p * close cc
                        | None => 0
                        end)) as Hex.
        cbv zeta in Hex.
        destruct Hex as [->|(p & x & _ & _ & ->)]; cbn [trades];
          [lia|rewrite length_app; cbn [length]; lia]. }
      lia.
Qed.

Lemma loop_skips klines bb todo st :
  Forall (fun i => (20 <= i < len klines)%Z) todo ->
  (len bb <= 1)%Z -> loop klines bb todo st = Ok st.
Proof.
  intros Hrange Hbb. induction Hrange as [|i rest Hi _ IH]; [reflexivity|].
  cbn [loop]. unfold turn, bbLen. cbv zeta.
  destruct (Z.leb_spec (len bb) (i - 20 + 1)) as [_|Hin]; [|lia].
  rewrite orb_true_r, bind_Ok. exact IH.
Qed.

(** *** The figures *)

Lemma sum_positive_nonneg (l : list Q) (acc : Q) :
  0 <= acc ->
  0 <= fold_left (fun sum pnl => sum + pnl)
         (List.filter (fun pnl => ltb 0 pnl) l) acc.
Proof.
  revert acc. induction l as [|x l IH]; intros acc Hacc;
    cbn [List.filter fold_left]; [exact Hacc|].
  destruct (ltb 0 x) eqn:Hx; [|apply IH; exact Hacc].
  cbn [fold_left]. apply IH. apply ltb_lt in Hx. lra.
Qed.

Lemma report_ranges (st : Loop) :
  0 <= winRate (report st) <= 100 /\ 0 <= profitFactor (report st).
Proof.
  unfold report. cbv zeta. cbn [winRate profitFactor].
  split.
  - unfold len.
    pose proof (Server.filter_length_le (fun pnl => ltb 0 pnl) (trades st))
      as Hw.
    destruct (Z.ltb_spec 0 (Z.of_nat (length (trades st)))) as [Hpos|_];
      [|split; [apply Qle_refl|discriminate]].
    assert (Hq : 0 < inject_Z (Z.of_nat (length (trades st)))).
    { change 0 with (inject_Z 0). rewrite <- Zlt_Qlt. exact Hpos. }
    assert (H0 : 0 <= inject_Z (Z.of_nat (length
                   (List.filter (fun pnl => ltb 0 pnl) (trades st))))
                 / inject_Z (Z.of_nat (length (trades st)))).
    { apply Qle_shift_div_l; [exact Hq|].
      rewrite Qmult_0_l. change 0 with (inject_Z 0).
      rewrite <- Zle_Qle. lia. }
    assert (H1 : inject_Z (Z.of_nat (length
                   (List.filter (fun pnl => ltb 0 pnl) (trades st))))
                 / inject_Z (Z.of_nat (length (trades st))) <= 1).
    { apply Qle_shift_div_r; [exact Hq|].
      rewrite Qmult_1_l, <- Zle_Qle. lia. }
    split; lra.
  - destruct (ltb 0 (fold_left _ (List.filter (fun pnl => leb pnl 0) _) 0))
      eqn:Hloss.
    + apply ltb_lt in Hloss.
      apply Qle_shift_div_l; [exact Hloss|]. rewrite Qmult_0_l.
      apply sum_positive_nonneg. apply Qle_refl.
    + match goal with
      | |- context [if ?b then _ else _] => destruct b
      end; discriminate.
Qed.

(** X29. [performStrategyBacktest] never throws, whatever the candles and
    the bands it is given.  It reports at most one trade per candle after
    the twentieth, a win rate between 0 and 100, a profit factor and a
    maximal drawdown that are not negative; and on a history of at most 20
    candles, or with fewer than two bands, the neutral report: no trade,
    no profit, a profit factor of 1. *)
Theorem backtest_metrics (klines : list Kline) :
  exists r,
    performStrategyBacktest klines = Ok r
    /\ (0 <= totalTrades r <= Z.max 0 (len klines - 20))%Z
    /\ 0 <= winRate r <= 100
    /\ 0 <= profitFactor r
    /\ 0 <= maxDrawdownPct r
    /\ ((length klines <= 20)%nat
        \/ (length (BollingerBands_calculate 20 (map close klines) 2)
            <= 1)%nat ->
        netProfitPct r == 0 /\ totalTrades r = 0%Z /\ winRate r = 0
        /\ profitFactor r = 1 /\ maxDrawdownPct r = 0).
Proof.
  unfold performStrategyBacktest. cbv zeta.
  set (bb := BollingerBands_calculate 20 (map close klines) 2).
  destruct (loop_runs klines bb (indices klines) start
              (fun st => 0 <= maxDrawdown st))
    as (st & Hloop & Hdd).
  { apply indices_range. }
  { intros st cc pc cb pb i _ _ _ H.
    apply (advance_general st cc pc cb pb H). }
  { apply Qle_refl. }
  rewrite Hloop, bind_Ok. exists (report st).
  split; [reflexivity|].
  pose proof (loop_trades _ _ _ _ _ Hloop (indices_range klines)) as Hn.
  destruct (report_ranges st) as [Hwin Hpf].
  split; [|split; [exact Hwin|split; [exact Hpf|split; [exact Hdd|]]]].
  - unfold report. cbv zeta. cbn [totalTrades]. unfold len.
    unfold indices in Hn. rewrite length_map, length_seq in Hn.
    cbn [start trades length] in Hn. lia.
  - intros Hshort.
    assert (Hstart : st = start).
    { assert (Hskip : loop klines bb (indices klines) start = Ok start).
      { destruct Hshort as [Hk|Hb].
        - unfold indices.
          replace (length klines - 20)%nat with 0%nat by lia. reflexivity.
        - apply loop_skips; [apply indices_range|]. unfold len. fold bb in Hb.
          lia. }
      congruence. }
    subst st. repeat split; reflexivity.
Qed.

(** X30. On candles whose closes are not negative and bands whose upper
    band is not negative the backtest cannot report a loss: an entry does
    not debit the capital, while an exit credits it with the whole
    proceeds, so the equity never falls below the initial capital.  The
    net profit reported is at least 0 and the maximal drawdown lies
    between 0 and 100. *)
Theorem backtest_never_loses (klines : list Kline) :
  Forall (fun k => 0 <= close k) klines ->
  Forall (fun b => 0 <= upper b)
    (BollingerBands_calculate 20 (map close klines) 2) ->
  exists r,
    performStrategyBacktest klines = Ok r
    /\ 0 <= netProfitPct r
    /\ 0 <= maxDrawdownPct r <= 100.
Proof.
  intros Hcloses Huppers.
  unfold performStrategyBacktest. cbv zeta.
  set (bb := BollingerBands_calculate 20 (map close klines) 2) in *.
  destruct (loop_runs klines bb (indices klines) start neverBelow)
    as (st & Hloop & Hst).
  { apply indices_range. }
  { intros st cc pc cb pb i _ Hcc Hcb Hst.
    apply advance_neverBelow; [exact Hst| |].
    - rewrite Forall_forall in Hcloses. apply Hcloses.
      eapply list_elem_of_lookup_2. exact Hcc.
    - rewrite Forall_forall in Huppers. apply Huppers.
      eapply list_elem_of_lookup_2. exact Hcb. }
  { unfold neverBelow, start.
    cbn [capital position equityCurve peakEquity maxDrawdown].
    split; [apply Qle_refl|]. split; [discriminate|].
    split; [exists initialCapital; split; [reflexivity|apply Qle_refl]|].
    split; [apply Qle_refl|]. split; discriminate. }
  rewrite Hloop, bind_Ok. exists (report st). split; [reflexivity|].
  destruct Hst as (_ & _ & (e & He & Hge) & _ & Hdd).
  split; [|exact Hdd].
  unfold report. cbv zeta. cbn [netProfitPct]. rewrite He.
  unfold initialCapital in *.
  unfold Qdiv. change (/ 10000) with (1 # 10000). lra.
Qed.

End Engine.

(** *** The backtest at work *)

Lemma backtest_never_loses_witness :
  exists r,
    performStrategyBacktest channel crash = Ok r
    /\ 0 <= netProfitPct r
    /\ 0 <= maxDrawdownPct r <= 100.
Proof.
  apply (backtest_never_loses channel crash).
  - unfold crash. cbn [repeat app].
    repeat (apply List.Forall_cons; [vm_compute; discriminate|]).
    apply List.Forall_nil.
  - vm_compute.
    repeat (apply List.Forall_cons; [vm_compute; discriminate|]).
    apply List.Forall_nil.
Defined.

(** One trade, stopped out at a loss of 30, on a report of a net profit of
    almost 10%. *)
Example a_loss_reported_as_a_gain :
  match loop crash (channel 20 (map close crash) 2) (indices crash) start,
        performStrategyBacktest channel crash with
  | Ok st, Ok r =>
    Forall (fun pnl => pnl == -30) (trades st)
    /\ totalTrades r = 1%Z /\ winRate r = 0
    /\ netProfitPct r == 97 # 10
  | _, _ => False
  end.
Proof. vm_compute. repeat split; repeat constructor. Qed.

End Backtest.
